(** * Publish/subscribe handlers: a shallow embedding and its properties

    The development follows the two Lambda entry points of the repository:

    - [src/publisher/lambda_function.py] and [src/publisher/config.py]
      (module [Publisher]);
    - [src/subscriber/lambda_function.py] and [src/subscriber/config.py]
      (module [Subscriber]).

    Python values are the JSON-shaped values the handlers receive
    (module [Py]).  Exceptions are values of type [exn]; code that can raise
    returns a [result]; code that also reads the clock, draws identifiers or
    talks to an external service threads a [world] through a small state and
    exception monad.  The Python standard library ([json.loads],
    [json.dumps], [str], [uuid.uuid4], [datetime.utcnow]) and the AWS clients
    are not part of the repository: the publisher takes them as Section
    variables, the subscriber as the fields of a [runtime]. *)

From Stdlib Require Import ZArith List String Ascii Bool Lia DecimalString.
Import ListNotations.

Local Open Scope string_scope.
Local Open Scope Z_scope.

Set Warnings "-register-all".

(* ================================================================== *)
(** * Python values, exceptions and the built-ins the handlers use *)
(* ================================================================== *)

Module Py.

(** A value of type [Any] as the handlers meet it: what [json.loads]
    produces.  A [str] is the sequence of its code points (code points below
    256 are carried); a [float] is kept as mantissa and binary exponent; a
    [dict] keeps its items in insertion order. *)
Inductive value : Type :=
| VNone
| VBool (b : bool)
| VInt (n : Z)
| VFloat (m e : Z)
| VStr (s : string)
| VList (xs : list value)
| VDict (items : list (string * value)).

(** [type(v).__name__] *)
Definition type_name (v : value) : string :=
  match v with
  | VNone => "NoneType"
  | VBool _ => "bool"
  | VInt _ => "int"
  | VFloat _ _ => "float"
  | VStr _ => "str"
  | VList _ => "list"
  | VDict _ => "dict"
  end.

(** Exceptions (subclasses of [Exception]).  The first three are the
    repository's own classes; [ClientError] and [BotoCoreError] are
    botocore's; [OtherException] is any other class, by name. *)
Inductive exn : Type :=
| ValidationError (msg : string)
| SNSPublishError (msg : string)
| MessageProcessingError (msg : string)
| JSONDecodeError (msg : string)
| ValueError (msg : string)
| TypeError (msg : string)
| AttributeError (msg : string)
| KeyError (key : string)
| ClientError (msg : string)
| BotoCoreError (msg : string)
| OtherException (name msg : string).

(** [str(e)] *)
Definition str_exn (e : exn) : string :=
  match e with
  | ValidationError m | SNSPublishError m | MessageProcessingError m
  | JSONDecodeError m | ValueError m | TypeError m | AttributeError m
  | ClientError m | BotoCoreError m | OtherException _ m => m
  | KeyError k => "'" ++ k ++ "'"
  end.

Definition is_MessageProcessingError (e : exn) : bool :=
  match e with MessageProcessingError _ => true | _ => false end.

Definition is_ValidationError (e : exn) : bool :=
  match e with ValidationError _ => true | _ => false end.

Definition is_SNSPublishError (e : exn) : bool :=
  match e with SNSPublishError _ => true | _ => false end.

Definition is_JSONDecodeError (e : exn) : bool :=
  match e with JSONDecodeError _ => true | _ => false end.

(** A computation that returns or raises. *)
Inductive result (A : Type) : Type :=
| Ok (a : A)
| Raise (e : exn).
Arguments Ok {A} a.
Arguments Raise {A} e.

Definition rbind {A B} (r : result A) (k : A -> result B) : result B :=
  match r with
  | Ok a => k a
  | Raise e => Raise e
  end.

Definition raises {A} (r : result A) (p : exn -> bool) : bool :=
  match r with
  | Ok _ => false
  | Raise e => p e
  end.

(** ** Truth value, [isinstance], dictionaries *)

(** [bool(v)]: [None], [False], zero, and the empty string, list and dict
    are false. *)
Definition truthy (v : value) : bool :=
  match v with
  | VNone => false
  | VBool b => b
  | VInt n => negb (n =? 0)
  | VFloat m _ => negb (m =? 0)
  | VStr s => negb (String.eqb s "")
  | VList xs => match xs with [] => false | _ => true end
  | VDict items => match items with [] => false | _ => true end
  end.

Definition isinstance_dict (v : value) : bool :=
  match v with VDict _ => true | _ => false end.

Definition isinstance_str (v : value) : bool :=
  match v with VStr _ => true | _ => false end.

Fixpoint lookup (k : string) (items : list (string * value)) : option value :=
  match items with
  | [] => None
  | (k', v) :: rest => if String.eqb k k' then Some v else lookup k rest
  end.

Definition has_key (k : string) (items : list (string * value)) : bool :=
  match lookup k items with Some _ => true | None => false end.

Fixpoint is_substring (k s : string) : bool :=
  String.prefix k s ||
  match s with
  | EmptyString => false
  | String _ s' => is_substring k s'
  end.

Definition no_attribute (v : value) (attr : string) : exn :=
  AttributeError ("'" ++ type_name v ++ "' object has no attribute '" ++ attr ++ "'").

(** [k in v] for a string literal [k]: key membership on a dict, element
    membership on a list, substring on a str, [TypeError] elsewhere. *)
Definition py_contains (k : string) (v : value) : result bool :=
  match v with
  | VDict items => Ok (has_key k items)
  | VList xs =>
      Ok (existsb (fun x => match x with VStr s => String.eqb s k | _ => false end) xs)
  | VStr s => Ok (is_substring k s)
  | _ => Raise (TypeError ("argument of type '" ++ type_name v ++ "' is not iterable"))
  end.

(** [v[k]] for a string literal [k]. *)
Definition py_getitem (v : value) (k : string) : result value :=
  match v with
  | VDict items =>
      match lookup k items with
      | Some x => Ok x
      | None => Raise (KeyError k)
      end
  | VList _ => Raise (TypeError "list indices must be integers or slices, not str")
  | VStr _ => Raise (TypeError "string indices must be integers")
  | _ => Raise (TypeError ("'" ++ type_name v ++ "' object is not subscriptable"))
  end.

(** [v.get(k, default)]: only a dict has [get]. *)
Definition py_get (v : value) (k : string) (default : value) : result value :=
  match v with
  | VDict items =>
      match lookup k items with
      | Some x => Ok x
      | None => Ok default
      end
  | _ => Raise (no_attribute v "get")
  end.

(** [len(v)] *)
Definition py_len (v : value) : result Z :=
  match v with
  | VStr s => Ok (Z.of_nat (String.length s))
  | VList xs => Ok (Z.of_nat (List.length xs))
  | VDict items => Ok (Z.of_nat (List.length items))
  | _ => Raise (TypeError ("object of type '" ++ type_name v ++ "' has no len()"))
  end.

Fixpoint chars (s : string) : list value :=
  match s with
  | EmptyString => []
  | String a s' => VStr (String a EmptyString) :: chars s'
  end.

(** The items a [for] loop over [v] visits. *)
Definition py_iter (v : value) : result (list value) :=
  match v with
  | VList xs => Ok xs
  | VStr s => Ok (chars s)
  | VDict items => Ok (map (fun kv => VStr (fst kv)) items)
  | _ => Raise (TypeError ("'" ++ type_name v ++ "' object is not iterable"))
  end.

(** ** Strings *)

(** [str.isspace] on one code point below 256: TAB..CR, FS..US, SPACE,
    NEL and NBSP. *)
Definition is_space (a : ascii) : bool :=
  let n := nat_of_ascii a in
  (((9 <=? n) && (n <=? 13)) || ((28 <=? n) && (n <=? 32)) ||
   (n =? 133) || (n =? 160))%nat.

Fixpoint lstrip (s : string) : string :=
  match s with
  | EmptyString => EmptyString
  | String a s' => if is_space a then lstrip s' else s
  end.

Definition rev_string (s : string) : string :=
  string_of_list_ascii (rev (list_ascii_of_string s)).

(** [s.strip()] *)
Definition strip (s : string) : string :=
  rev_string (lstrip (rev_string (lstrip s))).

(** [s.split()]: the maximal runs of non-whitespace, in order.  [cur] is
    the run being read, reversed. *)
Fixpoint split_from (s : string) (cur : list ascii) : list string :=
  match s with
  | EmptyString =>
      match cur with
      | [] => []
      | _ => [string_of_list_ascii (rev cur)]
      end
  | String a s' =>
      if is_space a then
        match cur with
        | [] => split_from s' []
        | _ => string_of_list_ascii (rev cur) :: split_from s' []
        end
      else split_from s' (a :: cur)
  end.

Definition split (s : string) : list string := split_from s [].

(** [v[:100]]: a str or list can be sliced; a dict rejects the slice as a
    key; nothing else is subscriptable. *)
Definition py_slice_100 (v : value) : result value :=
  match v with
  | VStr s => Ok (VStr (String.substring 0 100 s))
  | VList xs => Ok (VList (firstn 100 xs))
  | VDict _ => Raise (TypeError "unhashable type: 'slice'")
  | _ => Raise (TypeError ("'" ++ type_name v ++ "' object is not subscriptable"))
  end.

(** [v.split()] *)
Definition py_split (v : value) : result (list string) :=
  match v with
  | VStr s => Ok (split s)
  | _ => Raise (no_attribute v "split")
  end.

(** Decimal text of an integer, as an f-string prints it. *)
Definition str_int (n : Z) : string := NilZero.string_of_int (Z.to_int n).

(** ** [int(s)] on a str: surrounding whitespace, an optional sign, decimal
    digits with single underscores between digits. *)
Definition digit_of (a : ascii) : option Z :=
  let n := nat_of_ascii a in
  if ((48 <=? n) && (n <=? 57))%nat then Some (Z.of_nat (n - 48)) else None.

Fixpoint digits_value (s : string) (after_digit : bool) (acc : Z) : option Z :=
  match s with
  | EmptyString => if after_digit then Some acc else None
  | String a s' =>
      match digit_of a with
      | Some d => digits_value s' true (10 * acc + d)
      | None =>
          if Ascii.eqb a "_" && after_digit then digits_value s' false acc
          else None
      end
  end.

Definition py_int (s : string) : result Z :=
  let bad := Raise (ValueError ("invalid literal for int() with base 10: '" ++ s ++ "'")) in
  match strip s with
  | String "-" ds =>
      match digits_value ds false 0 with Some n => Ok (- n) | None => bad end
  | String "+" ds =>
      match digits_value ds false 0 with Some n => Ok n | None => bad end
  | ds =>
      match digits_value ds false 0 with Some n => Ok n | None => bad end
  end.

(** [os.environ]: the process environment, and [os.environ.get(k, d)]. *)
Definition environment : Type := string -> option string.

Definition environ_get (environ : environment) (k default : string) : string :=
  match environ k with
  | Some v => v
  | None => default
  end.

End Py.

Import Py.

Notation "x <- c ;; k" := (rbind c (fun x => k))
  (at level 61, c at next level, right associativity).

(** [json.loads] and [json.dumps] belong to the Python standard library.
    [json_loads s] is the decoded value, or the text of the
    [JSONDecodeError]; [json_dumps v] is the serialised text. *)
Definition json_decoder : Type := string -> string + value.
Definition json_encoder : Type := value -> string.

(** [json.loads(v)]: only text is decoded. *)
Definition loads (json_loads : json_decoder) (v : value) : result value :=
  match v with
  | VStr s =>
      match json_loads s with
      | inr x => Ok x
      | inl m => Raise (JSONDecodeError m)
      end
  | _ => Raise (TypeError ("the JSON object must be str, bytes or bytearray, not "
                           ++ type_name v))
  end.

(** [len(s.encode('utf-8'))]: one byte below U+0080, two bytes from there
    up to U+00FF. *)
Fixpoint utf8_len (s : string) : Z :=
  match s with
  | EmptyString => 0
  | String a s' => (if (nat_of_ascii a <? 128)%nat then 1 else 2) + utf8_len s'
  end.

(** [len(json.dumps(v).encode('utf-8'))] *)
Definition serialized_size (json_dumps : json_encoder) (v : value) : Z :=
  utf8_len (json_dumps v).

(* ================================================================== *)
(** * The publisher: [src/publisher] *)
(* ================================================================== *)

Module Publisher.

(** ** [config.py] *)
Module Config.

Record t : Type := {
  MAX_MESSAGE_SIZE : Z;
  MAX_RETRIES : Z;
  TIMEOUT_SECONDS : Z;
  ENVIRONMENT : string;
  AWS_REGION : string;
  SNS_TOPIC_ARN : option string;
  LOG_LEVEL : string;
  METRICS_NAMESPACE : string
}.

(** The class body of [Config], evaluated once against the process
    environment when the module is imported.  [int(...)] raises
    [ValueError] on text that is not an integer. *)
Definition load (environ : environment) : result t :=
  max_retries <- py_int (environ_get environ "MAX_RETRIES" "3") ;;
  timeout_seconds <- py_int (environ_get environ "TIMEOUT_SECONDS" "30") ;;
  Ok {| MAX_MESSAGE_SIZE := 256 * 1024;
        MAX_RETRIES := max_retries;
        TIMEOUT_SECONDS := timeout_seconds;
        ENVIRONMENT := environ_get environ "ENVIRONMENT" "dev";
        AWS_REGION := environ_get environ "AWS_REGION" "us-east-1";
        SNS_TOPIC_ARN := environ "SNS_TOPIC_ARN";
        LOG_LEVEL := environ_get environ "LOG_LEVEL" "INFO";
        METRICS_NAMESPACE :=
          "AWS/Lambda/PubSub/" ++ environ_get environ "ENVIRONMENT" "dev" |}.

End Config.

(** ** [validate_input] *)
Section Validation.

Variable cfg : Config.t.
Variable json_loads : json_decoder.
Variable json_dumps : json_encoder.

(** Lines 131-137: the body is what the [body] entry holds, decoded when it
    is text, or the event itself when there is no [body] entry. *)
Definition decode_body (event : value) : result value :=
  has_body <- py_contains "body" event ;;
  if has_body : bool then
    wrapped <- py_getitem event "body" ;;
    if isinstance_str wrapped then loads json_loads wrapped
    else py_getitem event "body"
  else Ok event.

(** Lines 140-156: the checks on the decoded body. *)
Definition check_body (body : value) : result value :=
  if negb (isinstance_dict body) then
    Raise (ValidationError "Message body must be a JSON object")
  else
    has_message <- py_contains "message" body ;;
    if negb has_message then
      Raise (ValidationError "Message field is required")
    else
      message <- py_getitem body "message" ;;
      if negb (truthy message) ||
         (isinstance_str message &&
          match message with
          | VStr s => negb (truthy (VStr (strip s)))
          | _ => false
          end)
      then Raise (ValidationError "Message cannot be empty")
      else
        let message_size := serialized_size json_dumps body in
        if message_size >? Config.MAX_MESSAGE_SIZE cfg then
          Raise (ValidationError
                   ("Message size (" ++ str_int message_size ++
                    " bytes) exceeds limit (" ++
                    str_int (Config.MAX_MESSAGE_SIZE cfg) ++ " bytes)"))
        else Ok body.

(** The [try] block of [validate_input]. *)
Definition validate_input_body (event : value) : result value :=
  body <- decode_body event ;;
  check_body body.

(** [validate_input]: the [try] block, with [json.JSONDecodeError] turned
    into [ValidationError]; every other exception passes through. *)
Definition validate_input (event : value) : result value :=
  match validate_input_body event with
  | Raise (JSONDecodeError m) =>
      Raise (ValidationError ("Invalid JSON in request body: " ++ m))
  | r => r
  end.

End Validation.

(** ** [publish_message] *)

(** The keyword arguments of one [sns_client.publish] call; every attribute
    has [DataType] [String]. *)
Record PublishRequest : Type := {
  TopicArn : string;
  Message : string;
  MessageAttributes : list (string * string);
  Subject : string
}.

(** What the transport can raise: botocore's two exception families, or any
    other class (by name). *)
Inductive transport_error : Type :=
| TransportClientError (msg : string)
| TransportBotoCoreError (msg : string)
| TransportOtherError (name msg : string).

Definition exn_of_transport (e : transport_error) : exn :=
  match e with
  | TransportClientError m => ClientError m
  | TransportBotoCoreError m => BotoCoreError m
  | TransportOtherError n m => OtherException n m
  end.

(** One call of [sns_client.publish]: the response dict, which carries
    [MessageId] next to its other items, or an exception. *)
Inductive transport_outcome : Type :=
| Published (message_id : string) (others : list (string * value))
| Rejected (e : transport_error).

Definition response_of (message_id : string) (others : list (string * value)) : value :=
  VDict (("MessageId", VStr message_id) :: others).

(** [range(n)] *)
Definition py_range (n : Z) : list Z := map Z.of_nat (seq 0 (Z.to_nat n)).

Section Publish.

Variable environ : environment.
Variable cfg : Config.t.
Variable json_dumps : json_encoder.

(** The outcome of the [k]-th call of [sns_client.publish] made in this
    invocation environment, counted from 0. *)
Variable sns_publish : nat -> PublishRequest -> transport_outcome.

(** The arguments every attempt passes to [sns_client.publish]. *)
Definition publish_request (topic_arn : string) (message : value)
    (correlation_id : string) : PublishRequest :=
  let message_body := json_dumps message in
  let message_attributes :=
    [("CorrelationId", correlation_id);
     ("Source", "publisher-lambda");
     ("Environment", environ_get environ "ENVIRONMENT" "dev")] in
  {| TopicArn := topic_arn;
     Message := message_body;
     MessageAttributes := message_attributes;
     Subject := "Message from Publisher Lambda - " ++ correlation_id |}.

(** The [for attempt in range(max_retries + 1)] loop; [calls] counts the
    transport calls made so far.  Leaving the loop without a return makes
    the function return [None]. *)
Fixpoint publish_loop (request : PublishRequest) (max_retries : Z)
    (attempts : list Z) (calls : nat) : result value * nat :=
  match attempts with
  | [] => (Ok VNone, calls)
  | attempt :: rest =>
      match sns_publish calls request with
      | Published message_id others =>
          match py_getitem (response_of message_id others) "MessageId" with
          | Ok _ => (Ok (response_of message_id others), S calls)
          | Raise e => (Raise e, S calls)
          end
      | Rejected (TransportOtherError n m) =>
          (Raise (OtherException n m), S calls)
      | Rejected e =>
          if attempt =? max_retries then
            (Raise (SNSPublishError
                      ("Failed to publish message after " ++
                       str_int (max_retries + 1) ++ " attempts: " ++
                       str_exn (exn_of_transport e))),
             S calls)
          else publish_loop request max_retries rest (S calls)
      end
  end.

Definition publish_message (message : value) (correlation_id : string)
    (calls : nat) : result value * nat :=
  let topic_arn := environ "SNS_TOPIC_ARN" in
  match topic_arn with
  | None | Some EmptyString =>
      (Raise (SNSPublishError "SNS_TOPIC_ARN environment variable not set"), calls)
  | Some arn =>
      let max_retries := Config.MAX_RETRIES cfg in
      publish_loop (publish_request arn message correlation_id)
        max_retries (py_range (max_retries + 1)) calls
  end.

End Publish.

End Publisher.

(* ================================================================== *)
(** * The subscriber: [src/subscriber] *)
(* ================================================================== *)

Module Subscriber.

(** [s.lower()] on code points below 256. *)
Definition lower_char (a : ascii) : ascii :=
  let n := nat_of_ascii a in
  if (((65 <=? n) && (n <=? 90)) ||
      ((192 <=? n) && (n <=? 222) && negb (n =? 215)))%nat
  then ascii_of_nat (n + 32) else a.

Fixpoint lower (s : string) : string :=
  match s with
  | EmptyString => EmptyString
  | String a s' => String (lower_char a) (lower s')
  end.

(** ** [config.py] *)
Module Config.

Record t : Type := {
  MAX_MESSAGE_SIZE : Z;
  MAX_RETRIES : Z;
  TIMEOUT_SECONDS : Z;
  ENVIRONMENT : string;
  AWS_REGION : string;
  PROCESSING_RESULTS_TABLE : option string;
  RESULT_TTL_DAYS : Z;
  DLQ_ARN : option string;
  LOG_LEVEL : string;
  METRICS_NAMESPACE : string;
  ENABLE_AUDIT_TRAIL : bool;
  ENABLE_DETAILED_LOGGING : bool
}.

Definition load (environ : environment) : result t :=
  max_retries <- py_int (environ_get environ "MAX_RETRIES" "3") ;;
  timeout_seconds <- py_int (environ_get environ "TIMEOUT_SECONDS" "30") ;;
  result_ttl_days <- py_int (environ_get environ "RESULT_TTL_DAYS" "7") ;;
  Ok {| MAX_MESSAGE_SIZE := 256 * 1024;
        MAX_RETRIES := max_retries;
        TIMEOUT_SECONDS := timeout_seconds;
        ENVIRONMENT := environ_get environ "ENVIRONMENT" "dev";
        AWS_REGION := environ_get environ "AWS_REGION" "us-east-1";
        PROCESSING_RESULTS_TABLE := environ "PROCESSING_RESULTS_TABLE";
        RESULT_TTL_DAYS := result_ttl_days;
        DLQ_ARN := environ "DLQ_ARN";
        LOG_LEVEL := environ_get environ "LOG_LEVEL" "INFO";
        METRICS_NAMESPACE :=
          "AWS/Lambda/PubSub/" ++ environ_get environ "ENVIRONMENT" "dev";
        ENABLE_AUDIT_TRAIL :=
          String.eqb (lower (environ_get environ "ENABLE_AUDIT_TRAIL" "true")) "true";
        ENABLE_DETAILED_LOGGING :=
          String.eqb (lower (environ_get environ "ENABLE_DETAILED_LOGGING" "false")) "true" |}.

End Config.

(** ** The invocation environment *)

(** The Lambda context object. *)
Record LambdaContext : Type := {
  aws_request_id : string;
  function_name : string;
  function_version : string;
  memory_limit_in_mb : Z
}.

(** One reading of [datetime.utcnow()]: its [isoformat()] text and its
    [timestamp()] in microseconds. *)
Record clock_reading : Type := {
  isoformat : string;
  micros : Z
}.

(** The value of a metric datum: a count, or a latency (kept as the
    difference of two clock readings, in microseconds). *)
Inductive metric_value : Type :=
| Count (n : Z)
| Latency (microseconds : Z).

Record MetricDatum : Type := {
  MetricName : string;
  Value : metric_value;
  Unit : string;
  Dimensions : list (string * string)
}.

(** What the code does not define itself.  Clock readings, fresh
    identifiers and the answers of the two AWS services are indexed by the
    number of interactions made so far ([step] of the [world]); a service
    call answers [None] when it goes through and [Some e] when it raises. *)
Record runtime : Type := {
  environ : environment;
  json_loads : json_decoder;
  json_dumps : json_encoder;
  py_str : value -> string;
  uuid4 : nat -> string;
  utcnow : nat -> clock_reading;
  put_item : nat -> string -> value -> option exn;
  put_metric_data : nat -> string -> list MetricDatum -> option exn
}.

(** What an invocation changes outside itself. *)
Record world : Type := {
  step : nat;
  table_items : list (string * value);
  metric_data : list (string * list MetricDatum)
}.

Definition M (A : Type) : Type := world -> result A * world.

Definition ret {A} (a : A) : M A := fun w => (Ok a, w).

Definition raise {A} (e : exn) : M A := fun w => (Raise e, w).

Definition mbind {A B} (c : M A) (k : A -> M B) : M B :=
  fun w =>
    match c w with
    | (Ok a, w') => k a w'
    | (Raise e, w') => (Raise e, w')
    end.

Definition lift {A} (r : result A) : M A := fun w => (r, w).

(** [try: c  except Exception as e: h e] *)
Definition catch {A} (c : M A) (h : exn -> M A) : M A :=
  fun w =>
    match c w with
    | (Ok a, w') => (Ok a, w')
    | (Raise e, w') => h e w'
    end.

Notation "'let*' x ':=' c 'in' k" := (mbind c (fun x => k))
  (at level 61, x name, c at next level, right associativity).

Definition tick (w : world) : world :=
  {| step := S (step w); table_items := table_items w; metric_data := metric_data w |}.

Section Handlers.

Variable rt : runtime.
Variable cfg : Config.t.

(** [str(uuid.uuid4())] *)
Definition new_uuid : M string := fun w => (Ok (uuid4 rt (step w)), tick w).

(** [datetime.utcnow()] *)
Definition now : M clock_reading := fun w => (Ok (utcnow rt (step w)), tick w).

(** ** [extract_correlation_id] and [extract_source] *)

(** In [entry.get('Value', str(uuid.uuid4()))] the attribute [get] is
    looked up first, then the default is computed, present or not. *)
Definition extract_correlation_id (message_attributes parsed_message : value) : M value :=
  let* in_attributes := lift (py_contains "CorrelationId" message_attributes) in
  if in_attributes : bool then
    let* entry := lift (py_getitem message_attributes "CorrelationId") in
    match entry with
    | VDict _ =>
        let* fresh := new_uuid in
        lift (py_get entry "Value" (VStr fresh))
    | _ => raise (no_attribute entry "get")
    end
  else
    match parsed_message with
    | VDict items =>
        if has_key "correlationId" items
        then lift (py_getitem parsed_message "correlationId")
        else let* fresh := new_uuid in ret (VStr fresh)
    | _ => let* fresh := new_uuid in ret (VStr fresh)
    end.

Definition extract_source (message_attributes parsed_message : value) : M value :=
  let* in_attributes := lift (py_contains "Source" message_attributes) in
  if in_attributes : bool then
    let* entry := lift (py_getitem message_attributes "Source") in
    lift (py_get entry "Value" (VStr "unknown"))
  else
    match parsed_message with
    | VDict items =>
        if has_key "source" items
        then lift (py_getitem parsed_message "source")
        else ret (VStr "unknown")
    | _ => ret (VStr "unknown")
    end.

(** ** [validate_message_structure] *)

(** The [for field in required_fields] loop. *)
Fixpoint check_required_fields (message message_id : value) (fields : list string)
    : result unit :=
  match fields with
  | [] => Ok tt
  | field :: rest =>
      present <- py_contains field message ;;
      if negb present then
        Raise (MessageProcessingError
                 ("Message " ++ py_str rt message_id ++
                  " missing required field: " ++ field))
      else check_required_fields message message_id rest
  end.

Definition validate_message_structure (message message_id : value) : result unit :=
  if negb (isinstance_dict message) then
    Raise (MessageProcessingError
             ("Message " ++ py_str rt message_id ++ " must be a JSON object"))
  else
    let required_fields := ["data"] in
    _ <- check_required_fields message message_id required_fields ;;
    let message_size := serialized_size (json_dumps rt) message in
    if message_size >? Config.MAX_MESSAGE_SIZE cfg then
      Raise (MessageProcessingError
               ("Message " ++ py_str rt message_id ++ " size (" ++
                str_int message_size ++ " bytes) exceeds limit"))
    else Ok tt.

(** ** The typed handlers *)

(** The debug line formats [text_content[:100]] before anything else. *)
Definition process_text_message (text_content correlation_id : value) : result value :=
  _ <- py_slice_100 text_content ;;
  words <- py_split text_content ;;
  let word_count := Z.of_nat (List.length words) in
  char_count <- py_len text_content ;;
  Ok (VDict [("type", VStr "text");
             ("wordCount", VInt word_count);
             ("charCount", VInt char_count);
             ("processed", VBool true)]).

Definition process_order_message (order_data correlation_id : value) : result value :=
  order_id <- py_get order_data "id" (VStr "unknown") ;;
  total_amount <- py_get order_data "total" (VInt 0) ;;
  Ok (VDict [("type", VStr "order");
             ("orderId", order_id);
             ("totalAmount", total_amount);
             ("processed", VBool true)]).

Definition process_event_message (event_data correlation_id : value) : M value :=
  let* event_type := lift (py_get event_data "type" (VStr "unknown")) in
  let* reading := now in
  let* timestamp := lift (py_get event_data "timestamp" (VStr (isoformat reading))) in
  ret (VDict [("type", VStr "event");
              ("eventType", event_type);
              ("eventTimestamp", timestamp);
              ("processed", VBool true)]).

Definition process_generic_message (data correlation_id : value) : result value :=
  Ok (VDict [("type", VStr "generic");
             ("dataType", VStr (type_name data));
             ("processed", VBool true)]).

(** ** [process_message_content] *)

Definition data_has (key : string) (data : value) : bool :=
  match data with
  | VDict items => has_key key items
  | _ => false
  end.

Definition process_message_content (message correlation_id message_id : value)
    (context : LambdaContext) : M value :=
  catch
    (let* data := lift (py_get message "data" (VDict [])) in
     let* result :=
       (if data_has "message" data then
          let* text := lift (py_getitem data "message") in
          lift (process_text_message text correlation_id)
        else if data_has "order" data then
          let* order := lift (py_getitem data "order") in
          lift (process_order_message order correlation_id)
        else if data_has "event" data then
          let* event := lift (py_getitem data "event") in
          process_event_message event correlation_id
        else
          lift (process_generic_message data correlation_id)) in
     let* type := lift (py_get result "type" (VStr "generic")) in
     let* reading := now in
     ret (VDict [("type", type);
                 ("processed", VBool true);
                 ("details", result);
                 ("processingTime", VStr (isoformat reading))]))
    (fun e =>
       raise (MessageProcessingError
                ("Failed to process message content: " ++ str_exn e))).

(** ** [store_processing_result] and [record_metrics] *)

(** Both swallow every exception: they return [None] whatever happens. *)
Definition store_processing_result (message_id correlation_id message result : value)
    (context : LambdaContext) : M unit :=
  catch
    (match environ rt "PROCESSING_RESULTS_TABLE" with
     | None | Some EmptyString => ret tt
     | Some table_name =>
         let* stamp := now in
         let message_size := serialized_size (json_dumps rt) message in
         let* expiry := now in
         let item :=
           VDict [("messageId", message_id);
                  ("correlationId", correlation_id);
                  ("timestamp", VStr (isoformat stamp));
                  ("functionName", VStr (function_name context));
                  ("functionVersion", VStr (function_version context));
                  ("requestId", VStr (aws_request_id context));
                  ("processingResult", result);
                  ("messageSize", VInt message_size);
                  ("ttl", VInt (Z.quot (micros expiry +
                                        Config.RESULT_TTL_DAYS cfg * 24 * 3600 * 1000000)
                                       1000000))] in
         fun w =>
           match put_item rt (step w) table_name item with
           | None =>
               (Ok tt, {| step := S (step w);
                          table_items := (table_items w ++ [(table_name, item)])%list;
                          metric_data := metric_data w |})
           | Some e => (Raise e, tick w)
           end
     end)
    (fun _ => ret tt).

Definition record_metrics (successful_records failed_records : Z)
    (start_time : clock_reading) (context : LambdaContext) (error : bool) : M unit :=
  catch
    (let* end_time := now in
     let duration := Latency (micros end_time - micros start_time) in
     let environment_name := environ_get (environ rt) "ENVIRONMENT" "dev" in
     let namespace := "AWS/Lambda/PubSub/" ++ environment_name in
     let metrics :=
       [ {| MetricName := "MessagesProcessed";
            Value := Count successful_records;
            Unit := "Count";
            Dimensions := [("FunctionName", function_name context);
                           ("Environment", environment_name);
                           ("Status", "Success")] |};
         {| MetricName := "MessagesProcessed";
            Value := Count failed_records;
            Unit := "Count";
            Dimensions := [("FunctionName", function_name context);
                           ("Environment", environment_name);
                           ("Status", "Failed")] |};
         {| MetricName := "ProcessingLatency";
            Value := duration;
            Unit := "Milliseconds";
            Dimensions := [("FunctionName", function_name context);
                           ("Environment", environment_name)] |} ] in
     let metrics :=
       if error then
         (metrics ++ [ {| MetricName := "CriticalErrors";
                          Value := Count 1;
                          Unit := "Count";
                          Dimensions := [("FunctionName", function_name context);
                                         ("Environment", environment_name)] |} ])%list
       else metrics in
     fun w =>
       match put_metric_data rt (step w) namespace metrics with
       | None =>
           (Ok tt, {| step := S (step w);
                      table_items := table_items w;
                      metric_data := (metric_data w ++ [(namespace, metrics)])%list |})
       | Some e => (Raise e, tick w)
       end)
    (fun _ => ret tt).

(** ** [process_sns_record] *)

(** The inner [try] of [process_sns_record]: [json.loads] with
    [json.JSONDecodeError] turned into [MessageProcessingError]. *)
Definition parse_message (message_body message_id : value) : result value :=
  match loads (json_loads rt) message_body with
  | Raise (JSONDecodeError m) =>
      Raise (MessageProcessingError
               ("Invalid JSON in SNS message " ++ py_str rt message_id ++
                ": " ++ m))
  | r => r
  end.

(** The [try] block of [process_sns_record].  [process_content] is what the
    global name [process_message_content] is bound to when the record is
    processed. *)
Definition process_sns_record_body
    (process_content : value -> value -> value -> LambdaContext -> M value)
    (record : value) (context : LambdaContext) : M value :=
  let* sns_data := lift (py_get record "Sns" (VDict [])) in
  let* message_id := lift (py_get sns_data "MessageId" VNone) in
  let* message_body := lift (py_get sns_data "Message" (VStr "{}")) in
  let* message_attributes := lift (py_get sns_data "MessageAttributes" (VDict [])) in
  let* parsed_message := lift (parse_message message_body message_id) in
  let* correlation_id := extract_correlation_id message_attributes parsed_message in
  let* source := extract_source message_attributes parsed_message in
  let* _ := lift (validate_message_structure parsed_message message_id) in
  let* processing_result :=
    process_content parsed_message correlation_id message_id context in
  let* _ := store_processing_result message_id correlation_id parsed_message
              processing_result context in
  let* reading := now in
  ret (VDict [("status", VStr "success");
              ("messageId", message_id);
              ("correlationId", correlation_id);
              ("source", source);
              ("processingResult", processing_result);
              ("timestamp", VStr (isoformat reading))]).

(** [except MessageProcessingError: raise] and
    [except Exception as e: raise MessageProcessingError(...)]. *)
Definition process_sns_record_with
    (process_content : value -> value -> value -> LambdaContext -> M value)
    (record : value) (context : LambdaContext) : M value :=
  catch (process_sns_record_body process_content record context)
    (fun e =>
       match e with
       | MessageProcessingError _ => raise e
       | _ => raise (MessageProcessingError
                       ("Unexpected error processing SNS record: " ++ str_exn e))
       end).

Definition process_sns_record : value -> LambdaContext -> M value :=
  process_sns_record_with process_message_content.

(** ** [lambda_handler] *)

(** The three locals the loop updates. *)
Record loop_state : Type := {
  successful_records : Z;
  failed_records : Z;
  processing_results : list value
}.

(** [record.get('Sns', {}).get('MessageId', 'unknown')] *)
Definition record_id (record : value) : result value :=
  sns <- py_get record "Sns" (VDict []) ;;
  py_get sns "MessageId" (VStr "unknown").

(** The body of the [for] loop for one record.  The answer carries the
    locals as they stand and, when an [except] clause itself raised, the
    exception that leaves the loop. *)
Definition handle_record (process_record : value -> LambdaContext -> M value)
    (context : LambdaContext) (record : value) (st : loop_state)
    : world -> (loop_state * option exn) * world :=
  fun w =>
    match process_record record context w with
    | (Ok result, w') =>
        ({| successful_records := successful_records st + 1;
            failed_records := failed_records st;
            processing_results := (processing_results st ++ [result])%list |},
         None, w')
    | (Raise e, w') =>
        let status := if is_MessageProcessingError e then "failed" else "error" in
        let counted := {| successful_records := successful_records st;
                          failed_records := failed_records st + 1;
                          processing_results := processing_results st |} in
        match record_id record with
        | Ok rid =>
            ({| successful_records := successful_records st;
                failed_records := failed_records st + 1;
                processing_results :=
                  (processing_results st ++
                   [VDict [("status", VStr status);
                           ("error", VStr (str_exn e));
                           ("record_id", rid)]])%list |},
             None, w')
        | Raise e' => (counted, Some e', w')
        end
    end.

Fixpoint process_records (process_record : value -> LambdaContext -> M value)
    (context : LambdaContext) (records : list value) (st : loop_state)
    : world -> (loop_state * option exn) * world :=
  fun w =>
    match records with
    | [] => (st, None, w)
    | record :: rest =>
        match handle_record process_record context record st w with
        | (st', None, w') => process_records process_record context rest st' w'
        | stopped => stopped
        end
    end.

(** [len(event.get('Records', []))] *)
Definition record_count (event : value) : result Z :=
  records <- py_get event "Records" (VList []) ;;
  py_len records.

(** [process_record] is what the global name [process_sns_record] is bound
    to when the handler runs.  The first log line, which counts the records,
    stands before the outer [try]. *)
Definition lambda_handler_with (process_record : value -> LambdaContext -> M value)
    (event : value) (context : LambdaContext) : M value :=
  let request_id := aws_request_id context in
  let* start_time := now in
  let* _ := lift (record_count event) in
  let start := {| successful_records := 0; failed_records := 0;
                  processing_results := [] |} in
  let critical (st : loop_state) : M value :=
    let* total := lift (record_count event) in
    let* _ := record_metrics (successful_records st)
                (total - successful_records st) start_time context true in
    ret (VDict [("statusCode", VInt 500);
                ("error", VStr "Critical processing error");
                ("requestId", VStr request_id)]) in
  fun w =>
    match rbind (py_get event "Records" (VList [])) py_iter with
    | Raise _ => critical start w
    | Ok records =>
        match process_records process_record context records start w with
        | (st, Some _, w') => critical st w'
        | (st, None, w') =>
            (let* _ := record_metrics (successful_records st) (failed_records st)
                         start_time context false in
             ret (VDict [("statusCode",
                          VInt (if failed_records st =? 0 then 200 else 207));
                         ("processedRecords",
                          VInt (Z.of_nat (List.length (processing_results st))));
                         ("successfulRecords", VInt (successful_records st));
                         ("failedRecords", VInt (failed_records st));
                         ("results", VList (processing_results st));
                         ("requestId", VStr request_id)])) w'
        end
    end.

Definition lambda_handler : value -> LambdaContext -> M value :=
  lambda_handler_with process_sns_record.

End Handlers.

End Subscriber.

(* ================================================================== *)
(** * The publisher's entry point: [src/publisher] *)
(* ================================================================== *)

Module PublisherHandler.

Import Publisher.

(** What the publisher does not define itself; as for the subscriber,
    clock readings and fresh identifiers are indexed by the number of
    readings made so far, the transport by the number of publish calls. *)
Record runtime : Type := {
  environ : environment;
  json_loads : json_decoder;
  json_dumps : json_encoder;
  uuid4 : nat -> string;
  utcnow : nat -> Subscriber.clock_reading;
  sns_publish : nat -> PublishRequest -> transport_outcome;
  put_metric_data : nat -> string -> list Subscriber.MetricDatum -> option exn
}.

Record world : Type := {
  step : nat;
  calls : nat;
  metric_data : list (string * list Subscriber.MetricDatum)
}.

Definition M (A : Type) : Type := world -> result A * world.

Definition ret {A} (a : A) : M A := fun w => (Ok a, w).

Definition mbind {A B} (c : M A) (k : A -> M B) : M B :=
  fun w =>
    match c w with
    | (Ok a, w') => k a w'
    | (Raise e, w') => (Raise e, w')
    end.

Definition lift {A} (r : result A) : M A := fun w => (r, w).

Definition catch {A} (c : M A) (h : exn -> M A) : M A :=
  fun w =>
    match c w with
    | (Ok a, w') => (Ok a, w')
    | (Raise e, w') => h e w'
    end.

Notation "'let*' x ':=' c 'in' k" := (mbind c (fun x => k))
  (at level 61, x name, c at next level, right associativity).

Definition tick (w : world) : world :=
  {| step := S (step w); calls := calls w; metric_data := metric_data w |}.

(** [Config.validate_required_env_vars]: [EnvironmentError] is [OSError]. *)
Definition validate_required_env_vars (environ : environment) : result unit :=
  let required_vars := ["SNS_TOPIC_ARN"] in
  let missing_vars :=
    filter (fun var => match environ var with
                       | None | Some EmptyString => true
                       | Some _ => false
                       end) required_vars in
  match missing_vars with
  | [] => Ok tt
  | _ => Raise (OtherException "OSError"
                  ("Missing required environment variables: " ++
                   String.concat ", " missing_vars))
  end.

Section Entry.

Variable rt : runtime.
Variable cfg : Config.t.

(** [str(uuid.uuid4())] *)
Definition new_uuid : M string := fun w => (Ok (uuid4 rt (step w)), tick w).

(** [datetime.utcnow()] *)
Definition now : M Subscriber.clock_reading :=
  fun w => (Ok (utcnow rt (step w)), tick w).

(** ** [prepare_message] *)
Definition prepare_message (message_data : value) (correlation_id : string)
    (context : Subscriber.LambdaContext) : M value :=
  let* reading := now in
  ret (VDict [("correlationId", VStr correlation_id);
              ("timestamp", VStr (Subscriber.isoformat reading));
              ("source", VStr "publisher-lambda");
              ("requestId", VStr (Subscriber.aws_request_id context));
              ("data", message_data);
              ("metadata",
               VDict [("functionName", VStr (Subscriber.function_name context));
                      ("functionVersion", VStr (Subscriber.function_version context));
                      ("memoryLimit", VInt (Subscriber.memory_limit_in_mb context));
                      ("environment",
                       VStr (environ_get (environ rt) "ENVIRONMENT" "dev"))])]).

(** ** [record_metrics]: swallows every exception. *)
Definition record_metrics (metric_type correlation_id : string)
    (start_time : Subscriber.clock_reading) : M unit :=
  catch
    (let* end_time := now in
     let duration :=
       Subscriber.Latency (Subscriber.micros end_time - Subscriber.micros start_time) in
     let environment_name := environ_get (environ rt) "ENVIRONMENT" "dev" in
     let namespace := "AWS/Lambda/PubSub/" ++ environment_name in
     let function :=
       environ_get (environ rt) "AWS_LAMBDA_FUNCTION_NAME" "publisher" in
     let metrics :=
       [ {| Subscriber.MetricName := "MessagePublishCount";
            Subscriber.Value := Subscriber.Count 1;
            Subscriber.Unit := "Count";
            Subscriber.Dimensions := [("FunctionName", function);
                                      ("Environment", environment_name);
                                      ("MetricType", metric_type)] |};
         {| Subscriber.MetricName := "MessagePublishLatency";
            Subscriber.Value := duration;
            Subscriber.Unit := "Milliseconds";
            Subscriber.Dimensions := [("FunctionName", function);
                                      ("Environment", environment_name)] |} ] in
     fun w =>
       match put_metric_data rt (step w) namespace metrics with
       | None =>
           (Ok tt, {| step := S (step w);
                      calls := calls w;
                      metric_data := (metric_data w ++ [(namespace, metrics)])%list |})
       | Some e => (Raise e, tick w)
       end)
    (fun _ => ret tt).

(** [publish_message], with the transport calls counted in the world. *)
Definition publish (message : value) (correlation_id : string) : M value :=
  fun w =>
    let (r, calls') :=
      publish_message (environ rt) cfg (json_dumps rt) (sns_publish rt)
        message correlation_id (calls w) in
    (r, {| step := step w; calls := calls'; metric_data := metric_data w |}).

Definition headers (correlation_id : string) : value :=
  VDict [("Content-Type", VStr "application/json");
         ("X-Correlation-ID", VStr correlation_id)].

(** ** [lambda_handler] *)

(** The [try] block. *)
Definition lambda_handler_body (event : value) (context : Subscriber.LambdaContext)
    (correlation_id : string) (start_time : Subscriber.clock_reading) : M value :=
  let* message_data := lift (validate_input cfg (json_loads rt) (json_dumps rt) event) in
  let* message := prepare_message message_data correlation_id context in
  let* response := publish message correlation_id in
  let* _ := record_metrics "Success" correlation_id start_time in
  let* message_id := lift (py_getitem response "MessageId") in
  let* reading := now in
  ret (VDict [("statusCode", VInt 200);
              ("body",
               VStr (json_dumps rt
                       (VDict [("message", VStr "Message published successfully");
                               ("messageId", message_id);
                               ("correlationId", VStr correlation_id);
                               ("timestamp", VStr (Subscriber.isoformat reading))])));
              ("headers", headers correlation_id)]).

(** The three [except] clauses. *)
Definition lambda_handler_except (correlation_id : string)
    (start_time : Subscriber.clock_reading) (e : exn) : M value :=
  match e with
  | ValidationError _ =>
      let* _ := record_metrics "ValidationError" correlation_id start_time in
      ret (VDict [("statusCode", VInt 400);
                  ("body",
                   VStr (json_dumps rt
                           (VDict [("error", VStr "Invalid input");
                                   ("message", VStr (str_exn e));
                                   ("correlationId", VStr correlation_id)])));
                  ("headers", headers correlation_id)])
  | SNSPublishError _ =>
      let* _ := record_metrics "SNSError" correlation_id start_time in
      ret (VDict [("statusCode", VInt 500);
                  ("body",
                   VStr (json_dumps rt
                           (VDict [("error", VStr "Failed to publish message");
                                   ("message", VStr (str_exn e));
                                   ("correlationId", VStr correlation_id)])));
                  ("headers", headers correlation_id)])
  | _ =>
      let* _ := record_metrics "UnexpectedError" correlation_id start_time in
      ret (VDict [("statusCode", VInt 500);
                  ("body",
                   VStr (json_dumps rt
                           (VDict [("error", VStr "Internal server error");
                                   ("correlationId", VStr correlation_id)])));
                  ("headers", headers correlation_id)])
  end.

Definition lambda_handler (event : value) (context : Subscriber.LambdaContext)
    : M value :=
  let* correlation_id := new_uuid in
  let* start_time := now in
  catch (lambda_handler_body event context correlation_id start_time)
        (lambda_handler_except correlation_id start_time).

End Entry.

End PublisherHandler.

(* ================================================================== *)
(** * Sample inputs and a sample runtime *)
(* ================================================================== *)

Module Sample.

Import Subscriber.

Definition dquote : string := String (ascii_of_nat 34) EmptyString.

(** A serialiser in the layout of [json.dumps] for the sample values
    (text without escapes; a float, which no sample uses, is written as
    mantissa and exponent). *)
Fixpoint dumps (v : value) : string :=
  match v with
  | VNone => "null"
  | VBool true => "true"
  | VBool false => "false"
  | VInt n => str_int n
  | VFloat m e => str_int m ++ "p" ++ str_int e
  | VStr s => dquote ++ s ++ dquote
  | VList xs =>
      "[" ++
      (fix elements (xs : list value) : string :=
         match xs with
         | [] => ""
         | x :: rest =>
             match rest with
             | [] => dumps x
             | _ => dumps x ++ ", " ++ elements rest
             end
         end) xs ++ "]"
  | VDict items =>
      "{" ++
      (fix members (items : list (string * value)) : string :=
         match items with
         | [] => ""
         | (k, x) :: rest =>
             match rest with
             | [] => dquote ++ k ++ dquote ++ ": " ++ dumps x
             | _ => dquote ++ k ++ dquote ++ ": " ++ dumps x ++ ", " ++ members rest
             end
         end) items ++ "}"
  end.

(** [str(v)] for the scalars the samples format. *)
Definition str (v : value) : string :=
  match v with
  | VStr s => s
  | VNone => "None"
  | VBool true => "True"
  | VBool false => "False"
  | VInt n => str_int n
  | _ => dumps v
  end.

(** An envelope as the publisher builds it, whose data has both a
    [message] and an [order]. *)
Definition envelope : value :=
  VDict [("correlationId", VStr "abc");
         ("source", VStr "publisher-lambda");
         ("data", VDict [("message", VStr "x");
                         ("order", VDict [("id", VStr "order-123")])])].

(** A decoded message without [data]. *)
Definition no_data : value := VDict [("invalid", VStr "structure")].

Definition envelope_text : string := Eval vm_compute in dumps envelope.
Definition no_data_text : string := Eval vm_compute in dumps no_data.

(** A decoder that knows the two sample texts and the empty object. *)
Definition decode (s : string) : string + value :=
  if String.eqb s envelope_text then inr envelope
  else if String.eqb s no_data_text then inr no_data
  else if String.eqb s "{}" then inr (VDict [])
  else inl "Expecting value: line 1 column 1 (char 0)".

Fixpoint zeros (n : nat) : string :=
  match n with
  | O => ""
  | S n' => "0" ++ zeros n'
  end.

Definition padded (width n : nat) : string :=
  let digits := str_int (Z.of_nat n) in
  zeros (width - String.length digits) ++ digits.

Definition rt : runtime :=
  {| environ := fun _ => None;
     json_loads := decode;
     json_dumps := dumps;
     py_str := str;
     uuid4 := fun n => "00000000-0000-4000-8000-" ++ padded 12 n;
     utcnow := fun n => {| isoformat := "2025-01-01T00:00:00." ++ padded 6 n;
                           micros := 1735689600000000 + Z.of_nat n |};
     put_item := fun _ _ _ => None;
     put_metric_data := fun _ _ _ => None |}.

(** The subscriber's configuration in an empty environment. *)
Definition cfg : Config.t :=
  {| Config.MAX_MESSAGE_SIZE := 262144;
     Config.MAX_RETRIES := 3;
     Config.TIMEOUT_SECONDS := 30;
     Config.ENVIRONMENT := "dev";
     Config.AWS_REGION := "us-east-1";
     Config.PROCESSING_RESULTS_TABLE := None;
     Config.RESULT_TTL_DAYS := 7;
     Config.DLQ_ARN := None;
     Config.LOG_LEVEL := "INFO";
     Config.METRICS_NAMESPACE := "AWS/Lambda/PubSub/dev";
     Config.ENABLE_AUDIT_TRAIL := true;
     Config.ENABLE_DETAILED_LOGGING := false |}.

(** The publisher's configuration in an empty environment. *)
Definition publisher_cfg : Publisher.Config.t :=
  {| Publisher.Config.MAX_MESSAGE_SIZE := 262144;
     Publisher.Config.MAX_RETRIES := 3;
     Publisher.Config.TIMEOUT_SECONDS := 30;
     Publisher.Config.ENVIRONMENT := "dev";
     Publisher.Config.AWS_REGION := "us-east-1";
     Publisher.Config.SNS_TOPIC_ARN := None;
     Publisher.Config.LOG_LEVEL := "INFO";
     Publisher.Config.METRICS_NAMESPACE := "AWS/Lambda/PubSub/dev" |}.

Definition context : LambdaContext :=
  {| aws_request_id := "test-request-id";
     function_name := "test-subscriber";
     function_version := "1";
     memory_limit_in_mb := 512 |}.

Definition w0 : world := {| step := 0; table_items := []; metric_data := [] |}.

(** An SNS record carrying [text], with the two attributes the publisher
    attaches. *)
Definition sns_record (message_id text : string) : value :=
  VDict [("EventSource", VStr "aws:sns");
         ("Sns", VDict [("Type", VStr "Notification");
                        ("MessageId", VStr message_id);
                        ("Message", VStr text);
                        ("MessageAttributes",
                         VDict [("CorrelationId",
                                 VDict [("Type", VStr "String");
                                        ("Value", VStr "test-correlation-id")]);
                                ("Source",
                                 VDict [("Type", VStr "String");
                                        ("Value", VStr "publisher-lambda")])])])].

Definition good_record : value := sns_record "m-1" envelope_text.
Definition data_less_record : value := sns_record "m-2" no_data_text.

(** A record whose [Sns] entry is [null]. *)
Definition null_sns_record : value := VDict [("Sns", VNone)].

(** A record processor that raises a plain [Exception] on every record. *)
Definition failing_processor : value -> LambdaContext -> M value :=
  fun _ _ => raise (OtherException "Exception" "Unexpected error").

(** A publisher environment with a topic, and a transport that rejects the
    first three calls and accepts the fourth. *)
Definition publisher_environ : environment :=
  fun k =>
    if String.eqb k "SNS_TOPIC_ARN"
    then Some "arn:aws:sns:us-east-1:123456789012:test-topic"
    else None.

Definition flaky_transport (k : nat) (_ : Publisher.PublishRequest)
    : Publisher.transport_outcome :=
  if (k <? 3)%nat then Publisher.Rejected (Publisher.TransportClientError "Throttling")
  else Publisher.Published "sns-message-1" [].

(** An attribute bag whose [CorrelationId] entry has no [Value], next to a
    body that carries a [correlationId]. *)
Definition valueless_attributes : value :=
  VDict [("CorrelationId", VDict [("Type", VStr "String")])].

Definition body_with_id : value := VDict [("correlationId", VStr "abc")].

(** An environment that tries to set the size ceiling. *)
Definition small_ceiling_environ : environment :=
  fun k => if String.eqb k "MAX_MESSAGE_SIZE" then Some "1024" else None.

End Sample.

Module PublisherSample.

Import PublisherHandler.

(** A publisher runtime over the sample environment: the topic is set and
    the transport rejects three calls before it accepts one. *)
Definition rt : runtime :=
  {| environ := Sample.publisher_environ;
     json_loads := Sample.decode;
     json_dumps := Sample.dumps;
     uuid4 := Subscriber.uuid4 Sample.rt;
     utcnow := Subscriber.utcnow Sample.rt;
     sns_publish := Sample.flaky_transport;
     put_metric_data := fun _ _ _ => None |}.

Definition w0 : world := {| step := 0; calls := 0; metric_data := [] |}.

(** An event in the wrapped shape, with entries beside [body]. *)
Definition wrapped_event : value :=
  VDict [("httpMethod", VStr "POST");
         ("body", VDict [("message", VStr "Hello, World!")]);
         ("message", VStr "")].

Definition direct_event : value := VDict [("message", VStr "Direct message")].

End PublisherSample.

(* ================================================================== *)
(** * The vocabulary of the properties *)
(* ================================================================== *)

(** ** Payloads of the input validator *)

Section PayloadVocabulary.

Import Publisher.

Variable cfg : Config.t.
Variable json_loads : json_decoder.
Variable json_dumps : json_encoder.

(** The payload of an event, in the words of the interface: the event
    itself in the direct shape; in the wrapped shape what the [body] entry
    holds, decoded when it is text. *)
Inductive payload (ev : list (string * value)) : value -> Prop :=
| payload_direct :
    lookup "body" ev = None -> payload ev (VDict ev)
| payload_wrapped_text (s : string) (body : value) :
    lookup "body" ev = Some (VStr s) -> json_loads s = inr body -> payload ev body
| payload_wrapped_value (v : value) :
    lookup "body" ev = Some v -> isinstance_str v = false -> payload ev v.

(** The [body] entry is text that is not valid JSON. *)
Definition invalid_json (ev : list (string * value)) : Prop :=
  exists s m, lookup "body" ev = Some (VStr s) /\ json_loads s = inl m.

(** An empty [message]: a value Python counts as false ([null], [false],
    zero, empty text, list or object), or text that is empty once
    stripped. *)
Definition empty_message (v : value) : Prop :=
  truthy v = false \/ exists s, v = VStr s /\ strip s = "".

(** A decoded body the validator turns down. *)
Definition unacceptable (body : value) : Prop :=
  isinstance_dict body = false \/
  exists fields, body = VDict fields /\
    (lookup "message" fields = None \/
     (exists msg, lookup "message" fields = Some msg /\ empty_message msg) \/
     serialized_size json_dumps body > Config.MAX_MESSAGE_SIZE cfg).

End PayloadVocabulary.

(** ** Attempts of the publish loop *)

Section PublishVocabulary.

Import Publisher.

Variable environ : environment.
Variable json_dumps : json_encoder.
Variable sns_publish : nat -> PublishRequest -> transport_outcome.
Variable message : value.
Variable correlation_id : string.
Variable calls : nat.

(** A transport-layer failure: the call raised one of botocore's two
    exception families. *)
Definition transport_layer (e : transport_error) : bool :=
  match e with
  | TransportOtherError _ _ => false
  | _ => true
  end.

Definition fails (o : transport_outcome) : bool :=
  match o with
  | Rejected e => transport_layer e
  | Published _ _ => false
  end.

(** The topic identifier is unset: absent from the environment, or empty. *)
Definition topic_unset : Prop :=
  environ "SNS_TOPIC_ARN" = None \/ environ "SNS_TOPIC_ARN" = Some "".

Definition exhausted_message (max_retries : Z) (e : transport_error) : string :=
  "Failed to publish message after " ++ str_int (max_retries + 1) ++
  " attempts: " ++ str_exn (exn_of_transport e).

(** The outcome of attempt [k] (counted from 0) of an invocation that
    starts after [calls] transport calls, when the topic is [arn]. *)
Definition attempt (arn : string) (k : nat) : transport_outcome :=
  sns_publish (calls + k)%nat
    (publish_request environ json_dumps arn message correlation_id).

End PublishVocabulary.

(** ** Handlers of the classifier *)

Section ClassifierVocabulary.

Import Subscriber.

Variable rt : runtime.

Inductive handler : Type :=
| TextHandler
| OrderHandler
| EventHandler
| GenericHandler.

(** The precedence of the dispatch, as the interface words it: the first
    of [message], [order], [event] that is a key of the object decides;
    anything else is generic. *)
Inductive selects : value -> handler -> Prop :=
| selects_text (items : list (string * value)) :
    In "message" (map fst items) ->
    selects (VDict items) TextHandler
| selects_order (items : list (string * value)) :
    ~ In "message" (map fst items) -> In "order" (map fst items) ->
    selects (VDict items) OrderHandler
| selects_event (items : list (string * value)) :
    ~ In "message" (map fst items) -> ~ In "order" (map fst items) ->
    In "event" (map fst items) ->
    selects (VDict items) EventHandler
| selects_generic_object (items : list (string * value)) :
    ~ In "message" (map fst items) -> ~ In "order" (map fst items) ->
    ~ In "event" (map fst items) ->
    selects (VDict items) GenericHandler
| selects_generic_other (data : value) :
    isinstance_dict data = false ->
    selects data GenericHandler.

(** The call each handler receives. *)
Definition call (h : handler) (data correlation_id : value) : M value :=
  match h with
  | TextHandler =>
      let* text := lift (py_getitem data "message") in
      lift (process_text_message text correlation_id)
  | OrderHandler =>
      let* order := lift (py_getitem data "order") in
      lift (process_order_message order correlation_id)
  | EventHandler =>
      let* event := lift (py_getitem data "event") in
      process_event_message rt event correlation_id
  | GenericHandler => lift (process_generic_message data correlation_id)
  end.

(** What [process_message_content] makes of a handler's answer. *)
Definition wrapped (c : M value) : M value :=
  catch
    (let* result := c in
     let* type := lift (py_get result "type" (VStr "generic")) in
     let* reading := now rt in
     ret (VDict [("type", type);
                 ("processed", VBool true);
                 ("details", result);
                 ("processingTime", VStr (isoformat reading))]))
    (fun e =>
       raise (MessageProcessingError
                ("Failed to process message content: " ++ str_exn e))).

End ClassifierVocabulary.

(** ** Records and batches *)

Section BatchVocabulary.

Import Subscriber.

Variable rt : runtime.
Variable cfg : Config.t.
Variable process_record : value -> LambdaContext -> M value.
Variable context : LambdaContext.

(** A decoded message the structure check turns down: not an object,
    without [data], or larger than the ceiling. *)
Definition ill_formed (message : value) : Prop :=
  isinstance_dict message = false \/
  exists items, message = VDict items /\
    (lookup "data" items = None \/
     serialized_size (json_dumps rt) message > Config.MAX_MESSAGE_SIZE cfg).

(** A record whose decoded envelope has no [data]. *)
Definition data_less (record : value) : Prop :=
  exists fields sns text envelope,
    record = VDict fields /\
    lookup "Sns" fields = Some (VDict sns) /\
    lookup "Message" sns = Some (VStr text) /\
    json_loads rt text = inr (VDict envelope) /\
    lookup "data" envelope = None.

(** A record the handler can name in a failure report: an object whose
    [Sns] entry, when there is one, is an object. *)
Definition sns_shaped (record : value) : bool :=
  match record with
  | VDict fields =>
      match lookup "Sns" fields with
      | None | Some (VDict _) => true
      | Some _ => false
      end
  | _ => false
  end.

(** The entry the handler appends for a record whose processing raised. *)
Definition failure_report (e : exn) (rid : value) : value :=
  VDict [("status", VStr (if is_MessageProcessingError e then "failed" else "error"));
         ("error", VStr (str_exn e));
         ("record_id", rid)].

(** Every record of a batch attempted in arrival order, one entry each:
    [attempted records w results s f w'] says that, starting in [w], the
    records yield [results], [s] of them returned and [f] raised, and the
    world ends as [w']. *)
Inductive attempted : list value -> world -> list value -> Z -> Z -> world -> Prop :=
| attempted_nil (w : world) :
    attempted [] w [] 0 0 w
| attempted_returned (record : value) (rest : list value) (w w1 w2 : world)
    (result : value) (results : list value) (s f : Z) :
    process_record record context w = (Ok result, w1) ->
    attempted rest w1 results s f w2 ->
    attempted (record :: rest) w (result :: results) (s + 1) f w2
| attempted_raised (record : value) (rest : list value) (w w1 w2 : world)
    (e : exn) (rid : value) (results : list value) (s f : Z) :
    process_record record context w = (Raise e, w1) ->
    record_id record = Ok rid ->
    attempted rest w1 results s f w2 ->
    attempted (record :: rest) w (failure_report e rid :: results) s (f + 1) w2.

(** The answer of the handler for a batch whose loop ran to its end. *)
Definition batch_answer (results : list value) (s f : Z) : value :=
  VDict [("statusCode", VInt (if f =? 0 then 200 else 207));
         ("processedRecords", VInt (Z.of_nat (List.length results)));
         ("successfulRecords", VInt s);
         ("failedRecords", VInt f);
         ("results", VList results);
         ("requestId", VStr (aws_request_id context))].

End BatchVocabulary.

(** ** Further vocabulary *)

(** Text made of whitespace only. *)
Fixpoint blank (s : string) : bool :=
  match s with
  | EmptyString => true
  | String a s' => is_space a && blank s'
  end.

(** The payload the selected handler receives has the type the handler
    needs: text for [message], an object for [order] and for [event]. *)
Definition processable (data : value) : bool :=
  match data with
  | VDict items =>
      match lookup "message" items with
      | Some text => isinstance_str text
      | None =>
          match lookup "order" items with
          | Some order => isinstance_dict order
          | None =>
              match lookup "event" items with
              | Some event => isinstance_dict event
              | None => true
              end
          end
      end
  | _ => true
  end.

(** A subscriber runtime with another audit store, and one with another
    metrics sink. *)
Definition with_put_item (rt : Subscriber.runtime)
    (store : nat -> string -> value -> option exn) : Subscriber.runtime :=
  {| Subscriber.environ := Subscriber.environ rt;
     Subscriber.json_loads := Subscriber.json_loads rt;
     Subscriber.json_dumps := Subscriber.json_dumps rt;
     Subscriber.py_str := Subscriber.py_str rt;
     Subscriber.uuid4 := Subscriber.uuid4 rt;
     Subscriber.utcnow := Subscriber.utcnow rt;
     Subscriber.put_item := store;
     Subscriber.put_metric_data := Subscriber.put_metric_data rt |}.

Definition with_put_metric_data (rt : Subscriber.runtime)
    (sink : nat -> string -> list Subscriber.MetricDatum -> option exn)
    : Subscriber.runtime :=
  {| Subscriber.environ := Subscriber.environ rt;
     Subscriber.json_loads := Subscriber.json_loads rt;
     Subscriber.json_dumps := Subscriber.json_dumps rt;
     Subscriber.py_str := Subscriber.py_str rt;
     Subscriber.uuid4 := Subscriber.uuid4 rt;
     Subscriber.utcnow := Subscriber.utcnow rt;
     Subscriber.put_item := Subscriber.put_item rt;
     Subscriber.put_metric_data := sink |}.

(** The values [len] accepts. *)
Definition sized (v : value) : bool :=
  match v with
  | VStr _ | VList _ | VDict _ => true
  | _ => false
  end.

(** The namespace [record_metrics] emits under. *)
Definition metrics_namespace (rt : Subscriber.runtime) : string :=
  "AWS/Lambda/PubSub/" ++ environ_get (Subscriber.environ rt) "ENVIRONMENT" "dev".

(** A computation of the subscriber that leaves the viewed part of the
    world as it was. *)
Definition keeps {X A : Type} (view : Subscriber.world -> X) (c : Subscriber.M A)
    : Prop :=
  forall w r w', c w = (r, w') -> view w' = view w.

(** The answer of the publisher's handler with a given status code and
    body text. *)
Definition publisher_answer (code : Z) (body correlation_id : string) : value :=
  VDict [("statusCode", VInt code);
         ("body", VStr body);
         ("headers", PublisherHandler.headers correlation_id)].

(* ================================================================== *)
(** * Properties *)
(* ================================================================== *)

(** ** Dictionaries *)

Lemma has_key_lookup (k : string) (items : list (string * value)) :
  has_key k items = true <-> exists v, lookup k items = Some v.
Proof.
  unfold has_key. destruct (lookup k items) as [v|].
  - split; [eauto | reflexivity].
  - split; [discriminate | intros [v H]; discriminate].
Qed.

Lemma has_key_false (k : string) (items : list (string * value)) :
  has_key k items = false <-> lookup k items = None.
Proof.
  unfold has_key. destruct (lookup k items); split; congruence.
Qed.

Lemma lookup_In (k : string) (items : list (string * value)) :
  (exists v, lookup k items = Some v) <-> In k (map fst items).
Proof.
  induction items as [|[k' v'] rest IH]; simpl.
  - split; [intros [v H]; discriminate | tauto].
  - destruct (String.eqb_spec k k') as [->|Hne].
    + split; eauto.
    + rewrite IH. split; [tauto | intros [H|H]; [congruence | exact H]].
Qed.

Lemma has_key_In (k : string) (items : list (string * value)) :
  has_key k items = true <-> In k (map fst items).
Proof. rewrite has_key_lookup. apply lookup_In. Qed.

(** ** The input validator *)

Section ValidateInput.

Import Publisher.

Variable cfg : Config.t.
Variable json_loads : json_decoder.
Variable json_dumps : json_encoder.

Local Abbreviation payload := (payload json_loads).
Local Abbreviation invalid_json := (invalid_json json_loads).
Local Abbreviation unacceptable := (unacceptable cfg json_dumps).

Lemma decode_body_cases (ev : list (string * value)) :
  (exists body, decode_body json_loads (VDict ev) = Ok body /\ payload ev body) \/
  (exists m, decode_body json_loads (VDict ev) = Raise (JSONDecodeError m) /\
             invalid_json ev).
Proof.
  unfold decode_body. simpl. unfold has_key.
  destruct (lookup "body" ev) as [v|] eqn:Hb; simpl.
  - destruct v; simpl;
      try (left; eexists; split; [reflexivity | apply payload_wrapped_value with (1 := Hb); reflexivity]).
    destruct (json_loads s) as [m|body] eqn:Hs.
    + right. exists m. split; [reflexivity | exists s, m; auto].
    + left. exists body. split; [reflexivity | eapply payload_wrapped_text; eauto].
  - left. exists (VDict ev). split; [reflexivity | apply payload_direct; assumption].
Qed.

Lemma payload_functional (ev : list (string * value)) (b1 b2 : value) :
  payload ev b1 -> payload ev b2 -> b1 = b2.
Proof.
  intros H1 H2.
  destruct H1 as [H1 | s1 body1 H1 L1 | v1 H1 N1];
    destruct H2 as [H2 | s2 body2 H2 L2 | v2 H2 N2];
    try congruence;
    rewrite H1 in H2; injection H2 as E; subst; discriminate.
Qed.

Lemma payload_not_invalid (ev : list (string * value)) (body : value) :
  payload ev body -> invalid_json ev -> False.
Proof.
  intros Hp (s & m & Hb & Hs).
  destruct Hp as [H | s' body' H L | v H N]; rewrite Hb in H.
  - discriminate.
  - injection H as <-. congruence.
  - injection H as <-. discriminate.
Qed.

Lemma empty_message_test (v : value) :
  negb (truthy v) ||
  (isinstance_str v &&
   match v with VStr s => negb (truthy (VStr (strip s))) | _ => false end) = true
  <-> empty_message v.
Proof.
  unfold empty_message. split.
  - intros H. apply orb_true_iff in H as [H|H].
    + left. now apply negb_true_iff in H.
    + apply andb_true_iff in H as [_ H]. destruct v; try discriminate.
      right. exists s. split; [reflexivity|].
      simpl in H. rewrite negb_involutive in H. now apply String.eqb_eq.
  - intros [H | (s & -> & H)].
    + rewrite H. reflexivity.
    + apply orb_true_iff. right. simpl. rewrite H. reflexivity.
Qed.

Lemma check_body_cases (body : value) :
  match check_body cfg json_dumps body with
  | Ok out =>
      out = body /\
      exists fields msg,
        body = VDict fields /\ lookup "message" fields = Some msg /\
        ~ empty_message msg /\
        serialized_size json_dumps body <= Config.MAX_MESSAGE_SIZE cfg
  | Raise e => (exists m, e = ValidationError m) /\ unacceptable body
  end.
Proof.
  unfold check_body, unacceptable.
  destruct body as [| b | n | m e | s | xs | fields];
    try (split; [eexists; reflexivity | left; reflexivity]).
  cbn [isinstance_dict negb py_contains py_getitem rbind]. unfold has_key.
  destruct (lookup "message" fields) as [msg|] eqn:Hm; cbn [negb rbind].
  - pose proof (empty_message_test msg) as Ht.
    destruct (negb (truthy msg) || _) eqn:He.
    + split; [eexists; reflexivity|]. right. exists fields. split; [reflexivity|].
      right. left. exists msg. split; [exact Hm|]. now apply Ht.
    + destruct (serialized_size json_dumps (VDict fields) >? Config.MAX_MESSAGE_SIZE cfg)
        eqn:Hs.
      * split; [eexists; reflexivity|]. right. exists fields. split; [reflexivity|].
        right. right. now apply Z.gtb_lt, Z.lt_gt in Hs.
      * split; [reflexivity|]. exists fields, msg. repeat split; auto.
        -- intros Hem. apply Ht in Hem. congruence.
        -- rewrite Z.gtb_ltb in Hs. now apply Z.ltb_ge in Hs.
  - split; [eexists; reflexivity|]. right. exists fields. split; [reflexivity|].
    left. exact Hm.
Qed.

Lemma unacceptable_not_accepted (fields : list (string * value)) (msg : value) :
  lookup "message" fields = Some msg -> ~ empty_message msg ->
  serialized_size json_dumps (VDict fields) <= Config.MAX_MESSAGE_SIZE cfg ->
  ~ unacceptable (VDict fields).
Proof.
  intros Hm Hne Hs [H | (fields' & E & [H | [(msg' & H & He) | H]])].
  - discriminate.
  - injection E as <-. congruence.
  - injection E as <-. rewrite Hm in H. injection H as <-. contradiction.
  - lia.
Qed.


End ValidateInput.

(** ** The publish loop *)

Section PublishMessage.

Import Publisher.

Variable environ : environment.
Variable cfg : Config.t.
Variable json_dumps : json_encoder.
Variable sns_publish : nat -> PublishRequest -> transport_outcome.

Variable request : PublishRequest.
Variable n : nat.

Lemma publish_loop_all_fail (r i c : nat) :
  (i + r = S n)%nat -> (1 <= r)%nat ->
  (forall k, (k < r)%nat -> fails (sns_publish (c + k) request) = true) ->
  exists e,
    sns_publish (c + (r - 1)) request = Rejected e /\
    publish_loop sns_publish request (Z.of_nat n) (map Z.of_nat (seq i r)) c
    = (Raise (SNSPublishError (exhausted_message (Z.of_nat n) e)), (c + r)%nat).
Proof.
  revert i c. induction r as [|r IH]; intros i c Hir Hr Hall; [lia|].
  cbn [seq map publish_loop].
  pose proof (Hall 0%nat ltac:(lia)) as H0. rewrite Nat.add_0_r in H0.
  destruct (sns_publish c request) as [mid others | e] eqn:Hc; [discriminate|].
  destruct (Z.of_nat i =? Z.of_nat n) eqn:Hin.
  - apply Z.eqb_eq in Hin. assert (r = 0%nat) by lia. subst r.
    exists e. replace (c + (1 - 1))%nat with c by lia.
    replace (c + 1)%nat with (S c) by lia.
    split; [exact Hc|]. destruct e; try reflexivity; discriminate.
  - apply Z.eqb_neq in Hin.
    destruct (IH (S i) (S c)) as (e' & He' & Hloop); [lia | lia | |].
    + intros k Hk. replace (S c + k)%nat with (c + S k)%nat by lia.
      apply Hall. lia.
    + exists e'. replace (c + (S r - 1))%nat with (S c + (r - 1))%nat by lia.
      replace (c + S r)%nat with (S c + r)%nat by lia.
      split; [exact He'|]. destruct e; try exact Hloop; discriminate.
Qed.

Lemma publish_loop_success (r i c j : nat) (message_id : string)
    (others : list (string * value)) :
  (i + r = S n)%nat -> (j < r)%nat ->
  (forall k, (k < j)%nat -> fails (sns_publish (c + k) request) = true) ->
  sns_publish (c + j) request = Published message_id others ->
  publish_loop sns_publish request (Z.of_nat n) (map Z.of_nat (seq i r)) c
  = (Ok (response_of message_id others), S (c + j)).
Proof.
  revert i c j. induction r as [|r IH]; intros i c j Hir Hj Hbefore Hpub; [lia|].
  cbn [seq map publish_loop].
  destruct j as [|j].
  - rewrite Nat.add_0_r in *. rewrite Hpub. reflexivity.
  - pose proof (Hbefore 0%nat ltac:(lia)) as H0. rewrite Nat.add_0_r in H0.
    destruct (sns_publish c request) as [mid others' | e] eqn:Hc; [discriminate|].
    assert (Hin : (Z.of_nat i =? Z.of_nat n) = false) by (apply Z.eqb_neq; lia).
    rewrite Hin.
    replace (S (c + S j)) with (S (S c + j)) by lia.
    destruct e; try discriminate;
      (apply IH; [lia | lia | | now replace (S c + j)%nat with (c + S j)%nat by lia];
       intros k Hk; replace (S c + k)%nat with (c + S k)%nat by lia;
       apply Hbefore; lia).
Qed.

Lemma publish_loop_error_only_when_all_fail (r i c : nat) (m : string) :
  (i + r = S n)%nat ->
  fst (publish_loop sns_publish request (Z.of_nat n) (map Z.of_nat (seq i r)) c)
  = Raise (SNSPublishError m) ->
  forall k, (k < r)%nat -> fails (sns_publish (c + k) request) = true.
Proof.
  revert i c. induction r as [|r IH]; intros i c Hir Hraise k Hk; [lia|].
  cbn [seq map publish_loop] in Hraise.
  destruct (sns_publish c request) as [mid others | e] eqn:Hc.
  - discriminate.
  - assert (Hfail : fails (Rejected e) = true /\
                    (k <> 0%nat ->
                     fails (sns_publish (S c + (k - 1)) request) = true)).
    { destruct e; try discriminate; (split; [reflexivity|]); intros Hk0;
        (destruct (Z.of_nat i =? Z.of_nat n) eqn:Hin;
         [apply Z.eqb_eq in Hin; lia
         | apply (IH (S i) (S c)); [lia | exact Hraise | lia]]). }
    destruct k as [|k].
    + rewrite Nat.add_0_r, Hc. apply Hfail.
    + replace (c + S k)%nat with (S c + (S k - 1))%nat by lia.
      apply Hfail. lia.
Qed.

End PublishMessage.

Section PublishContract.

Import Publisher.

Variable environ : environment.
Variable cfg : Config.t.
Variable json_dumps : json_encoder.
Variable sns_publish : nat -> PublishRequest -> transport_outcome.
Variable message : value.
Variable correlation_id : string.
Variable calls : nat.

Local Abbreviation publish :=
  (publish_message environ cfg json_dumps sns_publish message correlation_id calls).
Local Abbreviation attempt :=
  (attempt environ json_dumps sns_publish message correlation_id calls).

Lemma publish_message_with_topic (arn : string) :
  environ "SNS_TOPIC_ARN" = Some arn -> arn <> "" ->
  0 <= Config.MAX_RETRIES cfg ->
  publish
  = publish_loop sns_publish
      (publish_request environ json_dumps arn message correlation_id)
      (Z.of_nat (Z.to_nat (Config.MAX_RETRIES cfg)))
      (map Z.of_nat (seq 0 (S (Z.to_nat (Config.MAX_RETRIES cfg))))) calls.
Proof.
  intros Harn Hne Hpos. unfold publish_message. rewrite Harn.
  destruct arn as [|a arn]; [congruence|].
  unfold py_range.
  replace (Z.to_nat (Config.MAX_RETRIES cfg + 1))
    with (S (Z.to_nat (Config.MAX_RETRIES cfg))) by lia.
  rewrite Z2Nat.id by exact Hpos. reflexivity.
Qed.


End PublishContract.

(** ** Classification *)

Section Classification.

Import Subscriber.

Variable rt : runtime.

Local Abbreviation call := (call rt).
Local Abbreviation wrapped := (wrapped rt).

Lemma data_has_In (key : string) (items : list (string * value)) :
  data_has key (VDict items) = true <-> In key (map fst items).
Proof. apply has_key_In. Qed.

Lemma data_has_not_In (key : string) (items : list (string * value)) :
  ~ In key (map fst items) -> data_has key (VDict items) = false.
Proof.
  intros H. destruct (data_has key (VDict items)) eqn:E; [|reflexivity].
  apply data_has_In in E. contradiction.
Qed.

Lemma data_has_other (key : string) (data : value) :
  isinstance_dict data = false -> data_has key data = false.
Proof. destruct data; simpl; congruence. Qed.

Lemma dispatch_follows_precedence (message data correlation_id message_id : value)
    (context : LambdaContext) (h : handler) (w : world) :
  py_get message "data" (VDict []) = Ok data ->
  selects data h ->
  process_message_content rt message correlation_id message_id context w
  = wrapped (call h data correlation_id) w.
Proof.
  intros Hdata Hsel.
  unfold process_message_content, wrapped, catch, mbind, lift at 1.
  rewrite Hdata.
  destruct Hsel as [items Hm | items Hm Ho | items Hm Ho He | items Hm Ho He | data Hd].
  - apply data_has_In in Hm. rewrite Hm. reflexivity.
  - rewrite (data_has_not_In _ _ Hm). apply data_has_In in Ho. rewrite Ho.
    reflexivity.
  - rewrite (data_has_not_In _ _ Hm), (data_has_not_In _ _ Ho).
    apply data_has_In in He. rewrite He. reflexivity.
  - rewrite (data_has_not_In _ _ Hm), (data_has_not_In _ _ Ho),
      (data_has_not_In _ _ He). reflexivity.
  - rewrite !(data_has_other _ _ Hd). reflexivity.
Qed.

Lemma text_handler_answer (text correlation_id : value) (out : value) :
  process_text_message text correlation_id = Ok out ->
  exists words chars,
    out = VDict [("type", VStr "text"); ("wordCount", VInt words);
                 ("charCount", VInt chars); ("processed", VBool true)].
Proof.
  unfold process_text_message.
  destruct (py_slice_100 text); [|discriminate]. simpl.
  destruct (py_split text); [|discriminate]. simpl.
  destruct (py_len text); [|discriminate]. simpl.
  intros H. injection H as <-. eauto.
Qed.

Lemma text_call_type (data correlation_id : value) (w w' : world) (out : value) :
  wrapped (call TextHandler data correlation_id) w = (Ok out, w') ->
  py_getitem out "type" = Ok (VStr "text").
Proof.
  unfold wrapped, call, catch, mbind, lift, raise, ret.
  destruct (py_getitem data "message") as [text|]; [|discriminate].
  destruct (process_text_message text correlation_id) as [answer|] eqn:Ht;
    [|discriminate].
  destruct (text_handler_answer _ _ _ Ht) as (words & chars & ->).
  simpl. intros H. injection H as <- _. reflexivity.
Qed.

(** C2.  The dispatch is first-match-wins over the keys of [data]:
    [message] selects the text handler, else [order] the order handler,
    else [event] the event handler, else the generic handler.  When [data]
    has both [message] and [order], the text handler is the one called, and
    any answer returned is of type [text]. *)
Theorem classification_precedence (message data correlation_id message_id : value)
    (context : LambdaContext) (w : world) :
  py_get message "data" (VDict []) = Ok data ->
  (forall h, selects data h ->
     process_message_content rt message correlation_id message_id context w
     = wrapped (call h data correlation_id) w) /\
  (forall items,
     data = VDict items ->
     In "message" (map fst items) -> In "order" (map fst items) ->
     process_message_content rt message correlation_id message_id context w
     = wrapped (call TextHandler data correlation_id) w /\
     forall out w',
       process_message_content rt message correlation_id message_id context w
       = (Ok out, w') ->
       py_getitem out "type" = Ok (VStr "text")).
Proof.
  intros Hdata. split.
  - intros h Hsel. now apply dispatch_follows_precedence.
  - intros items -> Hm Ho.
    assert (E : process_message_content rt message correlation_id message_id context w
                = wrapped (call TextHandler (VDict items) correlation_id) w).
    { apply dispatch_follows_precedence; [exact Hdata | now apply selects_text]. }
    split; [exact E|].
    intros out w' H. rewrite E in H. eapply text_call_type; eauto.
Qed.

End Classification.

(** ** The record processor *)

Section RecordProcessor.

Import Subscriber.

Variable rt : runtime.
Variable cfg : Config.t.

Local Abbreviation ill_formed := (ill_formed rt cfg).

Lemma validate_message_structure_cases (message message_id : value) :
  match validate_message_structure rt cfg message message_id with
  | Ok _ =>
      exists items data,
        message = VDict items /\ lookup "data" items = Some data /\
        serialized_size (json_dumps rt) message <= Config.MAX_MESSAGE_SIZE cfg
  | Raise e => is_MessageProcessingError e = true /\ ill_formed message
  end.
Proof.
  unfold validate_message_structure, ill_formed.
  destruct message as [| b | n | m e | s | xs | items];
    try (split; [reflexivity | left; reflexivity]).
  cbn [isinstance_dict negb check_required_fields py_contains rbind].
  unfold has_key. destruct (lookup "data" items) as [data|] eqn:Hd; cbn [negb rbind].
  - destruct (serialized_size (json_dumps rt) (VDict items) >? Config.MAX_MESSAGE_SIZE cfg)
      eqn:Hs.
    + split; [reflexivity|]. right. exists items. split; [reflexivity|].
      right. now apply Z.gtb_lt, Z.lt_gt in Hs.
    + exists items, data. repeat split; auto.
      rewrite Z.gtb_ltb in Hs. now apply Z.ltb_ge in Hs.
  - split; [reflexivity|]. right. exists items. split; [reflexivity|]. now left.
Qed.

Lemma ill_formed_rejected (message message_id : value) :
  ill_formed message ->
  exists m, validate_message_structure rt cfg message message_id
            = Raise (MessageProcessingError m).
Proof.
  intros Hill. pose proof (validate_message_structure_cases message message_id) as H.
  destruct (validate_message_structure rt cfg message message_id) as [[]|e].
  - exfalso. destruct H as (items & data & -> & Hd & Hs).
    destruct Hill as [Hill | (items' & E & [Hill | Hill])].
    + discriminate.
    + injection E as <-. congruence.
    + lia.
  - destruct H as [He _]. destruct e; try discriminate. eauto.
Qed.

(** Whatever the content processor, [process_sns_record] raises nothing but
    [MessageProcessingError]. *)
Lemma process_sns_record_with_raises
    (process_content : value -> value -> value -> LambdaContext -> M value)
    (record : value) (context : LambdaContext) (w w' : world) (e : exn) :
  process_sns_record_with rt cfg process_content record context w = (Raise e, w') ->
  exists m, e = MessageProcessingError m.
Proof.
  unfold process_sns_record_with, catch.
  destruct (process_sns_record_body rt cfg process_content record context w)
    as [[out | e0] w0]; [discriminate|].
  destruct e0; unfold raise; intros H; injection H as <- _; eauto.
Qed.

(** [store_processing_result] and [record_metrics] always return. *)
Lemma store_processing_result_returns (message_id correlation_id message result : value)
    (context : LambdaContext) (w : world) :
  exists w',
    store_processing_result rt cfg message_id correlation_id message result context w
    = (Ok tt, w').
Proof.
  unfold store_processing_result, catch, mbind, now, ret.
  destruct (environ rt "PROCESSING_RESULTS_TABLE") as [[|a table]|]; eauto.
  cbn [step tick]. destruct (put_item rt _ _ _); eauto.
Qed.

Lemma record_metrics_returns (successful failed : Z) (start_time : clock_reading)
    (context : LambdaContext) (error : bool) (w : world) :
  exists w',
    record_metrics rt successful failed start_time context error w = (Ok tt, w').
Proof.
  unfold record_metrics, catch, mbind, now, ret.
  cbn [step tick]. destruct (put_metric_data rt _ _ _); eauto.
Qed.

(** The answer of [process_message_content], when there is one. *)
Lemma process_message_content_answer (message correlation_id message_id : value)
    (context : LambdaContext) (w w' : world) (out : value) :
  process_message_content rt message correlation_id message_id context w = (Ok out, w') ->
  exists type details stamp,
    out = VDict [("type", type); ("processed", VBool true);
                 ("details", details); ("processingTime", VStr stamp)].
Proof.
  unfold process_message_content, catch.
  match goal with
  | |- (match ?c w with _ => _ end) = _ -> _ => destruct (c w) as [[r|e] w0] eqn:Hc
  end; [|unfold raise; discriminate].
  intros H. injection H as <- <-.
  unfold mbind in Hc.
  destruct (lift (py_get message "data" (VDict [])) w) as [[data|] w1]; [|discriminate].
  match type of Hc with
  | (match ?c with _ => _ end) = _ => destruct c as [[result|] w2]; [|discriminate]
  end.
  destruct (lift (py_get result "type" (VStr "generic")) w2) as [[type|] w3];
    [|discriminate].
  unfold now, ret in Hc. injection Hc as <- _. eauto.
Qed.

(** The answer of [process_sns_record], when there is one. *)
Lemma process_sns_record_answer (record : value) (context : LambdaContext)
    (w w' : world) (out : value) :
  process_sns_record rt cfg record context w = (Ok out, w') ->
  exists message_id correlation_id source type details processed_at stamp,
    out = VDict [("status", VStr "success");
                 ("messageId", message_id);
                 ("correlationId", correlation_id);
                 ("source", source);
                 ("processingResult",
                  VDict [("type", type); ("processed", VBool true);
                         ("details", details);
                         ("processingTime", VStr processed_at)]);
                 ("timestamp", VStr stamp)].
Proof.
  unfold process_sns_record, process_sns_record_with, catch.
  destruct (process_sns_record_body rt cfg (process_message_content rt) record context w)
    as [[r|e] w0] eqn:Hb; [|destruct e; unfold raise; discriminate].
  intros H. injection H as <- <-.
  unfold process_sns_record_body, mbind, lift in Hb.
  destruct (py_get record "Sns" (VDict [])) as [sns|]; [|discriminate].
  destruct (py_get sns "MessageId" VNone) as [message_id|]; [|discriminate].
  destruct (py_get sns "Message" (VStr "{}")) as [body|]; [|discriminate].
  destruct (py_get sns "MessageAttributes" (VDict [])) as [attrs|]; [|discriminate].
  destruct (parse_message rt body message_id) as [parsed|]; [|discriminate].
  destruct (extract_correlation_id rt attrs parsed w) as [[cid|] w1]; [|discriminate].
  destruct (extract_source attrs parsed w1) as [[src|] w2]; [|discriminate].
  destruct (validate_message_structure rt cfg parsed message_id) as [[]|]; [|discriminate].
  destruct (process_message_content rt parsed cid message_id context w2)
    as [[pr|] w3] eqn:Hp; [|discriminate].
  destruct (process_message_content_answer _ _ _ _ _ _ _ Hp)
    as (type & details & processed_at & ->).
  destruct (store_processing_result_returns message_id cid parsed
              (VDict [("type", type); ("processed", VBool true);
                      ("details", details); ("processingTime", VStr processed_at)])
              context w3) as [w4 Hs].
  rewrite Hs in Hb. unfold now, ret in Hb. injection Hb as <- _.
  repeat eexists.
Qed.

End RecordProcessor.

Section StructureGate.

Import Subscriber.

Variable rt : runtime.
Variable cfg : Config.t.

Lemma structure_gate (record : value) (context : LambdaContext) (w : world)
    (sns message parsed : value) :
  py_get record "Sns" (VDict []) = Ok sns ->
  py_get sns "Message" (VStr "{}") = Ok message ->
  loads (json_loads rt) message = Ok parsed ->
  ill_formed rt cfg parsed ->
  exists m w',
    forall process_content,
      process_sns_record_with rt cfg process_content record context w
      = (Raise (MessageProcessingError m), w').
Proof.
  intros Hsns Hmsg Hloads Hill.
  unfold process_sns_record_with, process_sns_record_body, catch, mbind, lift.
  rewrite Hsns.
  destruct sns as [| b | n | m e | s | xs | items]; try discriminate.
  assert (Hid : exists message_id, py_get (VDict items) "MessageId" VNone = Ok message_id)
    by (simpl; destruct (lookup "MessageId" items); eauto).
  destruct Hid as [message_id ->].
  rewrite Hmsg.
  assert (Hat : exists attrs,
             py_get (VDict items) "MessageAttributes" (VDict []) = Ok attrs)
    by (simpl; destruct (lookup "MessageAttributes" items); eauto).
  destruct Hat as [attrs ->].
  unfold parse_message. rewrite Hloads.
  destruct (extract_correlation_id rt attrs parsed w) as [[cid|e] w1].
  - destruct (extract_source attrs parsed w1) as [[src|e] w2].
    + destruct (ill_formed_rejected rt cfg parsed message_id Hill) as [m ->].
      exists m, w2. reflexivity.
    + destruct e; unfold raise; eexists; eexists; reflexivity.
  - destruct e; unfold raise; eexists; eexists; reflexivity.
Qed.

(** C9.  [validate_message_structure] raises [MessageProcessingError] for
    every decoded message that is not an object, has no [data], or is larger
    than the ceiling, and only for those.  [process_sns_record] runs the
    check before the content processor: for such a message the record fails
    with a [MessageProcessingError] that is the same whatever the content
    processor is, so the dispatch is not reached. *)
Theorem structure_check_guards_dispatch :
  (forall message message_id,
      (exists m, validate_message_structure rt cfg message message_id
                 = Raise (MessageProcessingError m)) <->
      ill_formed rt cfg message) /\
  (forall message message_id,
      ~ ill_formed rt cfg message ->
      validate_message_structure rt cfg message message_id = Ok tt) /\
  (forall record context w sns message parsed,
      py_get record "Sns" (VDict []) = Ok sns ->
      py_get sns "Message" (VStr "{}") = Ok message ->
      loads (json_loads rt) message = Ok parsed ->
      ill_formed rt cfg parsed ->
      exists m w',
        forall process_content,
          process_sns_record_with rt cfg process_content record context w
          = (Raise (MessageProcessingError m), w')).
Proof.
  split; [|split].
  - intros message message_id. split.
    + intros [m Hm].
      pose proof (validate_message_structure_cases rt cfg message message_id) as H.
      rewrite Hm in H. apply H.
    + apply ill_formed_rejected.
  - intros message message_id Hok.
    pose proof (validate_message_structure_cases rt cfg message message_id) as H.
    destruct (validate_message_structure rt cfg message message_id) as [[]|e].
    + reflexivity.
    + exfalso. apply Hok, H.
  - intros record context w sns message parsed. apply structure_gate.
Qed.

End StructureGate.

(** ** The batch loop *)

Section Batch.

Import Subscriber.

Variable rt : runtime.
Variable process_record : value -> LambdaContext -> M value.
Variable context : LambdaContext.

Local Abbreviation attempted := (attempted process_record context).
Local Abbreviation batch_answer := (batch_answer context).

Lemma sns_shaped_record_id (record : value) :
  sns_shaped record = true <-> exists rid, record_id record = Ok rid.
Proof.
  unfold sns_shaped, record_id.
  destruct record as [| b | n | m e | s | xs | fields]; simpl;
    try (split; [discriminate | intros [rid H]; discriminate]).
  destruct (lookup "Sns" fields) as [sns|]; simpl.
  - destruct sns as [| b | n | m e | s | xs | items]; simpl;
      try (split; [discriminate | intros [rid H]; discriminate]).
    split; [intros _|reflexivity]. destruct (lookup "MessageId" items); eauto.
  - split; [eauto | reflexivity].
Qed.

Lemma attempted_counts (records : list value) (w w' : world)
    (results : list value) (s f : Z) :
  attempted records w results s f w' ->
  List.length results = List.length records /\
  0 <= s /\ 0 <= f /\ s + f = Z.of_nat (List.length records).
Proof.
  induction 1 as [w | record rest w w1 w2 result results s f Hp Hrest IH
                    | record rest w w1 w2 e rid results s f Hp Hid Hrest IH].
  - simpl. lia.
  - destruct IH as (Hl & Hs & Hf & Hsum). simpl. rewrite Hl. lia.
  - destruct IH as (Hl & Hs & Hf & Hsum). simpl. rewrite Hl. lia.
Qed.

Lemma handle_record_returned (record : value) (st : loop_state) (w w1 : world)
    (result : value) :
  process_record record context w = (Ok result, w1) ->
  handle_record process_record context record st w
  = ({| successful_records := successful_records st + 1;
        failed_records := failed_records st;
        processing_results := processing_results st ++ [result] |}, None, w1).
Proof. intros H. unfold handle_record. rewrite H. reflexivity. Qed.

Lemma handle_record_raised (record : value) (st : loop_state) (w w1 : world)
    (e : exn) (rid : value) :
  process_record record context w = (Raise e, w1) ->
  record_id record = Ok rid ->
  handle_record process_record context record st w
  = ({| successful_records := successful_records st;
        failed_records := failed_records st + 1;
        processing_results := processing_results st ++ [failure_report e rid] |},
     None, w1).
Proof. intros H Hid. unfold handle_record. rewrite H, Hid. reflexivity. Qed.

Lemma handle_record_stopped (record : value) (st : loop_state) (w w1 : world)
    (e e' : exn) :
  process_record record context w = (Raise e, w1) ->
  record_id record = Raise e' ->
  handle_record process_record context record st w
  = ({| successful_records := successful_records st;
        failed_records := failed_records st + 1;
        processing_results := processing_results st |}, Some e', w1).
Proof. intros H Hid. unfold handle_record. rewrite H, Hid. reflexivity. Qed.

(** The loop over well-shaped records attempts each of them. *)
Lemma process_records_attempted (records : list value) :
  forallb sns_shaped records = true ->
  forall w, exists results s f w',
    attempted records w results s f w' /\
    forall st,
      process_records process_record context records st w
      = ({| successful_records := successful_records st + s;
            failed_records := failed_records st + f;
            processing_results := processing_results st ++ results |}, None, w').
Proof.
  induction records as [|record rest IH]; intros Hshape w.
  - exists [], 0, 0, w. split; [constructor|].
    intros [s0 f0 r0]. simpl. rewrite !Z.add_0_r, app_nil_r. reflexivity.
  - simpl in Hshape. apply andb_true_iff in Hshape as [Hrec Hrest].
    apply sns_shaped_record_id in Hrec as [rid Hid].
    destruct (process_record record context w) as [[result|e] w1] eqn:Hp.
    + destruct (IH Hrest w1) as (results & s & f & w' & Hatt & Hloop).
      exists (result :: results), (s + 1), f, w'.
      split; [econstructor; eauto|].
      intros st. cbn [process_records].
      rewrite (handle_record_returned _ st _ _ _ Hp), Hloop. cbn.
      rewrite <- app_assoc.
      replace (successful_records st + 1 + s) with (successful_records st + (s + 1))
        by lia.
      reflexivity.
    + destruct (IH Hrest w1) as (results & s & f & w' & Hatt & Hloop).
      exists (failure_report e rid :: results), s, (f + 1), w'.
      split; [econstructor; eauto|].
      intros st. cbn [process_records].
      rewrite (handle_record_raised _ st _ _ _ _ Hp Hid), Hloop. cbn.
      rewrite <- app_assoc.
      replace (failed_records st + 1 + f) with (failed_records st + (f + 1)) by lia.
      reflexivity.
Qed.

Lemma lambda_handler_attempts_all (ev : list (string * value)) (records : list value)
    (w : world) :
  lookup "Records" ev = Some (VList records) ->
  forallb sns_shaped records = true ->
  exists results s f w1 w',
    attempted records (tick w) results s f w1 /\
    lambda_handler_with rt process_record (VDict ev) context w
    = (Ok (batch_answer results s f), w').
Proof.
  intros Hrec Hshape.
  destruct (process_records_attempted records Hshape (tick w))
    as (results & s & f & w1 & Hatt & Hloop).
  destruct (record_metrics_returns rt s f (utcnow rt (step w)) context false w1)
    as [w' Hm].
  exists results, s, f, w1, w'. split; [exact Hatt|].
  unfold lambda_handler_with, mbind, now, lift, record_count. simpl.
  rewrite Hrec. simpl. rewrite Hloop. simpl. rewrite Hm. reflexivity.
Qed.

End Batch.

Section BatchFacts.

Import Subscriber.

Variable rt : runtime.
Variable process_record : value -> LambdaContext -> M value.
Variable context : LambdaContext.

(** The entry at a record's position is that record's outcome. *)
Lemma attempted_at (before : list value) (record : value) (after : list value) :
  forall (w w' : world) (results : list value) (s f : Z),
    attempted process_record context (before ++ record :: after) w results s f w' ->
    exists entry w0 w1,
      nth_error results (List.length before) = Some entry /\
      (process_record record context w0 = (Ok entry, w1) \/
       exists e rid,
         process_record record context w0 = (Raise e, w1) /\
         record_id record = Ok rid /\
         entry = failure_report e rid /\ 1 <= f).
Proof.
  induction before as [|b before IH]; intros w w' results s f Hatt.
  - simpl in Hatt. inversion Hatt as [| r rest w0 w1 w2 result results' s' f' Hp Hrest
                                       | r rest w0 w1 w2 e rid results' s' f' Hp Hid Hrest];
      subst.
    + exists result, w, w1. split; [reflexivity | left; exact Hp].
    + exists (failure_report e rid), w, w1. split; [reflexivity|].
      right. exists e, rid. repeat split; auto.
      pose proof (attempted_counts _ _ _ _ _ _ _ _ Hrest). lia.
  - simpl in Hatt. inversion Hatt as [| r rest w0 w1 w2 result results' s' f' Hp Hrest
                                       | r rest w0 w1 w2 e rid results' s' f' Hp Hid Hrest];
      subst.
    + destruct (IH _ _ _ _ _ Hrest) as (entry & wa & wb & Hnth & Hout).
      exists entry, wa, wb. split; [exact Hnth | exact Hout].
    + destruct (IH _ _ _ _ _ Hrest) as (entry & wa & wb & Hnth & Hout).
      exists entry, wa, wb. split; [exact Hnth|].
      destruct Hout as [Hout | (e' & rid' & H1 & H2 & H3 & H4)]; [left; exact Hout|].
      right. exists e', rid'. repeat split; auto. lia.
Qed.

(** A property of the entries that every step of the loop keeps holds of
    the results the loop ends with. *)
Lemma process_records_invariant (P : value -> Prop) :
  (forall record w result w1,
      process_record record context w = (Ok result, w1) -> P result) ->
  (forall record w e w1 rid,
      process_record record context w = (Raise e, w1) ->
      record_id record = Ok rid -> P (failure_report e rid)) ->
  forall records st w st' stop w',
    Forall P (processing_results st) ->
    process_records process_record context records st w = (st', stop, w') ->
    Forall P (processing_results st').
Proof.
  intros Hok Hfail records.
  induction records as [|record rest IH]; intros st w st' stop w' Hst Hloop.
  - simpl in Hloop. injection Hloop as <- _ _. exact Hst.
  - cbn [process_records] in Hloop.
    destruct (process_record record context w) as [[result|e] w1] eqn:Hp.
    + rewrite (handle_record_returned _ _ _ st _ _ _ Hp) in Hloop.
      apply IH in Hloop; [exact Hloop|]. simpl.
      apply Forall_app. split; [exact Hst|]. constructor; [|constructor].
      eapply Hok; eauto.
    + destruct (record_id record) as [rid|e'] eqn:Hid.
      * rewrite (handle_record_raised _ _ _ st _ _ _ _ Hp Hid) in Hloop.
        apply IH in Hloop; [exact Hloop|]. simpl.
        apply Forall_app. split; [exact Hst|]. constructor; [|constructor].
        eapply Hfail; eauto.
      * rewrite (handle_record_stopped _ _ _ st _ _ _ _ Hp Hid) in Hloop.
        injection Hloop as <- _ _. exact Hst.
Qed.

(** The results the handler returns, when it returns any, are the results
    some run of the loop ended with. *)
Lemma lambda_handler_results (event : value) (w w' : world) (out : value)
    (results : list value) :
  lambda_handler_with rt process_record event context w = (Ok out, w') ->
  py_getitem out "results" = Ok (VList results) ->
  exists records st w0 w1,
    process_records process_record context records
      {| successful_records := 0; failed_records := 0; processing_results := [] |} w0
    = (st, None, w1) /\
    processing_results st = results.
Proof.
  unfold lambda_handler_with, mbind, now, lift, ret.
  destruct (record_count event) as [total|]; [|discriminate].
  destruct (rbind (py_get event "Records" (VList [])) py_iter) as [records|].
  - destruct (process_records process_record context records
                {| successful_records := 0; failed_records := 0;
                   processing_results := [] |} (tick w))
      as [[st [stop|]] w1] eqn:Hloop.
    + match goal with
      | |- context [record_metrics ?a ?b ?c ?d ?e ?f ?g] =>
          destruct (record_metrics_returns a b c d e f g) as [w2 ->]
      end.
      intros H. injection H as <- _. discriminate.
    + match goal with
      | |- context [record_metrics ?a ?b ?c ?d ?e ?f ?g] =>
          destruct (record_metrics_returns a b c d e f g) as [w2 ->]
      end.
      intros H. injection H as <- _. simpl. intros E. injection E as <-.
      exists records, st, (tick w), w1. auto.
  - match goal with
    | |- context [record_metrics ?a ?b ?c ?d ?e ?f ?g] =>
        destruct (record_metrics_returns a b c d e f g) as [w2 ->]
    end.
    intros H. injection H as <- _. discriminate.
Qed.

End BatchFacts.

(** ** The receive handler *)

Section ReceiveHandler.

Import Subscriber.

Variable rt : runtime.
Variable cfg : Config.t.

Local Abbreviation data_less := (data_less rt).

Lemma data_less_shaped (record : value) :
  data_less record -> sns_shaped record = true.
Proof.
  intros (fields & sns & text & envelope & -> & Hsns & _). simpl. now rewrite Hsns.
Qed.

Lemma data_less_fails (record : value) (context : LambdaContext) (w : world) :
  data_less record ->
  exists m w',
    process_sns_record rt cfg record context w = (Raise (MessageProcessingError m), w').
Proof.
  intros (fields & sns & text & envelope & -> & Hsns & Htext & Hloads & Hdata).
  destruct (structure_gate rt cfg (VDict fields) context w (VDict sns) (VStr text)
              (VDict envelope)) as (m & w' & H).
  - simpl. now rewrite Hsns.
  - simpl. now rewrite Htext.
  - simpl. now rewrite Hloads.
  - right. exists envelope. split; [reflexivity | now left].
  - exists m, w'. apply H.
Qed.


(** C10.  Whatever the content processor, [process_sns_record] raises
    nothing but [MessageProcessingError].  Hence every step of the loop
    either stops without an entry or appends an entry whose status is
    [success] or [failed], and no entry of the results the handler returns
    has status [error]. *)
Theorem record_failures_are_processing_errors :
  (forall process_content record context w e w',
      process_sns_record_with rt cfg process_content record context w = (Raise e, w') ->
      exists m, e = MessageProcessingError m) /\
  (forall event context w out w' results,
      lambda_handler rt cfg event context w = (Ok out, w') ->
      py_getitem out "results" = Ok (VList results) ->
      Forall (fun entry =>
                py_getitem entry "status" = Ok (VStr "success") \/
                py_getitem entry "status" = Ok (VStr "failed")) results).
Proof.
  split.
  - intros process_content record context w e w' H.
    eapply process_sns_record_with_raises; eauto.
  - intros event context w out w' results Hrun Hres.
    destruct (lambda_handler_results rt (process_sns_record rt cfg) context
                event w w' out results Hrun Hres) as (records & st & w0 & w1 & Hloop & <-).
    eapply process_records_invariant; [| | | exact Hloop].
    + intros record wa result wb Hp.
      destruct (process_sns_record_answer rt cfg _ _ _ _ _ Hp)
        as (mid & cid & src & ty & details & pt & ts & ->).
      left. reflexivity.
    + intros record wa e wb rid Hp _.
      destruct (process_sns_record_with_raises rt cfg _ _ _ _ _ _ Hp) as [m ->].
      right. reflexivity.
    + constructor.
Qed.

End ReceiveHandler.

Section RecordOutcome.

Import Subscriber.

Variable rt : runtime.
Variable process_record : value -> LambdaContext -> M value.
Variable context : LambdaContext.

Lemma failure_report_status (e : exn) (rid : value) :
  py_getitem (failure_report e rid) "status"
  = Ok (VStr (if is_MessageProcessingError e then "failed" else "error")).
Proof. reflexivity. Qed.



End RecordOutcome.

(** ** Correlation identifiers *)

Section Correlation.

Import Subscriber.

Variable rt : runtime.

(** C6, as amended.  The identifier is the [Value] of the attribute bag's
    [CorrelationId] entry when the entry has one; with no such entry it is
    the body's [correlationId] when the body is an object that has one.  In
    both cases every call, in any world, returns that value.  A fresh
    identifier, never the empty text, is generated when neither source has
    an entry, and also when the attribute entry is there without a [Value]:
    the body is then not consulted. *)
Theorem correlation_id_derivation (attrs : list (string * value)) (body : value) :
  (forall n, uuid4 rt n <> "") ->
  (forall entry v,
      lookup "CorrelationId" attrs = Some (VDict entry) ->
      lookup "Value" entry = Some v ->
      forall w, fst (extract_correlation_id rt (VDict attrs) body w) = Ok v) /\
  (forall items v,
      lookup "CorrelationId" attrs = None ->
      body = VDict items -> lookup "correlationId" items = Some v ->
      forall w, extract_correlation_id rt (VDict attrs) body w = (Ok v, w)) /\
  (lookup "CorrelationId" attrs = None ->
   (forall items, body = VDict items -> lookup "correlationId" items = None) ->
   forall w, exists fresh,
     extract_correlation_id rt (VDict attrs) body w = (Ok (VStr fresh), tick w) /\
     fresh = uuid4 rt (step w) /\ fresh <> "") /\
  (forall entry,
      lookup "CorrelationId" attrs = Some (VDict entry) ->
      lookup "Value" entry = None ->
      forall w, exists fresh,
        extract_correlation_id rt (VDict attrs) body w = (Ok (VStr fresh), tick w) /\
        fresh = uuid4 rt (step w) /\ fresh <> "").
Proof.
  intros Hfresh.
  unfold extract_correlation_id, mbind, lift, new_uuid, ret. simpl. unfold has_key.
  split; [|split; [|split]].
  - intros entry v Hentry Hv w. rewrite Hentry. simpl. rewrite Hv. reflexivity.
  - intros items v Hentry -> Hv w. rewrite Hentry. simpl. unfold has_key.
    rewrite Hv. reflexivity.
  - intros Hentry Hbody w. rewrite Hentry.
    exists (uuid4 rt (step w)). split; [|split; [reflexivity | apply Hfresh]].
    destruct body as [| b | n | m e | s | xs | items]; try reflexivity.
    unfold has_key. now rewrite (Hbody items eq_refl).
  - intros entry Hentry Hv w. rewrite Hentry. simpl. rewrite Hv.
    exists (uuid4 rt (step w)). split; [reflexivity | split; [reflexivity | apply Hfresh]].
Qed.

End Correlation.

(** ** The size ceiling *)

Lemma publisher_ceiling (environ : environment) (cfg : Publisher.Config.t) :
  Publisher.Config.load environ = Ok cfg ->
  Publisher.Config.MAX_MESSAGE_SIZE cfg = 262144.
Proof.
  unfold Publisher.Config.load.
  destruct (py_int (environ_get environ "MAX_RETRIES" "3")); [|discriminate].
  destruct (py_int (environ_get environ "TIMEOUT_SECONDS" "30")); [|discriminate].
  simpl. intros H. injection H as <-. reflexivity.
Qed.

Lemma subscriber_ceiling (environ : environment) (cfg : Subscriber.Config.t) :
  Subscriber.Config.load environ = Ok cfg ->
  Subscriber.Config.MAX_MESSAGE_SIZE cfg = 262144.
Proof.
  unfold Subscriber.Config.load.
  destruct (py_int (environ_get environ "MAX_RETRIES" "3")); [|discriminate].
  destruct (py_int (environ_get environ "TIMEOUT_SECONDS" "30")); [|discriminate].
  destruct (py_int (environ_get environ "RESULT_TTL_DAYS" "7")); [|discriminate].
  simpl. intros H. injection H as <-. reflexivity.
Qed.

Lemma check_body_ceiling (c1 c2 : Publisher.Config.t) (json_dumps : json_encoder)
    (body : value) :
  Publisher.Config.MAX_MESSAGE_SIZE c1 = Publisher.Config.MAX_MESSAGE_SIZE c2 ->
  Publisher.check_body c1 json_dumps body = Publisher.check_body c2 json_dumps body.
Proof. intros H. unfold Publisher.check_body. rewrite H. reflexivity. Qed.

(** C7, as amended.  The ceiling both checks compare against is the
    constant 262144 (256 * 1024), the same on the publish side and on the
    receive side, whatever the process environment holds: configurations
    loaded from any two environments make [validate_input] and
    [validate_message_structure] decide alike.  (The retry count is what the
    environment sets; it is 3 when the environment is empty.) *)
Theorem message_size_ceiling_is_fixed (e1 e2 : environment) :
  (forall c1 c2,
      Publisher.Config.load e1 = Ok c1 -> Publisher.Config.load e2 = Ok c2 ->
      Publisher.Config.MAX_MESSAGE_SIZE c1 = 262144 /\
      Publisher.Config.MAX_MESSAGE_SIZE c2 = 262144 /\
      forall json_loads json_dumps event,
        Publisher.validate_input c1 json_loads json_dumps event
        = Publisher.validate_input c2 json_loads json_dumps event) /\
  (forall c1 c2,
      Subscriber.Config.load e1 = Ok c1 -> Subscriber.Config.load e2 = Ok c2 ->
      Subscriber.Config.MAX_MESSAGE_SIZE c1 = 262144 /\
      Subscriber.Config.MAX_MESSAGE_SIZE c2 = 262144 /\
      forall rt message message_id,
        Subscriber.validate_message_structure rt c1 message message_id
        = Subscriber.validate_message_structure rt c2 message message_id) /\
  (exists c, Publisher.Config.load (fun _ => None) = Ok c /\
             Publisher.Config.MAX_RETRIES c = 3).
Proof.
  split; [|split].
  - intros c1 c2 H1 H2.
    pose proof (publisher_ceiling e1 c1 H1) as E1.
    pose proof (publisher_ceiling e2 c2 H2) as E2.
    split; [exact E1 | split; [exact E2|]].
    intros json_loads json_dumps event.
    unfold Publisher.validate_input, Publisher.validate_input_body.
    destruct (Publisher.decode_body json_loads event) as [body|e]; [|reflexivity].
    simpl. rewrite (check_body_ceiling c1 c2 json_dumps body); [reflexivity | congruence].
  - intros c1 c2 H1 H2.
    pose proof (subscriber_ceiling e1 c1 H1) as E1.
    pose proof (subscriber_ceiling e2 c2 H2) as E2.
    split; [exact E1 | split; [exact E2|]].
    intros rt message message_id.
    unfold Subscriber.validate_message_structure. rewrite E1, E2. reflexivity.
  - eexists. split; reflexivity.
Qed.

(* ================================================================== *)
(** * Concrete runs *)
(* ================================================================== *)

Example strip_spaces : strip "  a b   " = "a b".
Proof. reflexivity. Qed.

Example split_words :
  split "Hello world test message" = ["Hello"; "world"; "test"; "message"].
Proof. reflexivity. Qed.

Example int_three : py_int "3" = Ok 3.
Proof. reflexivity. Qed.

Example int_signed_underscore : py_int " -1_000 " = Ok (-1000).
Proof. reflexivity. Qed.

Example int_bad :
  py_int "1__0" = Raise (ValueError "invalid literal for int() with base 10: '1__0'").
Proof. reflexivity. Qed.

Example str_int_ceiling : str_int 262144 = "262144".
Proof. reflexivity. Qed.

Example text_message_counts :
  Subscriber.process_text_message (VStr "Hello world test message") (VStr "test-id")
  = Ok (VDict [("type", VStr "text"); ("wordCount", VInt 4);
               ("charCount", VInt 24); ("processed", VBool true)]).
Proof. reflexivity. Qed.

Example order_message_fields :
  Subscriber.process_order_message
    (VDict [("id", VStr "order-123"); ("total", VInt 150)]) (VStr "test-id")
  = Ok (VDict [("type", VStr "order"); ("orderId", VStr "order-123");
               ("totalAmount", VInt 150); ("processed", VBool true)]).
Proof. reflexivity. Qed.

Example default_publisher_config :
  Publisher.Config.load (fun _ => None) = Ok Sample.publisher_cfg.
Proof. reflexivity. Qed.

Example default_subscriber_config :
  Subscriber.Config.load (fun _ => None) = Ok Sample.cfg.
Proof. reflexivity. Qed.

Example zero_message_rejected :
  Publisher.validate_input Sample.publisher_cfg Sample.decode Sample.dumps
    (VDict [("message", VInt 0)])
  = Raise (ValidationError "Message cannot be empty").
Proof. reflexivity. Qed.

Example good_record_processed :
  fst (Subscriber.process_sns_record Sample.rt Sample.cfg Sample.good_record
         Sample.context Sample.w0)
  = Ok (VDict [("status", VStr "success");
               ("messageId", VStr "m-1");
               ("correlationId", VStr "test-correlation-id");
               ("source", VStr "publisher-lambda");
               ("processingResult",
                VDict [("type", VStr "text"); ("processed", VBool true);
                       ("details",
                        VDict [("type", VStr "text"); ("wordCount", VInt 1);
                               ("charCount", VInt 1); ("processed", VBool true)]);
                       ("processingTime", VStr "2025-01-01T00:00:00.000001")]);
               ("timestamp", VStr "2025-01-01T00:00:00.000002")]).
Proof. vm_compute. reflexivity. Qed.

(** ** The input validator on a direct event *)


(** ** The dispatch on data with both [message] and [order] *)

Lemma classification_of_sample_envelope :
  py_get Sample.envelope "data" (VDict [])
  = Ok (VDict [("message", VStr "x"); ("order", VDict [("id", VStr "order-123")])]) /\
  Subscriber.process_message_content Sample.rt Sample.envelope (VStr "abc")
    (VStr "m-1") Sample.context Sample.w0
  = wrapped Sample.rt
      (call Sample.rt TextHandler
         (VDict [("message", VStr "x"); ("order", VDict [("id", VStr "order-123")])])
         (VStr "abc")) Sample.w0.
Proof.
  split; [reflexivity|].
  apply (proj2 (classification_precedence Sample.rt Sample.envelope
                  (VDict [("message", VStr "x");
                          ("order", VDict [("id", VStr "order-123")])])
                  (VStr "abc") (VStr "m-1") Sample.context Sample.w0 eq_refl)
           [("message", VStr "x"); ("order", VDict [("id", VStr "order-123")])]
           eq_refl).
  - simpl. auto.
  - simpl. auto.
Defined.

(** ** Three rejected publish calls, then an accepted one *)


(** ** Batches *)







(** ** A data-less envelope never reaches the dispatch *)

Lemma data_less_record_gated :
  ill_formed Sample.rt Sample.cfg Sample.no_data /\
  exists m w',
    forall process_content,
      Subscriber.process_sns_record_with Sample.rt Sample.cfg process_content
        Sample.data_less_record Sample.context Sample.w0
      = (Raise (MessageProcessingError m), w').
Proof.
  assert (Hill : ill_formed Sample.rt Sample.cfg Sample.no_data).
  { right. exists [("invalid", VStr "structure")]. split; [reflexivity | now left]. }
  split; [exact Hill|].
  apply (proj2 (proj2 (structure_check_guards_dispatch Sample.rt Sample.cfg))
           Sample.data_less_record Sample.context Sample.w0
           (VDict [("Type", VStr "Notification");
                   ("MessageId", VStr "m-2");
                   ("Message", VStr Sample.no_data_text);
                   ("MessageAttributes",
                    VDict [("CorrelationId",
                            VDict [("Type", VStr "String");
                                   ("Value", VStr "test-correlation-id")]);
                           ("Source",
                            VDict [("Type", VStr "String");
                                   ("Value", VStr "publisher-lambda")])])])
           (VStr Sample.no_data_text) Sample.no_data).
  - reflexivity.
  - reflexivity.
  - vm_compute. reflexivity.
  - exact Hill.
Defined.

(** ** No entry of status [error] from the real processor *)

Lemma statuses_of_a_mixed_batch :
  exists out w' results,
    Subscriber.lambda_handler Sample.rt Sample.cfg
      (VDict [("Records", VList [Sample.good_record; Sample.data_less_record])])
      Sample.context Sample.w0 = (Ok out, w') /\
    py_getitem out "results" = Ok (VList results) /\
    Forall (fun entry =>
              py_getitem entry "status" = Ok (VStr "success") \/
              py_getitem entry "status" = Ok (VStr "failed")) results.
Proof.
  eexists. eexists. eexists.
  split; [vm_compute; reflexivity|].
  split; [vm_compute; reflexivity|].
  eapply (proj2 (record_failures_are_processing_errors Sample.rt Sample.cfg)
            (VDict [("Records", VList [Sample.good_record; Sample.data_less_record])])
            Sample.context Sample.w0);
    vm_compute; reflexivity.
Defined.

(** ** Correlation identifiers *)

(** The body carries a [correlationId], the attribute entry has no [Value]:
    the answer is a fresh identifier, another one at each call. *)
Lemma valueless_attribute_ignores_body :
  py_getitem Sample.body_with_id "correlationId" = Ok (VStr "abc") /\
  fst (Subscriber.extract_correlation_id Sample.rt Sample.valueless_attributes
         Sample.body_with_id Sample.w0)
  = Ok (VStr "00000000-0000-4000-8000-000000000000") /\
  fst (Subscriber.extract_correlation_id Sample.rt Sample.valueless_attributes
         Sample.body_with_id (Subscriber.tick Sample.w0))
  = Ok (VStr "00000000-0000-4000-8000-000000000001").
Proof. repeat split; vm_compute; reflexivity. Qed.

Lemma sample_uuid_not_empty (n : nat) : Subscriber.uuid4 Sample.rt n <> "".
Proof. simpl. discriminate. Qed.

Lemma correlation_id_from_attributes :
  (forall n, Subscriber.uuid4 Sample.rt n <> "") /\
  forall w,
    fst (Subscriber.extract_correlation_id Sample.rt
           (VDict [("CorrelationId",
                    VDict [("Type", VStr "String");
                           ("Value", VStr "test-correlation-id")])])
           Sample.body_with_id w)
    = Ok (VStr "test-correlation-id").
Proof.
  split; [exact sample_uuid_not_empty|].
  exact (proj1 (correlation_id_derivation Sample.rt
                  [("CorrelationId",
                    VDict [("Type", VStr "String");
                           ("Value", VStr "test-correlation-id")])]
                  Sample.body_with_id sample_uuid_not_empty)
           [("Type", VStr "String"); ("Value", VStr "test-correlation-id")]
           (VStr "test-correlation-id") eq_refl eq_refl).
Defined.

(** ** The size ceiling *)

(** No environment changes the ceiling; one that sets [MAX_MESSAGE_SIZE]
    to 1024 still loads 262144 on both sides. *)
Lemma environment_cannot_set_ceiling :
  ~ (exists environ cfg,
        Publisher.Config.load environ = Ok cfg /\
        Publisher.Config.MAX_MESSAGE_SIZE cfg <> 262144) /\
  ~ (exists environ cfg,
        Subscriber.Config.load environ = Ok cfg /\
        Subscriber.Config.MAX_MESSAGE_SIZE cfg <> 262144) /\
  (exists cfg, Publisher.Config.load Sample.small_ceiling_environ = Ok cfg /\
               Publisher.Config.MAX_MESSAGE_SIZE cfg = 262144) /\
  (exists cfg, Subscriber.Config.load Sample.small_ceiling_environ = Ok cfg /\
               Subscriber.Config.MAX_MESSAGE_SIZE cfg = 262144).
Proof.
  split; [|split; [|split]].
  - intros (environ & cfg & Hload & Hne). apply Hne.
    eapply publisher_ceiling; eauto.
  - intros (environ & cfg & Hload & Hne). apply Hne.
    eapply subscriber_ceiling; eauto.
  - eexists. split; reflexivity.
  - eexists. split; reflexivity.
Qed.

Lemma ceiling_of_two_environments :
  exists c1 c2,
    Publisher.Config.load (fun _ => None) = Ok c1 /\
    Publisher.Config.load Sample.small_ceiling_environ = Ok c2 /\
    Publisher.Config.MAX_MESSAGE_SIZE c1 = 262144 /\
    Publisher.Config.MAX_MESSAGE_SIZE c2 = 262144 /\
    forall json_loads json_dumps event,
      Publisher.validate_input c1 json_loads json_dumps event
      = Publisher.validate_input c2 json_loads json_dumps event.
Proof.
  eexists. eexists. split; [reflexivity|]. split; [reflexivity|].
  exact (proj1 (message_size_ceiling_is_fixed (fun _ => None)
                  Sample.small_ceiling_environ) _ _ eq_refl eq_refl).
Defined.

(* ================================================================== *)
(** * Further properties of the publisher *)
(* ================================================================== *)

Section ValidateInputShapes.

Import Publisher.

Variable cfg : Config.t.
Variable json_loads : json_decoder.
Variable json_dumps : json_encoder.

(** X1.  When the event has a [body] entry, that entry alone decides the
    outcome of [validate_input]: the other entries of the event are
    ignored, so the event validates as the event that holds only [body]. *)
Theorem validate_input_body_is_authoritative (ev : list (string * value))
    (wrapped : value) :
  lookup "body" ev = Some wrapped ->
  validate_input cfg json_loads json_dumps (VDict ev)
  = validate_input cfg json_loads json_dumps (VDict [("body", wrapped)]).
Proof.
  intros Hb.
  unfold validate_input, validate_input_body, decode_body.
  cbn [py_contains py_getitem rbind]. unfold has_key.
  cbn [lookup String.eqb Ascii.eqb Bool.eqb]. rewrite Hb. reflexivity.
Qed.

Lemma validate_input_checked (event body : value) :
  validate_input cfg json_loads json_dumps event = Ok body ->
  check_body cfg json_dumps body = Ok body.
Proof.
  unfold validate_input, validate_input_body.
  destruct (decode_body json_loads event) as [decoded|e]; simpl.
  - pose proof (check_body_cases cfg json_dumps decoded) as Hc.
    destruct (check_body cfg json_dumps decoded) as [out|e] eqn:Hcb.
    + destruct Hc as [-> _]. intros H. injection H as <-. exact Hcb.
    + destruct e; discriminate.
  - destruct e; discriminate.
Qed.

(** X2.  What [validate_input] returns is an object that passes the checks
    again: validated a second time as a direct event, it is returned
    unchanged, provided it has no [body] entry of its own (with one, the
    second run would validate that entry instead). *)
Theorem validate_input_idempotent (event body : value) :
  validate_input cfg json_loads json_dumps event = Ok body ->
  exists fields,
    body = VDict fields /\
    (lookup "body" fields = None ->
     validate_input cfg json_loads json_dumps body = Ok body).
Proof.
  intros Hv. pose proof (validate_input_checked event body Hv) as Hc.
  pose proof (check_body_cases cfg json_dumps body) as Hcases.
  rewrite Hc in Hcases. destruct Hcases as (_ & fields & msg & -> & _).
  exists fields. split; [reflexivity|].
  intros Hnone. unfold validate_input, validate_input_body, decode_body.
  cbn [py_contains rbind]. unfold has_key. rewrite Hnone.
  cbn [rbind]. rewrite Hc. reflexivity.
Qed.

End ValidateInputShapes.

Section PublishAttempts.

Import Publisher.

Variable environ : environment.
Variable cfg : Config.t.
Variable json_dumps : json_encoder.
Variable sns_publish : nat -> PublishRequest -> transport_outcome.

Lemma publish_loop_calls (request : PublishRequest) (max_retries : Z)
    (attempts : list Z) :
  forall c,
    (c <= snd (publish_loop sns_publish request max_retries attempts c)
     <= c + List.length attempts)%nat.
Proof.
  induction attempts as [|attempt rest IH]; intros c; cbn [publish_loop].
  - simpl. lia.
  - destruct (sns_publish c request) as [mid others | e].
    + simpl. lia.
    + destruct e as [m | m | name m].
      * destruct (attempt =? max_retries); [simpl; lia|].
        specialize (IH (S c)). simpl. lia.
      * destruct (attempt =? max_retries); [simpl; lia|].
        specialize (IH (S c)). simpl. lia.
      * simpl. lia.
Qed.

(** X3.  One call of [publish_message] makes at most [MAX_RETRIES + 1]
    transport calls; it makes none when the topic is unset, and none when
    the retry count is negative, in which case it returns [None] without
    raising. *)
Theorem publish_message_call_bound (message : value) (correlation_id : string)
    (calls : nat) :
  let outcome :=
    publish_message environ cfg json_dumps sns_publish message correlation_id calls in
  (calls <= snd outcome <= calls + Z.to_nat (Config.MAX_RETRIES cfg + 1))%nat /\
  (topic_unset environ -> snd outcome = calls) /\
  (~ topic_unset environ -> Config.MAX_RETRIES cfg < 0 -> outcome = (Ok VNone, calls)).
Proof.
  cbv zeta. unfold publish_message, topic_unset.
  destruct (environ "SNS_TOPIC_ARN") as [[|a arn]|] eqn:Harn.
  - split; [simpl; lia|]. split; [reflexivity|]. intros H. exfalso. apply H. now right.
  - split; [|split].
    + pose proof (publish_loop_calls
                    (publish_request environ json_dumps (String a arn) message
                       correlation_id)
                    (Config.MAX_RETRIES cfg)
                    (py_range (Config.MAX_RETRIES cfg + 1)) calls) as H.
      replace (List.length (py_range (Config.MAX_RETRIES cfg + 1)))
        with (Z.to_nat (Config.MAX_RETRIES cfg + 1)) in H
        by (unfold py_range; now rewrite length_map, length_seq).
      exact H.
    + intros [H|H]; discriminate.
    + intros _ Hneg. unfold py_range.
      replace (Z.to_nat (Config.MAX_RETRIES cfg + 1)) with 0%nat by lia.
      reflexivity.
  - split; [simpl; lia|]. split; [reflexivity|]. intros H. exfalso. apply H. now left.
Qed.

Variable request : PublishRequest.
Variable n : nat.

Lemma publish_loop_other_error (r i c j : nat) (name msg : string) :
  (i + r = S n)%nat -> (j < r)%nat ->
  (forall k, (k < j)%nat -> fails (sns_publish (c + k) request) = true) ->
  sns_publish (c + j) request = Rejected (TransportOtherError name msg) ->
  publish_loop sns_publish request (Z.of_nat n) (map Z.of_nat (seq i r)) c
  = (Raise (OtherException name msg), S (c + j)).
Proof.
  revert i c j. induction r as [|r IH]; intros i c j Hir Hj Hbefore Herr; [lia|].
  cbn [seq map publish_loop].
  destruct j as [|j].
  - rewrite Nat.add_0_r in *. rewrite Herr. reflexivity.
  - pose proof (Hbefore 0%nat ltac:(lia)) as H0. rewrite Nat.add_0_r in H0.
    destruct (sns_publish c request) as [mid others' | e] eqn:Hc; [discriminate|].
    assert (Hin : (Z.of_nat i =? Z.of_nat n) = false) by (apply Z.eqb_neq; lia).
    rewrite Hin.
    replace (S (c + S j)) with (S (S c + j)) by lia.
    destruct e; try discriminate;
      (apply IH; [lia | lia | | now replace (S c + j)%nat with (c + S j)%nat by lia];
       intros k Hk; replace (S c + k)%nat with (c + S k)%nat by lia;
       apply Hbefore; lia).
Qed.

End PublishAttempts.

Section PublishStops.

Import Publisher.

Variable environ : environment.
Variable cfg : Config.t.
Variable json_dumps : json_encoder.
Variable sns_publish : nat -> PublishRequest -> transport_outcome.
Variable message : value.
Variable correlation_id : string.
Variable calls : nat.

Local Abbreviation attempt :=
  (attempt environ json_dumps sns_publish message correlation_id calls).

(** X4.  The retry loop stops at the first attempt that does not fail with
    a botocore exception.  If that attempt succeeds, its response is
    returned and no further call is made; if it raises an exception of any
    other class, that exception leaves [publish_message] unchanged, not
    retried and not turned into [SNSPublishError]. *)
Theorem publish_message_stops_at_first_answer (arn : string) (j : nat) :
  environ "SNS_TOPIC_ARN" = Some arn -> arn <> "" ->
  0 <= Config.MAX_RETRIES cfg ->
  (j <= Z.to_nat (Config.MAX_RETRIES cfg))%nat ->
  (forall k, (k < j)%nat -> fails (attempt arn k) = true) ->
  (forall message_id others,
      attempt arn j = Published message_id others ->
      publish_message environ cfg json_dumps sns_publish message correlation_id calls
      = (Ok (response_of message_id others), S (calls + j))) /\
  (forall name msg,
      attempt arn j = Rejected (TransportOtherError name msg) ->
      publish_message environ cfg json_dumps sns_publish message correlation_id calls
      = (Raise (OtherException name msg), S (calls + j))).
Proof.
  intros Harn Hne Hpos Hj Hbefore.
  rewrite (publish_message_with_topic environ cfg json_dumps sns_publish message
             correlation_id calls arn Harn Hne Hpos).
  split.
  - intros message_id others Hpub.
    apply publish_loop_success; [lia | lia | exact Hbefore | exact Hpub].
  - intros name msg Herr.
    apply publish_loop_other_error; [lia | lia | exact Hbefore | exact Herr].
Qed.

(** X5.  [validate_required_env_vars] passes exactly when the topic
    identifier is set and not empty, and then [publish_message] never fails
    for an unset topic: whatever it raises, the transport was called. *)
Theorem required_env_vars_guard_publish :
  (PublisherHandler.validate_required_env_vars environ = Ok tt <->
   ~ topic_unset environ) /\
  (PublisherHandler.validate_required_env_vars environ = Ok tt ->
   0 <= Config.MAX_RETRIES cfg ->
   forall e calls',
     publish_message environ cfg json_dumps sns_publish message correlation_id calls
     = (Raise e, calls') ->
     (calls < calls')%nat) /\
  (topic_unset environ ->
   PublisherHandler.validate_required_env_vars environ
   = Raise (OtherException "OSError"
              "Missing required environment variables: SNS_TOPIC_ARN")).
Proof.
  assert (Hiff : PublisherHandler.validate_required_env_vars environ = Ok tt <->
                 ~ topic_unset environ).
  { unfold PublisherHandler.validate_required_env_vars, topic_unset. simpl.
    destruct (environ "SNS_TOPIC_ARN") as [[|a arn]|]; simpl.
    - split; [discriminate | intros H; exfalso; apply H; now right].
    - split; [intros _ [H|H]; discriminate | reflexivity].
    - split; [discriminate | intros H; exfalso; apply H; now left]. }
  split; [exact Hiff|]. split.
  - intros Hok Hpos e calls' Hraise. apply Hiff in Hok.
    destruct (environ "SNS_TOPIC_ARN") as [arn|] eqn:Harn;
      [|exfalso; apply Hok; left; exact Harn].
    destruct (string_dec arn "") as [->|Hne];
      [exfalso; apply Hok; right; exact Harn|].
    rewrite (publish_message_with_topic environ cfg json_dumps sns_publish message
               correlation_id calls arn Harn Hne Hpos) in Hraise.
    cbn [seq map publish_loop] in Hraise.
    match type of Hraise with
    | context [publish_request ?a ?b ?c ?d ?e] =>
        set (request := publish_request a b c d e) in *
    end.
    destruct (sns_publish calls request) as [mid others | err]; [discriminate|].
    destruct err as [m | m | name m].
    + destruct (Z.of_nat 0 =? Z.of_nat (Z.to_nat (Config.MAX_RETRIES cfg))).
      * injection Hraise as _ <-. lia.
      * match type of Hraise with
        | publish_loop ?s ?r ?m ?a ?c = _ =>
            pose proof (publish_loop_calls s r m a c) as Hb
        end.
        rewrite Hraise in Hb. simpl in Hb. lia.
    + destruct (Z.of_nat 0 =? Z.of_nat (Z.to_nat (Config.MAX_RETRIES cfg))).
      * injection Hraise as _ <-. lia.
      * match type of Hraise with
        | publish_loop ?s ?r ?m ?a ?c = _ =>
            pose proof (publish_loop_calls s r m a c) as Hb
        end.
        rewrite Hraise in Hb. simpl in Hb. lia.
    + injection Hraise as _ <-. lia.
  - unfold PublisherHandler.validate_required_env_vars, topic_unset. simpl.
    intros [H|H]; rewrite H; reflexivity.
Qed.

End PublishStops.

(** ** The publisher's handler *)

Section PublisherEntry.

Import Publisher.

Variable rt : PublisherHandler.runtime.
Variable cfg : Config.t.

Lemma publisher_record_metrics_returns (metric_type correlation_id : string)
    (start_time : Subscriber.clock_reading) (w : PublisherHandler.world) :
  exists w',
    PublisherHandler.record_metrics rt metric_type correlation_id start_time w
    = (Ok tt, w') /\
    PublisherHandler.calls w' = PublisherHandler.calls w.
Proof.
  unfold PublisherHandler.record_metrics, PublisherHandler.catch,
    PublisherHandler.mbind, PublisherHandler.now, PublisherHandler.ret.
  cbn [PublisherHandler.step PublisherHandler.tick].
  destruct (PublisherHandler.put_metric_data rt _ _ _); eexists; split; reflexivity.
Qed.

Lemma publish_loop_raises (request : PublishRequest) (max_retries : Z)
    (attempts : list Z) :
  forall c e c',
    publish_loop (PublisherHandler.sns_publish rt) request max_retries attempts c
    = (Raise e, c') ->
    is_ValidationError e = false.
Proof.
  induction attempts as [|attempt rest IH]; intros c e c'; cbn [publish_loop].
  - discriminate.
  - destruct (PublisherHandler.sns_publish rt c request) as [mid others | err].
    + discriminate.
    + destruct err as [m | m | name m].
      * destruct (attempt =? max_retries); [intros H; injection H as <- _; reflexivity|].
        apply IH.
      * destruct (attempt =? max_retries); [intros H; injection H as <- _; reflexivity|].
        apply IH.
      * intros H. injection H as <- _. reflexivity.
Qed.

Lemma publish_raises (message : value) (correlation_id : string)
    (w w' : PublisherHandler.world) (e : exn) :
  PublisherHandler.publish rt cfg message correlation_id w = (Raise e, w') ->
  is_ValidationError e = false.
Proof.
  unfold PublisherHandler.publish, publish_message.
  destruct (PublisherHandler.environ rt "SNS_TOPIC_ARN") as [[|a arn]|].
  - intros H. injection H as <- _. reflexivity.
  - match goal with
    | |- context [publish_loop ?s ?r ?m ?a ?c] =>
        destruct (publish_loop s r m a c) as [[resp|e0] c0] eqn:Hloop
    end; [discriminate|].
    intros H. injection H as <- _. eapply publish_loop_raises; eauto.
  - intros H. injection H as <- _. reflexivity.
Qed.

(** What the [try] block of the handler can do: answer 200, fail in
    [validate_input] before anything else happened, or fail later with an
    exception that is not a [ValidationError]. *)
Lemma lambda_handler_body_cases (event : value) (context : Subscriber.LambdaContext)
    (correlation_id : string) (start_time : Subscriber.clock_reading)
    (w : PublisherHandler.world) :
  match PublisherHandler.lambda_handler_body rt cfg event context correlation_id
          start_time w with
  | (Ok out, w') =>
      exists data body,
        validate_input cfg (PublisherHandler.json_loads rt)
          (PublisherHandler.json_dumps rt) event = Ok data /\
        out = publisher_answer 200 body correlation_id
  | (Raise e, w') =>
      (validate_input cfg (PublisherHandler.json_loads rt)
         (PublisherHandler.json_dumps rt) event = Raise e /\ w' = w) \/
      (is_ValidationError e = false /\
       exists data,
         validate_input cfg (PublisherHandler.json_loads rt)
           (PublisherHandler.json_dumps rt) event = Ok data)
  end.
Proof.
  unfold PublisherHandler.lambda_handler_body, PublisherHandler.mbind,
    PublisherHandler.lift.
  destruct (validate_input cfg (PublisherHandler.json_loads rt)
              (PublisherHandler.json_dumps rt) event) as [data|e];
    [|left; split; reflexivity].
  unfold PublisherHandler.prepare_message, PublisherHandler.mbind,
    PublisherHandler.now, PublisherHandler.ret.
  match goal with
  | |- context [PublisherHandler.publish rt cfg ?m ?c ?w0] =>
      destruct (PublisherHandler.publish rt cfg m c w0) as [[response|e] w1] eqn:Hpub
  end.
  - destruct (publisher_record_metrics_returns "Success" correlation_id start_time w1)
      as (w2 & -> & _).
    destruct (py_getitem response "MessageId") as [message_id|e] eqn:Hid.
    + exists data. eexists. split; reflexivity.
    + right. split; [|exists data; reflexivity].
      destruct response; simpl in Hid; try (injection Hid as <-; reflexivity).
      destruct (lookup "MessageId" items); [discriminate|].
      injection Hid as <-. reflexivity.
  - right. split; [|exists data; reflexivity]. eapply publish_raises; eauto.
Qed.

Lemma lambda_handler_except_cases (correlation_id : string)
    (start_time : Subscriber.clock_reading) (e : exn) (w : PublisherHandler.world) :
  exists code body w',
    PublisherHandler.lambda_handler_except rt correlation_id start_time e w
    = (Ok (publisher_answer code body correlation_id), w') /\
    PublisherHandler.calls w' = PublisherHandler.calls w /\
    code = (if is_ValidationError e then 400 else 500).
Proof.
  unfold PublisherHandler.lambda_handler_except, PublisherHandler.mbind,
    PublisherHandler.ret.
  destruct e;
    match goal with
    | |- context [PublisherHandler.record_metrics rt ?t ?c ?s ?w0] =>
        destruct (publisher_record_metrics_returns t c s w0) as (w1 & -> & Hc)
    end;
    eexists; eexists; eexists; (split; [reflexivity | split; [exact Hc | reflexivity]]).
Qed.

(** X6.  The publisher's [lambda_handler] never raises: for every event,
    of any shape, it returns an answer whose status code is 200, 400 or 500
    and whose [X-Correlation-ID] header is the identifier drawn when the
    invocation began. *)
Theorem publisher_handler_always_answers (event : value)
    (context : Subscriber.LambdaContext) (w : PublisherHandler.world) :
  exists code body w',
    PublisherHandler.lambda_handler rt cfg event context w
    = (Ok (publisher_answer code body
             (PublisherHandler.uuid4 rt (PublisherHandler.step w))), w') /\
    (code = 200 \/ code = 400 \/ code = 500).
Proof.
  unfold PublisherHandler.lambda_handler, PublisherHandler.mbind,
    PublisherHandler.new_uuid, PublisherHandler.now, PublisherHandler.catch.
  match goal with
  | |- context [PublisherHandler.lambda_handler_body rt cfg ?ev ?ctx ?c ?s ?w0] =>
      pose proof (lambda_handler_body_cases ev ctx c s w0) as Hb;
      destruct (PublisherHandler.lambda_handler_body rt cfg ev ctx c s w0)
        as [[out|e] w1]
  end.
  - destruct Hb as (data & body & _ & ->).
    exists 200, body, w1. split; [reflexivity | now left].
  - match goal with
    | |- context [PublisherHandler.lambda_handler_except rt ?c ?s ?e0 ?w0] =>
        destruct (lambda_handler_except_cases c s e0 w0)
          as (code & body & w2 & -> & _ & Hcode)
    end.
    exists code, body, w2. split; [reflexivity|].
    rewrite Hcode. destruct (is_ValidationError e); auto.
Qed.

(** X7.  The status code of the publisher's answer tells what happened:
    it is 400 exactly when [validate_input] raised [ValidationError], and
    then the transport was not called; it is 200 only when the input was
    valid; every other failure, of the transport or unexpected, answers
    500. *)
Theorem publisher_status_code (event : value) (context : Subscriber.LambdaContext)
    (w w' : PublisherHandler.world) (out : value) :
  PublisherHandler.lambda_handler rt cfg event context w = (Ok out, w') ->
  (py_getitem out "statusCode" = Ok (VInt 400) <->
   exists m, validate_input cfg (PublisherHandler.json_loads rt)
               (PublisherHandler.json_dumps rt) event = Raise (ValidationError m)) /\
  (py_getitem out "statusCode" = Ok (VInt 400) ->
   PublisherHandler.calls w' = PublisherHandler.calls w) /\
  (py_getitem out "statusCode" = Ok (VInt 200) ->
   exists data, validate_input cfg (PublisherHandler.json_loads rt)
                  (PublisherHandler.json_dumps rt) event = Ok data) /\
  (py_getitem out "statusCode" = Ok (VInt 200) \/
   py_getitem out "statusCode" = Ok (VInt 400) \/
   py_getitem out "statusCode" = Ok (VInt 500)).
Proof.
  unfold PublisherHandler.lambda_handler, PublisherHandler.mbind,
    PublisherHandler.new_uuid, PublisherHandler.now, PublisherHandler.catch.
  match goal with
  | |- context [PublisherHandler.lambda_handler_body rt cfg ?ev ?ctx ?c ?s ?w0] =>
      pose proof (lambda_handler_body_cases ev ctx c s w0) as Hb;
      destruct (PublisherHandler.lambda_handler_body rt cfg ev ctx c s w0)
        as [[ans|e] w1]
  end.
  - destruct Hb as (data & body & Hv & ->). intros H. injection H as <- _.
    cbn [publisher_answer py_getitem lookup String.eqb Ascii.eqb Bool.eqb].
    split; [|split; [|split]].
    + split; [discriminate|]. intros [m Hm]. congruence.
    + discriminate.
    + intros _. exists data. exact Hv.
    + now left.
  - match goal with
    | |- context [PublisherHandler.lambda_handler_except rt ?c ?s ?e0 ?w0] =>
        destruct (lambda_handler_except_cases c s e0 w0)
          as (code & body & w2 & -> & Hcalls & Hcode)
    end.
    intros H. injection H as <- <-.
    cbn [publisher_answer py_getitem lookup String.eqb Ascii.eqb Bool.eqb].
    destruct Hb as [[Hv ->] | [Hcls [data Hv]]].
    + split; [|split; [|split]].
      * split.
        -- intros H. injection H as H. rewrite Hcode in H.
           destruct e; try discriminate. eauto.
        -- intros [m Hm]. rewrite Hv in Hm. injection Hm as ->. rewrite Hcode.
           reflexivity.
      * intros _. exact Hcalls.
      * intros H. injection H as H. rewrite Hcode in H.
           destruct (is_ValidationError e); discriminate.
      * rewrite Hcode. destruct (is_ValidationError e); auto.
    + rewrite Hcls in Hcode. subst code. split; [|split; [|split]].
      * split; [discriminate|]. intros [m Hm]. congruence.
      * discriminate.
      * discriminate.
      * auto.
Qed.

End PublisherEntry.

(* ================================================================== *)
(** * Further properties of the subscriber *)
(* ================================================================== *)

(** ** Words and whitespace *)

Lemma split_from_nil (s : string) (cur : list ascii) :
  split_from s cur = [] <-> cur = [] /\ blank s = true.
Proof.
  revert cur. induction s as [|a s IH]; intros cur; simpl.
  - destruct cur; split; try discriminate; auto. intros [H _]. discriminate.
  - destruct (is_space a); simpl.
    + destruct cur.
      * rewrite IH. tauto.
      * split; [discriminate | intros [H _]; discriminate].
    + rewrite IH. split; intros [H1 H2]; discriminate.
Qed.

Lemma split_from_length (s : string) (cur : list ascii) :
  (List.length (split_from s cur)
   <= String.length s + match cur with [] => 0 | _ => 1 end)%nat.
Proof.
  revert cur. induction s as [|a s IH]; intros cur; simpl.
  - destruct cur; simpl; lia.
  - destruct (is_space a).
    + destruct cur; simpl.
      * specialize (IH []). simpl in IH. lia.
      * specialize (IH []). simpl in IH. lia.
    + specialize (IH (a :: cur)). simpl in IH. destruct cur; lia.
Qed.

Lemma blank_forallb (s : string) :
  blank s = forallb is_space (list_ascii_of_string s).
Proof. induction s as [|a s IH]; simpl; [reflexivity | now rewrite IH]. Qed.

Lemma blank_rev_string (s : string) : blank (rev_string s) = blank s.
Proof.
  unfold rev_string. rewrite !blank_forallb, list_ascii_of_string_of_list_ascii.
  destruct (forallb is_space (list_ascii_of_string s)) eqn:H.
  - apply forallb_forall. intros x Hx. apply in_rev in Hx.
    rewrite forallb_forall in H. now apply H.
  - destruct (forallb is_space (rev (list_ascii_of_string s))) eqn:H'; [|reflexivity].
    rewrite <- H. symmetry. apply forallb_forall. intros x Hx.
    rewrite forallb_forall in H'. apply H'. now apply -> in_rev.
Qed.

Lemma lstrip_empty (s : string) : lstrip s = "" <-> blank s = true.
Proof.
  induction s as [|a s IH]; simpl.
  - tauto.
  - destruct (is_space a); simpl; [exact IH|]. split; discriminate.
Qed.

Lemma blank_lstrip (s : string) : blank (lstrip s) = blank s.
Proof.
  induction s as [|a s IH]; simpl; [reflexivity|].
  destruct (is_space a) eqn:Ha; simpl; [exact IH | now rewrite Ha].
Qed.

Lemma rev_string_empty (s : string) : rev_string s = "" <-> s = "".
Proof.
  unfold rev_string. split.
  - intros H. destruct s as [|a s]; [reflexivity|]. exfalso.
    apply (f_equal list_ascii_of_string) in H.
    rewrite list_ascii_of_string_of_list_ascii in H. simpl in H.
    destruct (rev (list_ascii_of_string s)); discriminate.
  - intros ->. reflexivity.
Qed.

Lemma strip_empty (s : string) : strip s = "" <-> blank s = true.
Proof.
  unfold strip.
  rewrite rev_string_empty, lstrip_empty, blank_rev_string, blank_lstrip.
  tauto.
Qed.

Section TextMessages.

Import Subscriber.

Lemma text_handler_cases (text correlation_id : value) :
  match text with
  | VStr s =>
      exists words,
        process_text_message text correlation_id
        = Ok (VDict [("type", VStr "text");
                     ("wordCount", VInt words);
                     ("charCount", VInt (Z.of_nat (String.length s)));
                     ("processed", VBool true)]) /\
        words = Z.of_nat (List.length (split s)) /\
        0 <= words <= Z.of_nat (String.length s) /\
        (words = 0 <-> strip s = "")
  | _ => exists e, process_text_message text correlation_id = Raise e
  end.
Proof.
  destruct text as [| b | n | m e | s | xs | items];
    try (eexists; reflexivity).
  exists (Z.of_nat (List.length (split s))). split; [reflexivity|].
  split; [reflexivity|]. split.
  - pose proof (split_from_length s []) as H. unfold split. simpl in H. lia.
  - rewrite strip_empty. unfold split.
    pose proof (split_from_nil s []) as H.
    split.
    + intros Hz. apply H. destruct (split_from s []); [reflexivity | simpl in Hz; lia].
    + intros Hb. destruct H as [_ H]. rewrite H; [reflexivity | auto].
Qed.

(** X8.  The text handler answers exactly for text: on a [str] it returns
    the number of whitespace-separated words and the number of characters,
    with no more words than characters, and no word at all exactly when the
    text is empty once stripped; on any other value it raises. *)
Theorem text_handler_counts (text correlation_id : value) :
  match text with
  | VStr s =>
      exists words,
        process_text_message text correlation_id
        = Ok (VDict [("type", VStr "text");
                     ("wordCount", VInt words);
                     ("charCount", VInt (Z.of_nat (String.length s)));
                     ("processed", VBool true)]) /\
        words = Z.of_nat (List.length (split s)) /\
        0 <= words <= Z.of_nat (String.length s) /\
        (words = 0 <-> strip s = "")
  | _ => exists e, process_text_message text correlation_id = Raise e
  end.
Proof. apply text_handler_cases. Qed.

End TextMessages.

Section SourceAndContent.

Import Subscriber.

Variable rt : runtime.

(** X9.  [extract_source] reads the [Value] of the attribute bag's
    [Source] entry; an entry without a [Value] gives ["unknown"] without
    looking at the body; with no entry the body's [source] is used when the
    body is an object that has one, and ["unknown"] otherwise.  It draws
    nothing and changes nothing: the world is returned as it was. *)
Theorem source_derivation (attrs : list (string * value)) (body : value) (w : world) :
  (forall entry,
      lookup "Source" attrs = Some (VDict entry) ->
      extract_source (VDict attrs) body w
      = (Ok (match lookup "Value" entry with
             | Some v => v
             | None => VStr "unknown"
             end), w)) /\
  (lookup "Source" attrs = None ->
   extract_source (VDict attrs) body w
   = (Ok (match body with
          | VDict items =>
              match lookup "source" items with
              | Some v => v
              | None => VStr "unknown"
              end
          | _ => VStr "unknown"
          end), w)) /\
  snd (extract_source (VDict attrs) body w) = w.
Proof.
  unfold extract_source, mbind, lift, ret. simpl. unfold has_key.
  split; [|split].
  - intros entry Hentry. rewrite Hentry. simpl.
    destruct (lookup "Value" entry); reflexivity.
  - intros Hentry. rewrite Hentry.
    destruct body as [| b | n | m e | s | xs | items]; try reflexivity.
    unfold has_key. simpl. destruct (lookup "source" items); reflexivity.
  - destruct (lookup "Source" attrs) as [entry|].
    + simpl. destruct entry; simpl; try reflexivity;
        try (destruct (lookup "Value" items); reflexivity).
    + destruct body as [| b | n | m e | s | xs | items]; try reflexivity.
      unfold has_key. simpl. try (destruct (lookup "source" items); reflexivity).
Qed.

Lemma order_handler_cases (order correlation_id : value) :
  match process_order_message order correlation_id with
  | Ok _ => isinstance_dict order = true
  | Raise _ => isinstance_dict order = false
  end.
Proof.
  unfold process_order_message. destruct order; simpl; try reflexivity.
  destruct (lookup "id" items); destruct (lookup "total" items); reflexivity.
Qed.

Lemma event_handler_cases (event correlation_id : value) (w : world) :
  match process_event_message rt event correlation_id w with
  | (Ok out, _) =>
      isinstance_dict event = true /\
      exists kind stamp,
        out = VDict [("type", VStr "event"); ("eventType", kind);
                     ("eventTimestamp", stamp); ("processed", VBool true)]
  | (Raise _, _) => isinstance_dict event = false
  end.
Proof.
  unfold process_event_message, mbind, lift, now, ret.
  destruct event; simpl; try reflexivity.
  destruct (lookup "type" items); destruct (lookup "timestamp" items);
    (split; [reflexivity | eexists; eexists; reflexivity]).
Qed.

Lemma selects_some (data : value) : exists h, selects data h.
Proof.
  destruct data as [| b | n | m e | s | xs | items];
    try (exists GenericHandler; apply selects_generic_other; reflexivity).
  destruct (has_key "message" items) eqn:Hm.
  { exists TextHandler. apply selects_text. now apply has_key_In. }
  assert (Hm' : ~ In "message" (map fst items))
    by (intros H; apply has_key_In in H; congruence).
  destruct (has_key "order" items) eqn:Ho.
  { exists OrderHandler. apply selects_order; [exact Hm' | now apply has_key_In]. }
  assert (Ho' : ~ In "order" (map fst items))
    by (intros H; apply has_key_In in H; congruence).
  destruct (has_key "event" items) eqn:He.
  { exists EventHandler. apply selects_event; auto. now apply has_key_In. }
  exists GenericHandler. apply selects_generic_object; auto.
  intros H. apply has_key_In in H. congruence.
Qed.

Lemma not_In_lookup (key : string) (items : list (string * value)) :
  ~ In key (map fst items) -> lookup key items = None.
Proof.
  intros H. destruct (lookup key items) as [v|] eqn:E; [|reflexivity].
  exfalso. apply H. apply lookup_In. eauto.
Qed.

(** A handler call returns exactly when its payload has the right type,
    and what it returns is an object. *)
Lemma call_returns_iff (data correlation_id : value) (h : handler) (w : world) :
  selects data h ->
  ((exists result w1, call rt h data correlation_id w = (Ok result, w1)) <->
   processable data = true) /\
  (forall result w1,
      call rt h data correlation_id w = (Ok result, w1) ->
      isinstance_dict result = true).
Proof.
  intros Hsel. unfold call, mbind, lift.
  destruct Hsel as [items Hm | items Hm Ho | items Hm Ho He | items Hm Ho He | data Hd].
  - apply lookup_In in Hm as [text Ht]. cbn [py_getitem processable]. rewrite Ht.
    pose proof (text_handler_cases text correlation_id) as Hc.
    destruct text; try (destruct Hc as [e ->]);
      try (split; [split; [intros (r & w1 & H); discriminate | discriminate]
                  | intros r w1 H; discriminate]).
    destruct Hc as (words & -> & _).
    split; [split; [reflexivity | intros _; eauto]|].
    intros r w1 H. injection H as <- _. reflexivity.
  - apply lookup_In in Ho as [order Hord]. cbn [py_getitem processable].
    rewrite (not_In_lookup _ _ Hm), Hord.
    pose proof (order_handler_cases order correlation_id) as Hc.
    destruct (process_order_message order correlation_id) as [out|e] eqn:Hp.
    + split; [split; [intros _; exact Hc | intros _; eauto]|].
      intros r w1 H. injection H as <- _.
      unfold process_order_message in Hp.
      destruct (py_get order "id" (VStr "unknown")); [|discriminate].
      destruct (py_get order "total" (VInt 0)); [|discriminate].
      simpl in Hp. injection Hp as <-. reflexivity.
    + split; [split; [intros (r & w1 & H); discriminate | congruence]|].
      intros r w1 H. discriminate.
  - apply lookup_In in He as [event Hev]. cbn [py_getitem processable].
    rewrite (not_In_lookup _ _ Hm), (not_In_lookup _ _ Ho), Hev.
    pose proof (event_handler_cases event correlation_id w) as Hc.
    destruct (process_event_message rt event correlation_id w) as [[out|e] w0].
    + destruct Hc as (Hd & kind & stamp & ->).
      split; [split; [intros _; exact Hd | intros _; eauto]|].
      intros r w1 H. injection H as <- _. reflexivity.
    + split; [split; [intros (r & w1 & H); discriminate | congruence]|].
      intros r w1 H. discriminate.
  - cbn [processable].
    rewrite (not_In_lookup _ _ Hm), (not_In_lookup _ _ Ho), (not_In_lookup _ _ He).
    split; [split; [intros _; reflexivity
                   | intros _; eexists; eexists; reflexivity]|].
    intros r w1 H. injection H as <- _. reflexivity.
  - split; [split; [intros _; destruct data; try reflexivity; discriminate
                   | intros _; eexists; eexists; reflexivity]|].
    intros r w1 H. injection H as <- _. reflexivity.
Qed.

(** X10.  [process_message_content] returns exactly when the message is
    an object and the entry that decides the dispatch has the type its
    handler needs: text under [message], an object under [order] or
    [event]; generic data always passes.  Whatever goes wrong inside, the
    only exception that leaves the function is [MessageProcessingError]. *)
Theorem content_processing_succeeds_iff (message correlation_id message_id : value)
    (context : LambdaContext) (w : world) :
  ((exists out w',
       process_message_content rt message correlation_id message_id context w
       = (Ok out, w')) <->
   exists data, py_get message "data" (VDict []) = Ok data /\ processable data = true) /\
  (forall e w',
      process_message_content rt message correlation_id message_id context w
      = (Raise e, w') ->
      exists m, e = MessageProcessingError m).
Proof.
  split.
  - destruct (py_get message "data" (VDict [])) as [data|e] eqn:Hdata.
    + destruct (selects_some data) as [h Hsel].
      rewrite (dispatch_follows_precedence rt message data correlation_id message_id
                 context h w Hdata Hsel).
      destruct (call_returns_iff data correlation_id h w Hsel) as [Hiff Hdict].
      unfold wrapped, catch, mbind.
      destruct (call rt h data correlation_id w) as [[result|e] w0] eqn:Hcall.
      * specialize (Hdict result w0 eq_refl).
        destruct result; try discriminate.
        split.
        -- intros _. exists data. split; [reflexivity|]. apply Hiff. eauto.
        -- intros _. unfold lift, now, ret. simpl.
           destruct (lookup "type" items); eexists; eexists; reflexivity.
      * split.
        -- intros (out & w' & H). unfold raise in H. discriminate.
        -- intros (data' & E & Hp). injection E as <-.
           apply Hiff in Hp. destruct Hp as (r & w1 & H). discriminate.
    + split.
      * unfold process_message_content, catch, mbind, lift at 1. rewrite Hdata.
        intros (out & w' & H). unfold raise in H. discriminate.
      * intros (data & H & _). discriminate.
  - unfold process_message_content, catch.
    intros e w1.
    match goal with
    | |- (let (r, w0) := ?c in _) = _ -> _ => destruct c as [[out|e0] w0]
    end; [discriminate|].
    unfold raise. intros H. injection H as <- _. eauto.
Qed.

End SourceAndContent.

(* ================================================================== *)
(** * From the publisher to the subscriber *)
(* ================================================================== *)

Section PublishedEnvelope.

Variable rt : PublisherHandler.runtime.
Variable cfg : Publisher.Config.t.
Variable receiver : Subscriber.runtime.

(** X11.  Every payload [validate_input] accepts goes to the text handler
    on the receive side, since it has a [message] entry.  The receive side
    processes it exactly when that [message] is text, and then counts at
    least one word; an accepted payload whose [message] is not text (a
    number, a list, an object) fails there. *)
Theorem accepted_payload_is_processed_as_text (event data : value)
    (message correlation_id message_id : value) (context : Subscriber.LambdaContext)
    (w : Subscriber.world) :
  Publisher.validate_input cfg (PublisherHandler.json_loads rt)
    (PublisherHandler.json_dumps rt) event = Ok data ->
  py_get message "data" (VDict []) = Ok data ->
  exists text,
    py_getitem data "message" = Ok text /\
    Subscriber.process_message_content receiver message correlation_id message_id
      context w
    = wrapped receiver (call receiver TextHandler data correlation_id) w /\
    ((exists out w',
         Subscriber.process_message_content receiver message correlation_id
           message_id context w = (Ok out, w')) <->
     isinstance_str text = true) /\
    (forall s, text = VStr s ->
       exists words,
         Subscriber.process_text_message text correlation_id
         = Ok (VDict [("type", VStr "text");
                      ("wordCount", VInt words);
                      ("charCount", VInt (Z.of_nat (String.length s)));
                      ("processed", VBool true)]) /\
         1 <= words).
Proof.
  intros Hv Hdata.
  pose proof (validate_input_checked cfg _ _ event data Hv) as Hc.
  pose proof (check_body_cases cfg (PublisherHandler.json_dumps rt) data) as Hcases.
  rewrite Hc in Hcases. destruct Hcases as (_ & fields & text & -> & Ht & Hne & _).
  assert (Hsel : selects (VDict fields) TextHandler).
  { apply selects_text. apply lookup_In. eauto. }
  exists text. split; [simpl; now rewrite Ht|].
  pose proof (dispatch_follows_precedence receiver message (VDict fields)
                correlation_id message_id context TextHandler w Hdata Hsel) as Hd.
  split; [exact Hd|]. split.
  - rewrite Hd.
    destruct (call_returns_iff receiver (VDict fields) correlation_id TextHandler w Hsel)
      as [Hiff Hdict].
    assert (Hproc : processable (VDict fields) = isinstance_str text)
      by (simpl; now rewrite Ht).
    rewrite Hproc in Hiff. rewrite <- Hiff.
    unfold wrapped, Subscriber.catch, Subscriber.mbind.
    destruct (call receiver TextHandler (VDict fields) correlation_id w)
      as [[result|e] w0] eqn:Hcall.
    + specialize (Hdict result w0 eq_refl). destruct result; try discriminate.
      split; [intros _; eauto|]. intros _.
      unfold Subscriber.lift, Subscriber.now, Subscriber.ret. simpl.
      destruct (lookup "type" items); eexists; eexists; reflexivity.
    + split; [intros (out & w' & H); unfold Subscriber.raise in H; discriminate|].
      intros (r & w1 & H). discriminate.
  - intros s ->.
    destruct (text_handler_cases (VStr s) correlation_id)
      as (words & Hrun & Hw & Hbound & Hzero).
    exists words. split; [exact Hrun|].
    assert (words <> 0).
    { intros Hz. apply Hne. right. exists s. split; [reflexivity|]. now apply Hzero. }
    lia.
Qed.

(** X12.  The envelope [prepare_message] builds holds the payload under
    [data], the correlation identifier and the source tag.  Read back on
    the receive side without any message attribute, it yields that same
    identifier and the source [publisher-lambda], and the structure check
    can turn it down for its size only. *)
Theorem envelope_is_read_back (data : value) (correlation_id : string)
    (context : Subscriber.LambdaContext) (w : PublisherHandler.world)
    (receiver_cfg : Subscriber.Config.t) :
  exists envelope,
    PublisherHandler.prepare_message rt data correlation_id context w
    = (Ok envelope, PublisherHandler.tick w) /\
    py_getitem envelope "data" = Ok data /\
    (forall sw,
        Subscriber.extract_correlation_id receiver (VDict []) envelope sw
        = (Ok (VStr correlation_id), sw)) /\
    (forall sw,
        Subscriber.extract_source (VDict []) envelope sw
        = (Ok (VStr "publisher-lambda"), sw)) /\
    (forall message_id,
        Subscriber.validate_message_structure receiver receiver_cfg envelope message_id
        = Ok tt <->
        serialized_size (Subscriber.json_dumps receiver) envelope
        <= Subscriber.Config.MAX_MESSAGE_SIZE receiver_cfg).
Proof.
  eexists. split; [reflexivity|]. split; [reflexivity|].
  split; [intros sw; reflexivity|]. split; [intros sw; reflexivity|].
  intros message_id.
  match goal with
  | |- Subscriber.validate_message_structure _ _ ?env _ = _ <-> _ =>
      set (envelope := env)
  end.
  pose proof (validate_message_structure_cases receiver receiver_cfg envelope message_id)
    as Hc.
  destruct (Subscriber.validate_message_structure receiver receiver_cfg envelope
              message_id) as [[]|e].
  - destruct Hc as (items & d & _ & _ & Hs). tauto.
  - destruct Hc as [_ [Hill | (items & E & [Hill | Hill])]].
    + discriminate.
    + unfold envelope in E. injection E as <-. discriminate.
    + split; [discriminate | lia].
Qed.

End PublishedEnvelope.

(* ================================================================== *)
(** * Side effects of the subscriber *)
(* ================================================================== *)

Section Preservation.

Import Subscriber.

Variable rt : runtime.
Variable cfg : Config.t.
Variable X : Type.
Variable view : world -> X.

Hypothesis view_tick : forall w, view (tick w) = view w.

Local Abbreviation keeps c := (keeps view c).

Lemma keeps_lift {A} (r : result A) : keeps (lift r).
Proof. intros w r' w' H. injection H as _ <-. reflexivity. Qed.

Lemma keeps_ret {A} (a : A) : keeps (ret a).
Proof. intros w r' w' H. injection H as _ <-. reflexivity. Qed.

Lemma keeps_raise {A} (e : exn) : keeps (@raise A e).
Proof. intros w r' w' H. injection H as _ <-. reflexivity. Qed.

Lemma keeps_now : keeps (now rt).
Proof. intros w r' w' H. injection H as _ <-. apply view_tick. Qed.

Lemma keeps_new_uuid : keeps (new_uuid rt).
Proof. intros w r' w' H. injection H as _ <-. apply view_tick. Qed.

Lemma keeps_mbind {A B} (c : M A) (k : A -> M B) :
  keeps c -> (forall a, keeps (k a)) -> keeps (mbind c k).
Proof.
  intros Hc Hk w r w'. unfold mbind.
  destruct (c w) as [[a|e] w0] eqn:Hcw.
  - intros H. rewrite (Hk a _ _ _ H). eapply Hc; eauto.
  - intros H. injection H as _ <-. eapply Hc; eauto.
Qed.

Lemma keeps_catch {A} (c : M A) (h : exn -> M A) :
  keeps c -> (forall e, keeps (h e)) -> keeps (catch c h).
Proof.
  intros Hc Hh w r w'. unfold catch.
  destruct (c w) as [[a|e] w0] eqn:Hcw.
  - intros H. injection H as _ <-. eapply Hc; eauto.
  - intros H. rewrite (Hh e _ _ _ H). eapply Hc; eauto.
Qed.

Lemma keeps_extract_correlation_id (attrs parsed : value) :
  keeps (extract_correlation_id rt attrs parsed).
Proof.
  unfold extract_correlation_id.
  apply keeps_mbind; [apply keeps_lift|]. intros [|].
  - apply keeps_mbind; [apply keeps_lift|]. intros entry.
    destruct entry; try apply keeps_raise.
    apply keeps_mbind; [apply keeps_new_uuid|]. intros fresh. apply keeps_lift.
  - destruct parsed;
      try (apply keeps_mbind; [apply keeps_new_uuid | intros fresh; apply keeps_ret]).
    destruct (has_key "correlationId" items); [apply keeps_lift|].
    apply keeps_mbind; [apply keeps_new_uuid | intros fresh; apply keeps_ret].
Qed.

Lemma keeps_extract_source (attrs parsed : value) :
  keeps (extract_source attrs parsed).
Proof.
  unfold extract_source.
  apply keeps_mbind; [apply keeps_lift|]. intros [|].
  - apply keeps_mbind; [apply keeps_lift|]. intros entry. apply keeps_lift.
  - destruct parsed; try apply keeps_ret.
    destruct (has_key "source" items); [apply keeps_lift | apply keeps_ret].
Qed.

Lemma keeps_process_message_content (message correlation_id message_id : value)
    (context : LambdaContext) :
  keeps (process_message_content rt message correlation_id message_id context).
Proof.
  unfold process_message_content.
  apply keeps_catch; [|intros e; apply keeps_raise].
  apply keeps_mbind; [apply keeps_lift|]. intros data.
  apply keeps_mbind.
  - destruct (data_has "message" data).
    { apply keeps_mbind; [apply keeps_lift | intros text; apply keeps_lift]. }
    destruct (data_has "order" data).
    { apply keeps_mbind; [apply keeps_lift | intros order; apply keeps_lift]. }
    destruct (data_has "event" data); [|apply keeps_lift].
    apply keeps_mbind; [apply keeps_lift|]. intros event.
    unfold process_event_message.
    apply keeps_mbind; [apply keeps_lift|]. intros kind.
    apply keeps_mbind; [apply keeps_now|]. intros reading.
    apply keeps_mbind; [apply keeps_lift | intros stamp; apply keeps_ret].
  - intros result. apply keeps_mbind; [apply keeps_lift|]. intros type.
    apply keeps_mbind; [apply keeps_now | intros reading; apply keeps_ret].
Qed.

Hypothesis view_store :
  forall message_id correlation_id message result context,
    keeps (store_processing_result rt cfg message_id correlation_id message result
             context).

Lemma keeps_process_sns_record (record : value) (context : LambdaContext) :
  keeps (process_sns_record rt cfg record context).
Proof.
  unfold process_sns_record, process_sns_record_with.
  apply keeps_catch; [|intros e; destruct e; apply keeps_raise].
  unfold process_sns_record_body.
  apply keeps_mbind; [apply keeps_lift|]. intros sns.
  apply keeps_mbind; [apply keeps_lift|]. intros message_id.
  apply keeps_mbind; [apply keeps_lift|]. intros body.
  apply keeps_mbind; [apply keeps_lift|]. intros attrs.
  apply keeps_mbind; [apply keeps_lift|]. intros parsed.
  apply keeps_mbind; [apply keeps_extract_correlation_id|]. intros cid.
  apply keeps_mbind; [apply keeps_extract_source|]. intros source.
  apply keeps_mbind; [apply keeps_lift|]. intros [].
  apply keeps_mbind; [apply keeps_process_message_content|]. intros answer.
  apply keeps_mbind; [apply view_store|]. intros [].
  apply keeps_mbind; [apply keeps_now | intros reading; apply keeps_ret].
Qed.

Lemma keeps_process_records (context : LambdaContext) (records : list value) :
  forall st w st' stop w',
    process_records (process_sns_record rt cfg) context records st w = (st', stop, w') ->
    view w' = view w.
Proof.
  induction records as [|record rest IH]; intros st w st' stop w'.
  - simpl. intros H. injection H as _ _ <-. reflexivity.
  - cbn [process_records]. unfold handle_record.
    destruct (process_sns_record rt cfg record context w) as [[out|e] w1] eqn:Hp.
    + intros H. rewrite (IH _ _ _ _ _ H).
      eapply keeps_process_sns_record; eauto.
    + destruct (record_id record).
      * intros H. rewrite (IH _ _ _ _ _ H).
        eapply keeps_process_sns_record; eauto.
      * intros H. injection H as _ _ <-.
        eapply keeps_process_sns_record; eauto.
Qed.

End Preservation.

Section BestEffort.

Import Subscriber.

Variable rt : runtime.
Variable cfg : Config.t.

Lemma store_processing_result_steps (message_id correlation_id message result : value)
    (context : LambdaContext) (w : world) :
  exists w',
    store_processing_result rt cfg message_id correlation_id message result context w
    = (Ok tt, w') /\
    step w' = (step w + match environ rt "PROCESSING_RESULTS_TABLE" with
                        | None | Some EmptyString => 0
                        | Some _ => 3
                        end)%nat /\
    metric_data w' = metric_data w.
Proof.
  unfold store_processing_result, catch, mbind, now, ret.
  destruct (environ rt "PROCESSING_RESULTS_TABLE") as [[|a table]|].
  - exists w. repeat split; simpl; lia.
  - cbn [step tick]. destruct (put_item rt _ _ _); eexists;
      (split; [reflexivity | split; [simpl; lia | reflexivity]]).
  - exists w. repeat split; simpl; lia.
Qed.

Lemma store_keeps_metric_data (message_id correlation_id message result : value)
    (context : LambdaContext) :
  keeps metric_data
    (store_processing_result rt cfg message_id correlation_id message result context).
Proof.
  intros w r w' H.
  destruct (store_processing_result_steps message_id correlation_id message result
              context w) as (w1 & Hs & _ & Hm).
  rewrite Hs in H. injection H as _ <-. exact Hm.
Qed.

Lemma store_keeps_table_items_when_unset
    (message_id correlation_id message result : value) (context : LambdaContext) :
  environ rt "PROCESSING_RESULTS_TABLE" = None \/
  environ rt "PROCESSING_RESULTS_TABLE" = Some "" ->
  keeps table_items
    (store_processing_result rt cfg message_id correlation_id message result context).
Proof.
  intros Hunset w r w'. unfold store_processing_result, catch, ret.
  destruct Hunset as [-> | ->]; intros H; injection H as _ <-; reflexivity.
Qed.

(** X13.  Writing the audit item is best effort: whether the store accepts
    the item or raises, [process_sns_record] gives the same answer or the
    same exception.  With no results table configured nothing is stored. *)
Theorem audit_store_is_best_effort (record : value) (context : LambdaContext)
    (w : world) :
  (forall store,
      fst (process_sns_record (with_put_item rt store) cfg record context w)
      = fst (process_sns_record rt cfg record context w)) /\
  (environ rt "PROCESSING_RESULTS_TABLE" = None \/
   environ rt "PROCESSING_RESULTS_TABLE" = Some "" ->
   table_items (snd (process_sns_record rt cfg record context w)) = table_items w).
Proof.
  split.
  - intros store.
    unfold process_sns_record, process_sns_record_with, catch.
    assert (Hbody :
      match process_sns_record_body (with_put_item rt store) cfg
              (process_message_content (with_put_item rt store)) record context w,
            process_sns_record_body rt cfg (process_message_content rt) record context w
      with
      | (r1, w1), (r2, w2) => r1 = r2
      end).
    { unfold process_sns_record_body, mbind, lift.
      destruct (py_get record "Sns" (VDict [])) as [sns|]; [|reflexivity].
      destruct (py_get sns "MessageId" VNone) as [message_id|]; [|reflexivity].
      destruct (py_get sns "Message" (VStr "{}")) as [body|]; [|reflexivity].
      destruct (py_get sns "MessageAttributes" (VDict [])) as [attrs|]; [|reflexivity].
      change (parse_message (with_put_item rt store)) with (parse_message rt).
      destruct (parse_message rt body message_id) as [parsed|]; [|reflexivity].
      change (extract_correlation_id (with_put_item rt store))
        with (extract_correlation_id rt).
      destruct (extract_correlation_id rt attrs parsed w) as [[cid|] w1]; [|reflexivity].
      destruct (extract_source attrs parsed w1) as [[source|] w2]; [|reflexivity].
      change (validate_message_structure (with_put_item rt store))
        with (validate_message_structure rt).
      destruct (validate_message_structure rt cfg parsed message_id) as [[]|];
        [|reflexivity].
      change (process_message_content (with_put_item rt store))
        with (process_message_content rt).
      destruct (process_message_content rt parsed cid message_id context w2)
        as [[answer|] w3]; [|reflexivity].
      destruct (store_processing_result_steps message_id cid parsed answer context w3)
        as (wa & -> & Hsa & _).
      unfold store_processing_result, catch, mbind, now, ret.
      change (environ (with_put_item rt store)) with (environ rt).
      change (json_dumps (with_put_item rt store)) with (json_dumps rt).
      change (utcnow (with_put_item rt store)) with (utcnow rt).
      change (put_item (with_put_item rt store)) with store.
      destruct (environ rt "PROCESSING_RESULTS_TABLE") as [[|a table]|].
      - cbn [step tick]. rewrite Hsa. rewrite Nat.add_0_r. reflexivity.
      - cbn [step tick]. rewrite Hsa.
        destruct (store _ _ _); cbn [step tick];
          replace (step w3 + 3)%nat with (S (S (S (step w3)))) by lia; reflexivity.
      - cbn [step tick]. rewrite Hsa. rewrite Nat.add_0_r. reflexivity. }
    destruct (process_sns_record_body (with_put_item rt store) cfg
                (process_message_content (with_put_item rt store)) record context w)
      as [r1 w1].
    destruct (process_sns_record_body rt cfg (process_message_content rt) record
                context w) as [r2 w2].
    subst r2. destruct r1 as [out|e]; [reflexivity|].
    destruct e; reflexivity.
  - intros Hunset.
    destruct (process_sns_record rt cfg record context w) as [r w'] eqn:H.
    simpl. eapply (keeps_process_sns_record rt cfg _ table_items); eauto.
    intros; now apply store_keeps_table_items_when_unset.
Qed.

End BestEffort.

Section Metrics.

Import Subscriber.

Variable rt : runtime.
Variable cfg : Config.t.

Lemma record_metrics_emission (successful failed : Z) (start_time : clock_reading)
    (context : LambdaContext) (error : bool) (w : world) :
  exists w',
    record_metrics rt successful failed start_time context error w = (Ok tt, w') /\
    (metric_data w' = metric_data w \/
     exists dims1 dims2 rest,
       metric_data w'
       = (metric_data w ++
          [(metrics_namespace rt,
            {| MetricName := "MessagesProcessed"; Value := Count successful;
               Unit := "Count"; Dimensions := dims1 |} ::
            {| MetricName := "MessagesProcessed"; Value := Count failed;
               Unit := "Count"; Dimensions := dims2 |} :: rest)])%list).
Proof.
  unfold record_metrics, catch, mbind, now, ret. cbn [step tick].
  destruct (put_metric_data rt _ _ _).
  - eexists. split; [reflexivity|]. left. reflexivity.
  - eexists. split; [reflexivity|]. right. cbn [metric_data].
    destruct error; eexists; eexists; eexists; reflexivity.
Qed.

(** X14.  One invocation of the subscriber's handler emits metrics at most
    once, after the loop.  When the emission goes through and the batch ran
    to its end, its first two data are the success and failure counts of
    the answer; when the metrics sink raises, the answer is the same. *)
Theorem metrics_emitted_once (event : value) (context : LambdaContext)
    (w w' : world) (out : value) :
  lambda_handler rt cfg event context w = (Ok out, w') ->
  (forall sink,
      fst (lambda_handler (with_put_metric_data rt sink) cfg event context w) = Ok out) /\
  (metric_data w' = metric_data w \/
   exists data,
     metric_data w'
     = (metric_data w ++
        [(metrics_namespace rt,
          data)])%list /\
     forall s f,
       py_getitem out "successfulRecords" = Ok (VInt s) ->
       py_getitem out "failedRecords" = Ok (VInt f) ->
       exists dims1 dims2 rest,
         data = {| MetricName := "MessagesProcessed"; Value := Count s;
                   Unit := "Count"; Dimensions := dims1 |} ::
                {| MetricName := "MessagesProcessed"; Value := Count f;
                   Unit := "Count"; Dimensions := dims2 |} :: rest).
Proof.
  unfold lambda_handler.
  change (process_sns_record (with_put_metric_data rt ?s) cfg)
    with (process_sns_record rt cfg).
  unfold lambda_handler_with, mbind, now, lift, ret.
  intros Hrun. split.
  - intros sink.
    change (process_sns_record (with_put_metric_data rt sink) cfg)
      with (process_sns_record rt cfg).
    change (utcnow (with_put_metric_data rt sink)) with (utcnow rt).
    revert Hrun.
    destruct (record_count event) as [total|]; [|discriminate].
    destruct (rbind (py_get event "Records" (VList [])) py_iter) as [records|].
    + destruct (process_records (process_sns_record rt cfg) context records _ (tick w))
        as [[st [stop|]] w1].
      * destruct (record_metrics_returns rt (successful_records st)
                    (total - successful_records st) (utcnow rt (step w)) context true w1)
          as [w2 ->].
        destruct (record_metrics_returns (with_put_metric_data rt sink)
                    (successful_records st) (total - successful_records st)
                    (utcnow rt (step w)) context true w1) as [w3 ->].
        intros H. injection H as <- _. reflexivity.
      * destruct (record_metrics_returns rt (successful_records st)
                    (failed_records st) (utcnow rt (step w)) context false w1)
          as [w2 ->].
        destruct (record_metrics_returns (with_put_metric_data rt sink)
                    (successful_records st) (failed_records st)
                    (utcnow rt (step w)) context false w1) as [w3 ->].
        intros H. injection H as <- _. reflexivity.
    + cbn [successful_records].
      destruct (record_metrics_returns rt 0 (total - 0) (utcnow rt (step w)) context
                  true (tick w)) as [w2 ->].
      destruct (record_metrics_returns (with_put_metric_data rt sink) 0 (total - 0)
                  (utcnow rt (step w)) context true (tick w)) as [w3 ->].
      intros H. injection H as <- _. reflexivity.
  - revert Hrun.
    destruct (record_count event) as [total|]; [|discriminate].
    destruct (rbind (py_get event "Records" (VList [])) py_iter) as [records|].
    + destruct (process_records (process_sns_record rt cfg) context records _ (tick w))
        as [[st [stop|]] w1] eqn:Hloop.
      * pose proof (keeps_process_records rt cfg _ metric_data (fun _ => eq_refl)
                      (store_keeps_metric_data rt cfg) context records _ _ _ _ _ Hloop)
          as Hkeep.
        destruct (record_metrics_emission (successful_records st)
                    (total - successful_records st) (utcnow rt (step w)) context true w1)
          as (w2 & -> & Hem).
        intros H. injection H as <- <-. simpl in Hkeep. rewrite Hkeep in Hem.
        destruct Hem as [Hem | (d1 & d2 & rest & Hem)]; [left; exact Hem|].
        right. eexists. split; [exact Hem|]. intros s f Hs. discriminate.
      * pose proof (keeps_process_records rt cfg _ metric_data (fun _ => eq_refl)
                      (store_keeps_metric_data rt cfg) context records _ _ _ _ _ Hloop)
          as Hkeep.
        destruct (record_metrics_emission (successful_records st)
                    (failed_records st) (utcnow rt (step w)) context false w1)
          as (w2 & -> & Hem).
        intros H. injection H as <- <-. simpl in Hkeep. rewrite Hkeep in Hem.
        destruct Hem as [Hem | (d1 & d2 & rest & Hem)]; [left; exact Hem|].
        right. eexists. split; [exact Hem|]. intros s f Hs Hf.
        simpl in Hs, Hf. injection Hs as <-. injection Hf as <-.
        eexists; eexists; eexists; reflexivity.
    + cbn [successful_records].
      destruct (record_metrics_emission 0 (total - 0) (utcnow rt (step w)) context
                  true (tick w)) as (w2 & -> & Hem).
      intros H. injection H as <- <-. simpl in Hem.
      destruct Hem as [Hem | (d1 & d2 & rest & Hem)]; [left; exact Hem|].
      right. eexists. split; [exact Hem|]. intros s f Hs. discriminate.
Qed.

End Metrics.

(* ================================================================== *)
(** * Edge cases of the subscriber *)
(* ================================================================== *)

Section ReceiveEdges.

Import Subscriber.

Variable rt : runtime.
Variable cfg : Config.t.
Variable process_record : value -> LambdaContext -> M value.
Variable context : LambdaContext.

(** X15.  The subscriber's handler returns an answer of status 200, 207
    or 500 for every event object whose [Records] entry is absent or is a
    list, a string or an object.  When [Records] is [null], a boolean or a
    number, the first log line, which stands before the outer [try],
    raises [TypeError] and the handler does not answer at all. *)
Theorem receive_handler_answers_or_raises (ev : list (string * value)) (w : world) :
  (lookup "Records" ev = None \/
   (exists v, lookup "Records" ev = Some v /\ sized v = true) ->
   exists out w',
     lambda_handler_with rt process_record (VDict ev) context w = (Ok out, w') /\
     (py_getitem out "statusCode" = Ok (VInt 200) \/
      py_getitem out "statusCode" = Ok (VInt 207) \/
      py_getitem out "statusCode" = Ok (VInt 500))) /\
  (forall v,
      lookup "Records" ev = Some v -> sized v = false ->
      lambda_handler_with rt process_record (VDict ev) context w
      = (Raise (TypeError ("object of type '" ++ type_name v ++ "' has no len()")),
         tick w)).
Proof.
  split.
  - intros Hrec.
    assert (Hiter : exists records total,
               rbind (py_get (VDict ev) "Records" (VList [])) py_iter = Ok records /\
               record_count (VDict ev) = Ok total).
    { unfold record_count. simpl.
      destruct Hrec as [-> | (v & -> & Hs)]; [eexists; eexists; split; reflexivity|].
      destruct v; try discriminate; eexists; eexists; split; reflexivity. }
    destruct Hiter as (records & total & Hiter & Hcount).
    unfold lambda_handler_with, mbind, now, lift, ret. rewrite Hcount, Hiter.
    destruct (process_records process_record context records _ (tick w))
      as [[st [stop|]] w1].
    + match goal with
      | |- context [record_metrics ?a ?b ?c ?d ?e ?f ?g] =>
          destruct (record_metrics_returns a b c d e f g) as [w2 ->]
      end.
      eexists; eexists. split; [reflexivity|]. right. right. reflexivity.
    + match goal with
      | |- context [record_metrics ?a ?b ?c ?d ?e ?f ?g] =>
          destruct (record_metrics_returns a b c d e f g) as [w2 ->]
      end.
      eexists; eexists. split; [reflexivity|]. simpl.
      destruct (failed_records st =? 0); auto.
  - intros v Hv Hs.
    unfold lambda_handler_with, mbind, now, lift, record_count. simpl. rewrite Hv.
    destruct v; try discriminate; reflexivity.
Qed.

(** X16.  An event without a [Records] entry is handled as the empty
    batch: the answer is 200 with zero counts and no results, and the
    record processor is not called (the answer is the same for every
    processor). *)
Theorem missing_records_is_empty_batch (ev : list (string * value)) (w : world) :
  lookup "Records" ev = None \/ lookup "Records" ev = Some (VList []) ->
  exists w',
    forall processor,
      fst (lambda_handler_with rt processor (VDict ev) context w)
      = Ok (VDict [("statusCode", VInt 200);
                   ("processedRecords", VInt 0);
                   ("successfulRecords", VInt 0);
                   ("failedRecords", VInt 0);
                   ("results", VList []);
                   ("requestId", VStr (aws_request_id context))]) /\
      snd (lambda_handler_with rt processor (VDict ev) context w) = w'.
Proof.
  intros Hrec.
  destruct (record_metrics_returns rt 0 0 (utcnow rt (step w)) context false (tick w))
    as [w' Hm].
  exists w'. intros processor.
  unfold lambda_handler_with, mbind, now, lift, ret, record_count. simpl.
  destruct Hrec as [-> | ->]; simpl; rewrite Hm; split; reflexivity.
Qed.

(** X17.  A record whose [Message] is text that is not valid JSON fails
    with a [MessageProcessingError] that names the message and carries the
    decoder's text, before any identifier is drawn: the world is
    unchanged.  A [Message] that is not text fails too, with the
    [TypeError] of [json.loads] wrapped. *)
Theorem undecodable_message_fails (record sns message_id message : value)
    (w : world) :
  py_get record "Sns" (VDict []) = Ok sns ->
  py_get sns "MessageId" VNone = Ok message_id ->
  py_get sns "Message" (VStr "{}") = Ok message ->
  (forall s m,
      message = VStr s -> json_loads rt s = inl m ->
      process_sns_record rt cfg record context w
      = (Raise (MessageProcessingError
                  ("Invalid JSON in SNS message " ++ py_str rt message_id ++ ": " ++ m)),
         w)) /\
  (isinstance_str message = false ->
   process_sns_record rt cfg record context w
   = (Raise (MessageProcessingError
               ("Unexpected error processing SNS record: " ++
                "the JSON object must be str, bytes or bytearray, not " ++
                type_name message)),
      w)).
Proof.
  intros Hsns Hid Hmsg.
  assert (Hat : exists attrs, py_get sns "MessageAttributes" (VDict []) = Ok attrs).
  { destruct sns; try discriminate. simpl.
    destruct (lookup "MessageAttributes" items); eauto. }
  destruct Hat as [attrs Hat].
  unfold process_sns_record, process_sns_record_with, process_sns_record_body,
    catch, mbind, lift, raise.
  rewrite Hsns, Hid, Hmsg, Hat. unfold parse_message. split.
  - intros s m -> Hs. simpl. rewrite Hs. reflexivity.
  - intros Hns. destruct message; try discriminate; reflexivity.
Qed.

(** X18.  A record with no [Sns] entry is processed with the defaults: no
    message identifier and the message text [{}].  Where [json.loads]
    decodes that text to the empty object, the record fails for the
    missing [data], and the handler reports it as [failed] with the record
    identifier ["unknown"]. *)
Theorem record_without_sns_fails (fields : list (string * value)) (w : world)
    (st : loop_state) :
  lookup "Sns" fields = None ->
  json_loads rt "{}" = inr (VDict []) ->
  exists m,
    m = "Message " ++ py_str rt VNone ++ " missing required field: data" /\
    process_sns_record rt cfg (VDict fields) context w
    = (Raise (MessageProcessingError m), tick w) /\
    handle_record (process_sns_record rt cfg) context (VDict fields) st w
    = ({| successful_records := successful_records st;
          failed_records := failed_records st + 1;
          processing_results :=
            processing_results st ++
            [VDict [("status", VStr "failed");
                    ("error", VStr m);
                    ("record_id", VStr "unknown")]] |}, None, tick w).
Proof.
  intros Hsns Hloads. eexists. split; [reflexivity|].
  assert (Hrun : process_sns_record rt cfg (VDict fields) context w
                 = (Raise (MessageProcessingError
                             ("Message " ++ py_str rt VNone ++
                              " missing required field: data")), tick w)).
  { unfold process_sns_record, process_sns_record_with, process_sns_record_body,
      catch, mbind, lift, raise.
    simpl. rewrite Hsns. simpl. unfold parse_message. simpl. rewrite Hloads.
    reflexivity. }
  split; [exact Hrun|].
  unfold handle_record. rewrite Hrun. unfold record_id. simpl. rewrite Hsns.
  reflexivity.
Qed.

(** X19.  What a processed record reports is read from the record: the
    [messageId] of the answer is the [MessageId] of the [Sns] entry
    ([None] when it has none), and when the message attributes carry a
    [CorrelationId] with a [Value], that value is the [correlationId] of the
    answer. *)
Theorem processed_record_keeps_identifiers (record : value) (w w' : world)
    (out : value) :
  process_sns_record rt cfg record context w = (Ok out, w') ->
  exists sns,
    py_get record "Sns" (VDict []) = Ok (VDict sns) /\
    py_getitem out "messageId" = py_get (VDict sns) "MessageId" VNone /\
    (forall attrs entry v,
        lookup "MessageAttributes" sns = Some (VDict attrs) ->
        lookup "CorrelationId" attrs = Some (VDict entry) ->
        lookup "Value" entry = Some v ->
        py_getitem out "correlationId" = Ok v) /\
    (forall attrs entry v,
        lookup "MessageAttributes" sns = Some (VDict attrs) ->
        lookup "Source" attrs = Some (VDict entry) ->
        lookup "Value" entry = Some v ->
        py_getitem out "source" = Ok v).
Proof.
  unfold process_sns_record, process_sns_record_with, catch.
  destruct (process_sns_record_body rt cfg (process_message_content rt) record context w)
    as [[r|e] w0] eqn:Hb; [|destruct e; unfold raise; discriminate].
  intros H. injection H as <- <-.
  unfold process_sns_record_body, mbind, lift in Hb.
  destruct (py_get record "Sns" (VDict [])) as [sns|]; [|discriminate].
  destruct (py_get sns "MessageId" VNone) as [message_id|] eqn:Hid; [|discriminate].
  destruct sns as [| b | n | m e | s | xs | sns]; try discriminate.
  exists sns. split; [reflexivity|].
  destruct (py_get (VDict sns) "Message" (VStr "{}")) as [body|]; [|discriminate].
  destruct (py_get (VDict sns) "MessageAttributes" (VDict [])) as [attrs|] eqn:Hat;
    [|discriminate].
  destruct (parse_message rt body message_id) as [parsed|]; [|discriminate].
  destruct (extract_correlation_id rt attrs parsed w) as [[cid|] w1] eqn:Hcid;
    [|discriminate].
  destruct (extract_source attrs parsed w1) as [[src|] w2] eqn:Hsrc; [|discriminate].
  destruct (validate_message_structure rt cfg parsed message_id) as [[]|]; [|discriminate].
  destruct (process_message_content rt parsed cid message_id context w2)
    as [[pr|] w3]; [|discriminate].
  destruct (store_processing_result_returns rt cfg message_id cid parsed pr context w3)
    as [w4 Hs].
  rewrite Hs in Hb. unfold now, ret in Hb. injection Hb as <- _.
  split; [simpl; simpl in Hid; now rewrite Hid|]. split.
  - intros attrs' entry v Ha He Hv. simpl in Hat. rewrite Ha in Hat.
    injection Hat as <-.
    unfold extract_correlation_id, mbind, lift, new_uuid in Hcid. simpl in Hcid.
    unfold has_key in Hcid. rewrite He in Hcid. simpl in Hcid. rewrite Hv in Hcid.
    injection Hcid as <- _. reflexivity.
  - intros attrs' entry v Ha He Hv. simpl in Hat. rewrite Ha in Hat.
    injection Hat as <-.
    unfold extract_source, mbind, lift in Hsrc. simpl in Hsrc.
    unfold has_key in Hsrc. rewrite He in Hsrc. simpl in Hsrc. rewrite Hv in Hsrc.
    injection Hsrc as <- _. reflexivity.
Qed.

End ReceiveEdges.

(* ================================================================== *)
(** * What a successful publish reports *)
(* ================================================================== *)

Section PublishedAnswer.

Import Publisher.

Variable rt : PublisherHandler.runtime.
Variable cfg : Config.t.

Lemma publish_loop_returned (request : PublishRequest) (max_retries : Z)
    (attempts : list Z) :
  forall c response c',
    publish_loop (PublisherHandler.sns_publish rt) request max_retries attempts c
    = (Ok response, c') ->
    response = VNone \/
    (exists k message_id others,
        (c <= k)%nat /\ c' = S k /\
        PublisherHandler.sns_publish rt k request = Published message_id others /\
        response = response_of message_id others).
Proof.
  induction attempts as [|attempt rest IH]; intros c response c'; cbn [publish_loop].
  - intros H. injection H as <- _. left. reflexivity.
  - destruct (PublisherHandler.sns_publish rt c request) as [mid others | err] eqn:Hc.
    + simpl. intros H. injection H as <- <-. right.
      exists c, mid, others. repeat split; auto.
    + destruct err as [m | m | name m]; try discriminate;
        (destruct (attempt =? max_retries); [discriminate|];
         intros H; apply IH in H;
         destruct H as [-> | (k & mid & others & Hk & -> & Hp & ->)];
         [left; reflexivity
         | right; exists k, mid, others; repeat split; auto; lia]).
Qed.

(** X20.  When the publisher answers 200, the transport accepted a publish
    call of this invocation.  That call carried the serialised envelope
    that holds the validated payload under [data], with the answer's
    correlation identifier as attribute and in the subject; the body of the
    answer reports the [MessageId] the transport returned for it, and no
    call was made after it. *)
Theorem published_answer_reports_transport_id (event : value)
    (context : Subscriber.LambdaContext) (w w' : PublisherHandler.world) (out : value) :
  PublisherHandler.lambda_handler rt cfg event context w = (Ok out, w') ->
  py_getitem out "statusCode" = Ok (VInt 200) ->
  let correlation_id := PublisherHandler.uuid4 rt (PublisherHandler.step w) in
  exists data envelope arn k message_id others stamp,
    validate_input cfg (PublisherHandler.json_loads rt)
      (PublisherHandler.json_dumps rt) event = Ok data /\
    py_getitem envelope "data" = Ok data /\
    py_getitem envelope "correlationId" = Ok (VStr correlation_id) /\
    PublisherHandler.environ rt "SNS_TOPIC_ARN" = Some arn /\
    (PublisherHandler.calls w <= k)%nat /\
    PublisherHandler.calls w' = S k /\
    PublisherHandler.sns_publish rt k
      (publish_request (PublisherHandler.environ rt) (PublisherHandler.json_dumps rt)
         arn envelope correlation_id)
    = Published message_id others /\
    out = publisher_answer 200
            (PublisherHandler.json_dumps rt
               (VDict [("message", VStr "Message published successfully");
                       ("messageId", VStr message_id);
                       ("correlationId", VStr correlation_id);
                       ("timestamp", VStr stamp)]))
            correlation_id.
Proof.
  unfold PublisherHandler.lambda_handler, PublisherHandler.mbind,
    PublisherHandler.new_uuid, PublisherHandler.now, PublisherHandler.catch.
  match goal with
  | |- context [PublisherHandler.lambda_handler_body rt cfg ?ev ?ctx ?c ?s ?w0] =>
      destruct (PublisherHandler.lambda_handler_body rt cfg ev ctx c s w0)
        as [[ans|e] w1] eqn:Hbody
  end.
  - intros H _. injection H as <- <-. cbv zeta.
    unfold PublisherHandler.lambda_handler_body, PublisherHandler.mbind,
      PublisherHandler.lift in Hbody.
    destruct (validate_input cfg (PublisherHandler.json_loads rt)
                (PublisherHandler.json_dumps rt) event) as [data|]; [|discriminate].
    unfold PublisherHandler.prepare_message, PublisherHandler.mbind,
      PublisherHandler.now, PublisherHandler.ret in Hbody.
    match type of Hbody with
    | context [PublisherHandler.publish rt cfg ?m ?c ?w0] =>
        set (envelope := m) in *;
        destruct (PublisherHandler.publish rt cfg envelope c w0)
          as [[response|] w2] eqn:Hpub
    end; [|discriminate].
    match type of Hbody with
    | context [PublisherHandler.record_metrics rt ?t ?c ?s ?w0] =>
        destruct (publisher_record_metrics_returns rt t c s w0) as (w3 & Hm & Hcalls)
    end.
    rewrite Hm in Hbody.
    destruct (py_getitem response "MessageId") as [mid|] eqn:Hmid; [|discriminate].
    injection Hbody as <- <-.
    unfold PublisherHandler.publish, publish_message in Hpub.
    cbn [PublisherHandler.calls PublisherHandler.tick] in Hpub.
    destruct (PublisherHandler.environ rt "SNS_TOPIC_ARN") as [[|a arn]|] eqn:Harn;
      try discriminate.
    match type of Hpub with
    | context [publish_loop ?s ?r ?m ?a ?c] =>
        destruct (publish_loop s r m a c) as [res c'] eqn:Hloop
    end.
    injection Hpub as -> <-.
    apply publish_loop_returned in Hloop.
    destruct Hloop as [-> | (k & message_id & others & Hk & -> & Hp & ->)];
      [discriminate|].
    simpl in Hmid. injection Hmid as <-.
    exists data, envelope, (String a arn), k, message_id, others.
    eexists. repeat split; try reflexivity; try assumption.
  - match goal with
    | |- context [PublisherHandler.lambda_handler_except rt ?c ?s ?e0 ?w0] =>
        destruct (lambda_handler_except_cases rt c s e0 w0)
          as (code & body & w2 & -> & _ & Hcode)
    end.
    intros H Hstatus. injection H as <- _. simpl in Hstatus.
    injection Hstatus as Hstatus. rewrite Hcode in Hstatus.
    destruct (is_ValidationError e); discriminate.
Qed.

End PublishedAnswer.

(* ================================================================== *)
(** * Concrete runs of the further properties *)
(* ================================================================== *)

(** ** The publisher on the sample events *)

Lemma wrapped_event_validates_by_body :
  Publisher.validate_input Sample.publisher_cfg Sample.decode Sample.dumps
    PublisherSample.wrapped_event
  = Publisher.validate_input Sample.publisher_cfg Sample.decode Sample.dumps
      (VDict [("body", VDict [("message", VStr "Hello, World!")])]).
Proof.
  exact (validate_input_body_is_authoritative Sample.publisher_cfg Sample.decode
           Sample.dumps
           [("httpMethod", VStr "POST");
            ("body", VDict [("message", VStr "Hello, World!")]);
            ("message", VStr "")]
           (VDict [("message", VStr "Hello, World!")]) eq_refl).
Defined.

Lemma direct_event_validates_twice :
  Publisher.validate_input Sample.publisher_cfg Sample.decode Sample.dumps
    PublisherSample.direct_event = Ok PublisherSample.direct_event /\
  exists fields,
    PublisherSample.direct_event = VDict fields /\
    (lookup "body" fields = None ->
     Publisher.validate_input Sample.publisher_cfg Sample.decode Sample.dumps
       PublisherSample.direct_event = Ok PublisherSample.direct_event).
Proof.
  assert (Hv : Publisher.validate_input Sample.publisher_cfg Sample.decode Sample.dumps
                 PublisherSample.direct_event = Ok PublisherSample.direct_event)
    by (vm_compute; reflexivity).
  split; [exact Hv|].
  exact (validate_input_idempotent Sample.publisher_cfg Sample.decode Sample.dumps
           PublisherSample.direct_event PublisherSample.direct_event Hv).
Defined.

Lemma flaky_transport_answers_at_fourth_call :
  Publisher.publish_message Sample.publisher_environ Sample.publisher_cfg Sample.dumps
    Sample.flaky_transport PublisherSample.direct_event "cid" 5
  = (Ok (Publisher.response_of "sns-message-1" []), 6%nat).
Proof.
  apply (proj1 (publish_message_stops_at_first_answer Sample.publisher_environ
                  Sample.publisher_cfg Sample.dumps Sample.flaky_transport
                  PublisherSample.direct_event "cid" 5%nat
                  "arn:aws:sns:us-east-1:123456789012:test-topic" 0%nat
                  eq_refl ltac:(discriminate) ltac:(simpl; lia) ltac:(simpl; lia)
                  ltac:(intros k Hk; lia))).
  reflexivity.
Defined.

Lemma direct_event_status :
  exists out w',
    PublisherHandler.lambda_handler PublisherSample.rt Sample.publisher_cfg
      PublisherSample.direct_event Sample.context PublisherSample.w0 = (Ok out, w') /\
    py_getitem out "statusCode" = Ok (VInt 200) /\
    exists data,
      Publisher.validate_input Sample.publisher_cfg Sample.decode Sample.dumps
        PublisherSample.direct_event = Ok data.
Proof.
  destruct (PublisherHandler.lambda_handler PublisherSample.rt Sample.publisher_cfg
              PublisherSample.direct_event Sample.context PublisherSample.w0)
    as [[out|e] w'] eqn:Hrun.
  - exists out, w'. split; [reflexivity|].
    assert (Hcode : py_getitem out "statusCode" = Ok (VInt 200))
      by (vm_compute in Hrun; injection Hrun as <- _; reflexivity).
    split; [exact Hcode|].
    exact (proj1 (proj2 (proj2 (publisher_status_code PublisherSample.rt
                                  Sample.publisher_cfg PublisherSample.direct_event
                                  Sample.context PublisherSample.w0 w' out Hrun)))
             Hcode).
  - vm_compute in Hrun. discriminate.
Defined.

Lemma direct_event_published :
  exists out w',
    PublisherHandler.lambda_handler PublisherSample.rt Sample.publisher_cfg
      PublisherSample.direct_event Sample.context PublisherSample.w0 = (Ok out, w') /\
    PublisherHandler.calls w' = 4%nat /\
    exists envelope stamp,
      py_getitem envelope "data" = Ok PublisherSample.direct_event /\
      Sample.flaky_transport 3
        (Publisher.publish_request Sample.publisher_environ Sample.dumps
           "arn:aws:sns:us-east-1:123456789012:test-topic" envelope
           "00000000-0000-4000-8000-000000000000")
      = Publisher.Published "sns-message-1" [] /\
      out = publisher_answer 200
              (Sample.dumps
                 (VDict [("message", VStr "Message published successfully");
                         ("messageId", VStr "sns-message-1");
                         ("correlationId",
                          VStr "00000000-0000-4000-8000-000000000000");
                         ("timestamp", VStr stamp)]))
              "00000000-0000-4000-8000-000000000000".
Proof.
  destruct (PublisherHandler.lambda_handler PublisherSample.rt Sample.publisher_cfg
              PublisherSample.direct_event Sample.context PublisherSample.w0)
    as [[out|e] w'] eqn:Hrun.
  - exists out, w'. split; [reflexivity|].
    assert (Hcode : py_getitem out "statusCode" = Ok (VInt 200))
      by (vm_compute in Hrun; injection Hrun as <- _; reflexivity).
    assert (Hcalls : PublisherHandler.calls w' = 4%nat)
      by (vm_compute in Hrun; injection Hrun as _ <-; reflexivity).
    split; [exact Hcalls|].
    destruct (published_answer_reports_transport_id PublisherSample.rt
                Sample.publisher_cfg PublisherSample.direct_event Sample.context
                PublisherSample.w0 w' out Hrun Hcode)
      as (data & envelope & arn & k & message_id & others & stamp
          & Hv & Hd & _ & Harn & _ & Hk & Hp & Hout).
    rewrite Hcalls in Hk. injection Hk as <-.
    assert (data = PublisherSample.direct_event) as ->
      by (vm_compute in Hv; injection Hv as <-; reflexivity).
    assert (arn = "arn:aws:sns:us-east-1:123456789012:test-topic") as ->
      by (vm_compute in Harn; injection Harn as <-; reflexivity).
    assert (message_id = "sns-message-1") as ->
      by (vm_compute in Hp; injection Hp as <- _; reflexivity).
    assert (others = []) as ->
      by (vm_compute in Hp; injection Hp as <-; reflexivity).
    exists envelope, stamp. repeat split; assumption.
  - vm_compute in Hrun. discriminate.
Defined.

(** ** The receive side on the sample records *)

Lemma direct_event_is_processed_as_text :
  exists text,
    py_getitem PublisherSample.direct_event "message" = Ok text /\
    ((exists out w',
         Subscriber.process_message_content Sample.rt
           (VDict [("data", PublisherSample.direct_event)]) (VStr "cid") (VStr "m-1")
           Sample.context Sample.w0 = (Ok out, w')) <->
     isinstance_str text = true) /\
    (forall s, text = VStr s ->
       exists words,
         Subscriber.process_text_message text (VStr "cid")
         = Ok (VDict [("type", VStr "text"); ("wordCount", VInt words);
                      ("charCount", VInt (Z.of_nat (String.length s)));
                      ("processed", VBool true)]) /\
         1 <= words).
Proof.
  destruct (accepted_payload_is_processed_as_text PublisherSample.rt
              Sample.publisher_cfg Sample.rt PublisherSample.direct_event
              PublisherSample.direct_event
              (VDict [("data", PublisherSample.direct_event)]) (VStr "cid") (VStr "m-1")
              Sample.context Sample.w0
              ltac:(vm_compute; reflexivity) eq_refl)
    as (text & Ht & _ & Hiff & Hwords).
  exists text. repeat split; try assumption; apply Hiff.
Defined.

Lemma metrics_of_a_good_record :
  exists out w',
    Subscriber.lambda_handler Sample.rt Sample.cfg
      (VDict [("Records", VList [Sample.good_record])])
      Sample.context Sample.w0 = (Ok out, w') /\
    forall sink,
      fst (Subscriber.lambda_handler (with_put_metric_data Sample.rt sink) Sample.cfg
             (VDict [("Records", VList [Sample.good_record])])
             Sample.context Sample.w0) = Ok out.
Proof.
  destruct (Subscriber.lambda_handler Sample.rt Sample.cfg
              (VDict [("Records", VList [Sample.good_record])])
              Sample.context Sample.w0) as [[out|e] w'] eqn:Hrun.
  - exists out, w'. split; [reflexivity|].
    exact (proj1 (metrics_emitted_once Sample.rt Sample.cfg
                    (VDict [("Records", VList [Sample.good_record])])
                    Sample.context Sample.w0 w' out Hrun)).
  - vm_compute in Hrun. discriminate.
Defined.

Lemma event_without_records :
  exists w',
    forall processor,
      fst (Subscriber.lambda_handler_with Sample.rt processor
             (VDict [("source", VStr "aws.events")]) Sample.context Sample.w0)
      = Ok (VDict [("statusCode", VInt 200);
                   ("processedRecords", VInt 0);
                   ("successfulRecords", VInt 0);
                   ("failedRecords", VInt 0);
                   ("results", VList []);
                   ("requestId", VStr "test-request-id")]) /\
      snd (Subscriber.lambda_handler_with Sample.rt processor
             (VDict [("source", VStr "aws.events")]) Sample.context Sample.w0) = w'.
Proof.
  exact (missing_records_is_empty_batch Sample.rt Sample.context
           [("source", VStr "aws.events")] Sample.w0 (or_introl eq_refl)).
Defined.

Lemma record_of_broken_text :
  Subscriber.process_sns_record Sample.rt Sample.cfg
    (Sample.sns_record "m-3" "{not json") Sample.context Sample.w0
  = (Raise (MessageProcessingError
              ("Invalid JSON in SNS message m-3: "
               ++ "Expecting value: line 1 column 1 (char 0)")),
     Sample.w0).
Proof.
  exact (proj1 (undecodable_message_fails Sample.rt Sample.cfg Sample.context
                  (Sample.sns_record "m-3" "{not json")
                  (VDict [("Type", VStr "Notification");
                          ("MessageId", VStr "m-3");
                          ("Message", VStr "{not json");
                          ("MessageAttributes",
                           VDict [("CorrelationId",
                                   VDict [("Type", VStr "String");
                                          ("Value", VStr "test-correlation-id")]);
                                  ("Source",
                                   VDict [("Type", VStr "String");
                                          ("Value", VStr "publisher-lambda")])])])
                  (VStr "m-3") (VStr "{not json") Sample.w0
                  eq_refl eq_refl eq_refl)
           "{not json" "Expecting value: line 1 column 1 (char 0)" eq_refl eq_refl).
Defined.

Lemma empty_record_fails :
  Subscriber.process_sns_record Sample.rt Sample.cfg (VDict []) Sample.context Sample.w0
  = (Raise (MessageProcessingError "Message None missing required field: data"),
     Subscriber.tick Sample.w0).
Proof.
  destruct (record_without_sns_fails Sample.rt Sample.cfg Sample.context []
              Sample.w0
              {| Subscriber.successful_records := 0;
                 Subscriber.failed_records := 0;
                 Subscriber.processing_results := [] |}
              eq_refl eq_refl) as (m & -> & Hrun & _).
  exact Hrun.
Defined.

Lemma identifiers_of_good_record :
  exists out w',
    Subscriber.process_sns_record Sample.rt Sample.cfg Sample.good_record
      Sample.context Sample.w0 = (Ok out, w') /\
    py_getitem out "messageId" = Ok (VStr "m-1") /\
    py_getitem out "correlationId" = Ok (VStr "test-correlation-id") /\
    py_getitem out "source" = Ok (VStr "publisher-lambda").
Proof.
  destruct (Subscriber.process_sns_record Sample.rt Sample.cfg Sample.good_record
              Sample.context Sample.w0) as [[out|e] w'] eqn:Hrun.
  - exists out, w'. split; [reflexivity|].
    destruct (processed_record_keeps_identifiers Sample.rt Sample.cfg Sample.context
                Sample.good_record Sample.w0 w' out Hrun)
      as (sns & Hsns & Hmid & Hcid & Hsrc).
    vm_compute in Hsns. injection Hsns as <-.
    split; [rewrite Hmid; reflexivity|].
    split.
    + eapply Hcid; reflexivity.
    + eapply Hsrc; reflexivity.
  - vm_compute in Hrun. discriminate.
Defined.
